(** * flotilla-os: the EKS execution engine, its adapter and the S3 log tailer

    A shallow embedding of
    - [execution/adapter/eks_adapter.go]  (resource planner, env merging,
      ports, node affinity, both translations between Run and Job),
    - [execution/engine/eks_engine.go]    (Execute, Terminate, Get, GetEvents,
      FetchPodMetrics, FetchUpdateStatus, PollRuns),
    - [clients/logs/k8s_s3_logs_client.go] (object lookup, paginated and
      streaming log reads),
    together with the properties the specification states about them and
    further properties read off the code.

    Conventions.
    - Go [int64] values are [Z]; the planner only selects and compares such
      values, so no wrap-around arises there.
    - A Go pointer field ([*string], [*int64], [*time.Time]) is an [option];
      dereferencing [nil] panics, which the model renders as [None] at the
      level of the function that would panic.
    - A [time.Time] is a [Z] (an instant on some fixed scale); the Go zero
      value [time.Time{}] is [0] and every real instant is positive.
    - Calls to the cluster, to the state manager and to S3 are answered by
      records of functions: the answers are inputs of the model.
    - Telemetry ([metrics.Increment]) and logging never influence control
      flow and are left out. *)

From Stdlib Require Import ZArith Lia Bool Ascii String DecimalString DecimalPos
  SpecFloat.
From stdpp Require Import base option list gmap strings.

Local Open Scope string_scope.
Local Open Scope Z_scope.

(** ** Results of fallible calls *)

Inductive result (A : Type) : Type :=
| Ok (a : A)
| Err (msg : string).
Arguments Ok {A} a.
Arguments Err {A} msg.

(** ** The fragment of Go's [strings] package the sources use *)

Module GoStrings.

(** [strings.HasPrefix(s, prefix)]. *)
Definition HasPrefix (s prefix : string) : bool := String.prefix prefix s.

(** [strings.Contains(s, substr)]: [substr] starts at some position of [s]. *)
Fixpoint Contains (s substr : string) : bool :=
  match s with
  | EmptyString => String.prefix substr EmptyString
  | String _ s' => String.prefix substr s || Contains s' substr
  end.

(** [strings.Replace(s, old, new, n)] for a one-byte [old], the only way the
    sources call it: the first [n] occurrences are replaced, all of them when
    [n < 0]. *)
Fixpoint Replace (s : string) (old : ascii) (new : string) (n : Z) : string :=
  match s with
  | EmptyString => EmptyString
  | String c s' =>
      if n =? 0 then s
      else if Ascii.eqb c old then new +:+ Replace s' old new (n - 1)
      else String c (Replace s' old new n)
  end.

(** [strings.ToLower] on ASCII text: bytes [A]..[Z] are mapped to [a]..[z],
    every other byte is kept.  On text with bytes above 127 Go decodes
    UTF-8 and lowers runes (two of them, U+0130 and U+212A, to the ASCII
    letters [i] and [k]); this model does not follow it there, and the
    statements below that read it are about ASCII messages. *)
Definition lowerByte (c : ascii) : ascii :=
  let n := nat_of_ascii c in
  if ((65 <=? n) && (n <=? 90))%nat then ascii_of_nat (n + 32) else c.

Fixpoint ToLower (s : string) : string :=
  match s with
  | EmptyString => EmptyString
  | String c s' => String (lowerByte c) (ToLower s')
  end.

(** [strings.Join(elems, sep)]. *)
Fixpoint Join (elems : list string) (sep : string) : string :=
  match elems with
  | [] => EmptyString
  | [e] => e
  | e :: rest => e +:+ sep +:+ Join rest sep
  end.

End GoStrings.

(** ** Data model (package [state], as far as the three files read it) *)

Record EnvVar := mkEnvVar { Name : string; Value : string }.

(** [state.PodEvent]. *)
Record PodEvent := mkPodEvent {
  Message : string;
  Timestamp : option Z;
  EventType : string;
  Reason : string;
  SourceObject : string
}.

#[global] Instance EnvVar_eq_dec : EqDecision EnvVar.
Proof. solve_decision. Defined.

#[global] Instance PodEvent_eq_dec : EqDecision PodEvent.
Proof. solve_decision. Defined.

(** Modelled from the spec: [PodEvent.Equal] belongs to package [state], which
    is not part of the sources at hand.  The specification defines it:
    value-equality uses all five fields. *)
Definition PodEvent_Equal (w other : PodEvent) : bool := bool_decide (w = other).

(** [state.PodEventList]; the Go zero value is [{0, nil}]. *)
Record PodEventList := mkPodEventList {
  Total : Z;
  PodEvents_of : list PodEvent
}.

(** Run statuses and node lifecycles are Go strings. *)
Definition StatusQueued : string := "QUEUED".
Definition StatusRunning : string := "RUNNING".
Definition StatusStopped : string := "STOPPED".
Definition SpotLifecycle : string := "spot".
Definition OndemandLifecycle : string := "ondemand".
Definition EKSEngine : string := "eks".

(** [state.Run]. *)
Record Run := mkRun {
  RunID : string;
  DefinitionID : string;
  Image : string;
  Command : option string;
  Env : option (list EnvVar);
  Cpu : option Z;
  Memory : option Z;
  NodeLifecycle : option string;
  Status : string;
  ExitCode : option Z;
  ExitReason : option string;
  StartedAt : option Z;
  FinishedAt : option Z;
  QueuedAt : option Z;
  PodName : option string;
  Namespace : option string;
  ContainerName : option string;
  InstanceDNSName : string;
  MaxCpuUsed : option Z;
  MaxMemoryUsed : option Z;
  PodEvents : option (list PodEvent)
}.

(** The Go zero value [state.Run{}]. *)
Definition zeroRun : Run :=
  mkRun "" "" "" None None None None None "" None None None None None
        None None None "" None None None.

(** Field assignments [run.F = v]: every other field is copied. *)
Definition set_Command (v : option string) (r : Run) : Run :=
  mkRun (RunID r) (DefinitionID r) (Image r) v (Env r) (Cpu r) (Memory r)
       (NodeLifecycle r) (Status r) (ExitCode r) (ExitReason r) (StartedAt r)
       (FinishedAt r) (QueuedAt r) (PodName r) (Namespace r) (ContainerName r)
       (InstanceDNSName r) (MaxCpuUsed r) (MaxMemoryUsed r) (PodEvents r).
Definition set_Cpu (v : option Z) (r : Run) : Run :=
  mkRun (RunID r) (DefinitionID r) (Image r) (Command r) (Env r) v (Memory r)
       (NodeLifecycle r) (Status r) (ExitCode r) (ExitReason r) (StartedAt r)
       (FinishedAt r) (QueuedAt r) (PodName r) (Namespace r) (ContainerName r)
       (InstanceDNSName r) (MaxCpuUsed r) (MaxMemoryUsed r) (PodEvents r).
Definition set_Memory (v : option Z) (r : Run) : Run :=
  mkRun (RunID r) (DefinitionID r) (Image r) (Command r) (Env r) (Cpu r) v
       (NodeLifecycle r) (Status r) (ExitCode r) (ExitReason r) (StartedAt r)
       (FinishedAt r) (QueuedAt r) (PodName r) (Namespace r) (ContainerName r)
       (InstanceDNSName r) (MaxCpuUsed r) (MaxMemoryUsed r) (PodEvents r).
Definition set_NodeLifecycle (v : option string) (r : Run) : Run :=
  mkRun (RunID r) (DefinitionID r) (Image r) (Command r) (Env r) (Cpu r)
       (Memory r) v (Status r) (ExitCode r) (ExitReason r) (StartedAt r)
       (FinishedAt r) (QueuedAt r) (PodName r) (Namespace r) (ContainerName r)
       (InstanceDNSName r) (MaxCpuUsed r) (MaxMemoryUsed r) (PodEvents r).
Definition set_Status (v : string) (r : Run) : Run :=
  mkRun (RunID r) (DefinitionID r) (Image r) (Command r) (Env r) (Cpu r)
       (Memory r) (NodeLifecycle r) v (ExitCode r) (ExitReason r)
       (StartedAt r) (FinishedAt r) (QueuedAt r) (PodName r) (Namespace r)
       (ContainerName r) (InstanceDNSName r) (MaxCpuUsed r) (MaxMemoryUsed r)
       (PodEvents r).
Definition set_ExitCode (v : option Z) (r : Run) : Run :=
  mkRun (RunID r) (DefinitionID r) (Image r) (Command r) (Env r) (Cpu r)
       (Memory r) (NodeLifecycle r) (Status r) v (ExitReason r) (StartedAt r)
       (FinishedAt r) (QueuedAt r) (PodName r) (Namespace r) (ContainerName r)
       (InstanceDNSName r) (MaxCpuUsed r) (MaxMemoryUsed r) (PodEvents r).
Definition set_ExitReason (v : option string) (r : Run) : Run :=
  mkRun (RunID r) (DefinitionID r) (Image r) (Command r) (Env r) (Cpu r)
       (Memory r) (NodeLifecycle r) (Status r) (ExitCode r) v (StartedAt r)
       (FinishedAt r) (QueuedAt r) (PodName r) (Namespace r) (ContainerName r)
       (InstanceDNSName r) (MaxCpuUsed r) (MaxMemoryUsed r) (PodEvents r).
Definition set_StartedAt (v : option Z) (r : Run) : Run :=
  mkRun (RunID r) (DefinitionID r) (Image r) (Command r) (Env r) (Cpu r)
       (Memory r) (NodeLifecycle r) (Status r) (ExitCode r) (ExitReason r) v
       (FinishedAt r) (QueuedAt r) (PodName r) (Namespace r) (ContainerName r)
       (InstanceDNSName r) (MaxCpuUsed r) (MaxMemoryUsed r) (PodEvents r).
Definition set_FinishedAt (v : option Z) (r : Run) : Run :=
  mkRun (RunID r) (DefinitionID r) (Image r) (Command r) (Env r) (Cpu r)
       (Memory r) (NodeLifecycle r) (Status r) (ExitCode r) (ExitReason r)
       (StartedAt r) v (QueuedAt r) (PodName r) (Namespace r)
       (ContainerName r) (InstanceDNSName r) (MaxCpuUsed r) (MaxMemoryUsed r)
       (PodEvents r).
Definition set_PodName (v : option string) (r : Run) : Run :=
  mkRun (RunID r) (DefinitionID r) (Image r) (Command r) (Env r) (Cpu r)
       (Memory r) (NodeLifecycle r) (Status r) (ExitCode r) (ExitReason r)
       (StartedAt r) (FinishedAt r) (QueuedAt r) v (Namespace r)
       (ContainerName r) (InstanceDNSName r) (MaxCpuUsed r) (MaxMemoryUsed r)
       (PodEvents r).
Definition set_Namespace (v : option string) (r : Run) : Run :=
  mkRun (RunID r) (DefinitionID r) (Image r) (Command r) (Env r) (Cpu r)
       (Memory r) (NodeLifecycle r) (Status r) (ExitCode r) (ExitReason r)
       (StartedAt r) (FinishedAt r) (QueuedAt r) (PodName r) v
       (ContainerName r) (InstanceDNSName r) (MaxCpuUsed r) (MaxMemoryUsed r)
       (PodEvents r).
Definition set_ContainerName (v : option string) (r : Run) : Run :=
  mkRun (RunID r) (DefinitionID r) (Image r) (Command r) (Env r) (Cpu r)
       (Memory r) (NodeLifecycle r) (Status r) (ExitCode r) (ExitReason r)
       (StartedAt r) (FinishedAt r) (QueuedAt r) (PodName r) (Namespace r) v
       (InstanceDNSName r) (MaxCpuUsed r) (MaxMemoryUsed r) (PodEvents r).
Definition set_InstanceDNSName (v : string) (r : Run) : Run :=
  mkRun (RunID r) (DefinitionID r) (Image r) (Command r) (Env r) (Cpu r)
       (Memory r) (NodeLifecycle r) (Status r) (ExitCode r) (ExitReason r)
       (StartedAt r) (FinishedAt r) (QueuedAt r) (PodName r) (Namespace r)
       (ContainerName r) v (MaxCpuUsed r) (MaxMemoryUsed r) (PodEvents r).
Definition set_MaxCpuUsed (v : option Z) (r : Run) : Run :=
  mkRun (RunID r) (DefinitionID r) (Image r) (Command r) (Env r) (Cpu r)
       (Memory r) (NodeLifecycle r) (Status r) (ExitCode r) (ExitReason r)
       (StartedAt r) (FinishedAt r) (QueuedAt r) (PodName r) (Namespace r)
       (ContainerName r) (InstanceDNSName r) v (MaxMemoryUsed r) (PodEvents r).
Definition set_MaxMemoryUsed (v : option Z) (r : Run) : Run :=
  mkRun (RunID r) (DefinitionID r) (Image r) (Command r) (Env r) (Cpu r)
       (Memory r) (NodeLifecycle r) (Status r) (ExitCode r) (ExitReason r)
       (StartedAt r) (FinishedAt r) (QueuedAt r) (PodName r) (Namespace r)
       (ContainerName r) (InstanceDNSName r) (MaxCpuUsed r) v (PodEvents r).
Definition set_PodEvents (v : option (list PodEvent)) (r : Run) : Run :=
  mkRun (RunID r) (DefinitionID r) (Image r) (Command r) (Env r) (Cpu r)
       (Memory r) (NodeLifecycle r) (Status r) (ExitCode r) (ExitReason r)
       (StartedAt r) (FinishedAt r) (QueuedAt r) (PodName r) (Namespace r)
       (ContainerName r) (InstanceDNSName r) (MaxCpuUsed r) (MaxMemoryUsed r)
       v.

(** [state.ExecutableResources] and the [state.Executable] interface
    ([GetExecutableID], [GetExecutableResources]). *)
Record ExecutableResources := mkExecutableResources {
  ResImage : string;
  ResMemory : option Z;
  ResGpu : option Z;
  ResCpu : option Z;
  ResEnv : option (list EnvVar);
  AdaptiveResourceAllocation : option bool;
  ResPorts : option (list Z)
}.

Record Executable := mkExecutable {
  GetExecutableID : option string;
  GetExecutableResources : ExecutableResources
}.

(** [state.TaskResources], the answer of [EstimateRunResources]. *)
Record TaskResources := mkTaskResources { EstCpu : Z; EstMemory : Z }.

(** The part of the [state.Manager] interface the adapter consumes:
    [ListRuns(limit, offset, sortBy, order, filters, envFilters, engines)]
    and [EstimateRunResources(definitionID, runID)]. *)
Record Manager := mkManager {
  ListRuns : Z -> Z -> string -> string -> list (string * list string) ->
             option (list (string * string)) -> list string ->
             result (list Run);
  EstimateRunResources : string -> string -> result TaskResources
}.

(** ** Cluster objects (packages [corev1], [batchv1], [metav1], metrics)

    Only the fields the three files read or write.  A [resource.Quantity] is
    kept at the scale the sources read it back at: CPU in millicores
    ([ScaledValue(resource.Milli)], [MilliValue]), memory in megabytes
    ([ScaledValue(resource.Mega)]). *)

Module corev1.

Record ResourceList := mkResourceList {
  cpu : Z;
  memory : Z;
  gpu : option Z
}.

Record Container := mkContainer {
  Name : string;
  Image : string;
  Command : list string;
  Limits : ResourceList;
  Requests : ResourceList;
  Env : list EnvVar
}.

Record ContainerStateTerminated := mkTerminated {
  Reason : string;
  ExitCode : Z
}.

Record ContainerStatus := mkContainerStatus {
  Terminated : option ContainerStateTerminated
}.

Record Pod := mkPod {
  PodName : string;
  PodNamespace : string;
  CreationTimestamp : Z;
  NodeName : string;
  Containers : list Container;
  ContainerStatuses : list ContainerStatus
}.

(** The Go zero value [v1.Pod{}]. *)
Definition zeroPod : Pod := mkPod "" "" 0 "" [] [].

(** [*v1.PodList]: [Items] may be a nil slice. *)
Record PodList := mkPodList { Items : option (list Pod) }.

Record Event := mkEvent {
  EventMessage : string;
  FirstTimestamp : Z;
  Type_ : string;
  EventReason : string;
  EventName : string
}.

Record ContainerMetrics := mkContainerMetrics {
  UsageCpu : Z;
  UsageMemory : Z
}.

Record PodMetrics := mkPodMetrics { MetricsContainers : list ContainerMetrics }.

(** [corev1.NodeSelectorOperator], as far as the adapter uses it. *)
Inductive NodeSelectorOperator := NodeSelectorOpIn | NodeSelectorOpNotIn.

(** [corev1.NodeSelectorRequirement]. *)
Record NodeSelectorRequirement := mkNodeSelectorRequirement {
  Key : string;
  Operator : NodeSelectorOperator;
  Values : list string
}.

End corev1.

Module batchv1.

Record JobStatus := mkJobStatus {
  Active : Z;
  Succeeded : Z;
  Failed : Z;
  StartTime : option Z;
  CompletionTime : option Z
}.

(** The manifest keeps the Job's name, its single container, the scheduling
    inputs passed through and the deadline; ports, affinity (a [float64]
    ratio test), annotations and the constant back-off and TTL fields are
    not read by any property below and are left out. *)
Record Job := mkJob {
  JobName : string;
  JobContainers : list corev1.Container;
  SchedulerName : string;
  ServiceAccountName : string;
  ActiveDeadlineSeconds : Z;
  Status : JobStatus
}.

Definition set_Failed (v : Z) (j : Job) : Job :=
  mkJob (JobName j) (JobContainers j) (SchedulerName j) (ServiceAccountName j)
        (ActiveDeadlineSeconds j)
        (mkJobStatus (Active (Status j)) (Succeeded (Status j)) v
                     (StartTime (Status j)) (CompletionTime (Status j))).

End batchv1.

(** ** [execution/adapter/eks_adapter.go] *)

Module adapter.

Section EKSAdapter.

(** Process-wide constants of package [state] (not among the sources). *)
Variables MinCPU MaxCPU MinMem MaxMem : Z.
Variables SpotActiveDeadlineSeconds OndemandActiveDeadlineSeconds : Z.

(** [time.Now().AddDate(0, 0, -7).Format(time.RFC3339)] at the time of the
    call: the clock and its rendering are inputs. *)
Variable queuedAtSince : string.

(** [checkResourceBounds]. *)
Definition checkResourceBounds (cpu mem : Z) : Z * Z :=
  let cpu := if cpu <? MinCPU then MinCPU else cpu in
  let cpu := if cpu >? MaxCPU then MaxCPU else cpu in
  let mem := if mem <? MinMem then MinMem else mem in
  let mem := if mem >? MaxMem then MaxMem else mem in
  (cpu, mem).

(** [p != nil && *p != 0]. *)
Definition nonZero (p : option Z) : option Z :=
  match p with
  | Some v => if v =? 0 then None else Some v
  | None => None
  end.

(** [getResourceDefaults]. *)
Definition getResourceDefaults (run : Run) (executable : Executable) : Z * Z :=
  let executableResources := GetExecutableResources executable in
  let cpu :=
    match nonZero (Cpu run) with
    | Some v => v
    | None => default MinCPU (nonZero (ResCpu executableResources))
    end in
  let mem :=
    match nonZero (Memory run) with
    | Some v => v
    | None => default MinMem (nonZero (ResMemory executableResources))
    end in
  let cpu :=
    if (mem >=? 36864) && (mem <? 131072)
       && bool_decide (nonZero (ResGpu executableResources) = None)
    then
      let cpuOverride := Z.quot mem 8 in
      if cpuOverride >? cpu then cpuOverride else cpu
    else cpu in
  (cpu, mem).

(** [getLastRun].  [*run.Command] panics on a nil command. *)
Definition getLastRun (manager : Manager) (run : Run) : option Run :=
  command ← Command run;
  let runList :=
    ListRuns manager 1 0 "started_at" "desc"
      [ ("queued_at_since", [queuedAtSince]);
        ("status", [StatusStopped]);
        ("command", [GoStrings.Replace command "'"%char "''" (-1)]);
        ("definition_id", [DefinitionID run]) ]
      None [EKSEngine] in
  Some match runList with
       | Ok (lastRun :: _) => lastRun
       | _ => zeroRun
       end.

(** [float64(m)] for an [int64] value: IEEE 754 binary64 (53-bit
    significand), rounded to nearest, ties to even. *)
Definition float64 (m : Z) : spec_float := binary_normalize 53 1024 m 0 false.

(** [int64(f)]: the fraction is discarded (truncation toward zero).  For a
    value that [int64] cannot hold, an infinity or a NaN, Go leaves the
    result to the implementation; the value given here, [-2^63], is the one
    amd64 produces.  Every statement below that reads this conversion is
    restricted to arguments for which the value fits. *)
Definition int64_of_float64 (f : spec_float) : Z :=
  match f with
  | S754_zero _ => 0
  | S754_finite s m e =>
      let v :=
        if 0 <=? e then Z.pos m * 2 ^ e else Z.quot (Z.pos m) (2 ^ (- e)) in
      let v := if s then - v else v in
      if (- 2 ^ 63 <=? v) && (v <? 2 ^ 63) then v else - 2 ^ 63
  | _ => - 2 ^ 63
  end.

(** [int64(float64(m) * 1.75)]: the conversion to [float64], the product
    with the constant [1.75 = 7 × 2^-2] in binary64, and the conversion
    back. *)
Definition scaleOOMMemory (m : Z) : Z :=
  int64_of_float64
    (SFmul 53 1024 (float64 m) (binary_normalize 53 1024 7 (-2) false)).

(** The adaptive block of [adaptiveResources]: from the default requests to
    the requests handed to the limit-raise and clamping steps. *)
Definition adaptiveRequests (executable : Executable) (run : Run)
    (manager : Manager) (araEnabled : bool) (cpuRequest memRequest : Z)
    : option (Z * Z) :=
  let executableResources := GetExecutableResources executable in
  if araEnabled
     && bool_decide (AdaptiveResourceAllocation executableResources = Some true)
  then
    lastRun ← getLastRun manager run;
    if match ExitReason lastRun with
       | Some reason => GoStrings.Contains reason "OOMKilled"
       | None => false
       end
    then
      lastMemory ← Memory lastRun;
      lastCpu ← Cpu lastRun;
      Some (lastCpu, scaleOOMMemory lastMemory)
    else
      executableID ← GetExecutableID executable;
      match EstimateRunResources manager executableID (RunID run) with
      | Ok estimatedResources =>
          Some (EstCpu estimatedResources, EstMemory estimatedResources)
      | Err _ => Some (cpuRequest, memRequest)
      end
  else Some (cpuRequest, memRequest).

(** [adaptiveResources]: [(cpuLimit, memLimit, cpuRequest, memRequest)]. *)
Definition adaptiveResources (executable : Executable) (run : Run)
    (manager : Manager) (araEnabled : bool) : option (Z * Z * Z * Z) :=
  let '(cpuLimit, memLimit) := getResourceDefaults run executable in
  let '(cpuRequest, memRequest) := getResourceDefaults run executable in
  '(cpuRequest, memRequest) ←
    adaptiveRequests executable run manager araEnabled cpuRequest memRequest;
  let cpuLimit := if cpuRequest >? cpuLimit then cpuRequest else cpuLimit in
  let memLimit := if memRequest >? memLimit then memRequest else memLimit in
  let '(cpuRequest, memRequest) := checkResourceBounds cpuRequest memRequest in
  let '(cpuLimit, memLimit) := checkResourceBounds cpuLimit memLimit in
  Some (cpuLimit, memLimit, cpuRequest, memRequest).

(** [constructResourceRequirements]: limits, requests and the run with the
    granted shape fed back. *)
Definition constructResourceRequirements (executable : Executable) (run : Run)
    (manager : Manager) (araEnabled : bool)
    : option (corev1.ResourceList * corev1.ResourceList * Run) :=
  '(cpuLimit, memLimit, cpuRequest, memRequest) ←
    adaptiveResources executable run manager araEnabled;
  let executableResources := GetExecutableResources executable in
  let hasGpu :=
    match ResGpu executableResources with
    | Some g => g >? 0
    | None => false
    end in
  let gpus := if hasGpu then ResGpu executableResources else None in
  let run :=
    if hasGpu then set_NodeLifecycle (Some OndemandLifecycle) run else run in
  let run := set_Memory (Some memRequest) run in
  let run := set_Cpu (Some cpuRequest) run in
  Some (corev1.mkResourceList cpuLimit memLimit gpus,
        corev1.mkResourceList cpuRequest memRequest gpus,
        run).

(** [constructCmdSlice]. *)
Definition constructCmdSlice (cmdString : string) : list string :=
  ["bash"; "-l"; "-cex"; cmdString].

(** [sanitizeEnvVar]. *)
Definition sanitizeEnvVar (key : string) : string :=
  let key :=
    if GoStrings.HasPrefix key "$" then GoStrings.Replace key "$"%char "" 1
    else key in
  GoStrings.Replace key " "%char "" (-1).

(** [envOverrides].  [pairs] is a Go map; the order in which the final
    loop visits it is unspecified in Go and is [map_to_list]'s here.
    [*resources.Env] and [*run.Env] panic on nil. *)
Definition envOverrides (executable : Executable) (run : Run)
    : option (list EnvVar) :=
  let resources := GetExecutableResources executable in
  definitionEnv ← ResEnv resources;
  runEnv ← Env run;
  let store (pairs : gmap string string) (ev : EnvVar) :=
    <[sanitizeEnvVar (Name ev) := Value ev]> pairs in
  let pairs := foldl store ∅ definitionEnv in
  let pairs := foldl store pairs runEnv in
  Some (omap (λ kv : string * string,
                if (0 <? Z.of_nat (String.length kv.1))
                then Some (mkEnvVar kv.1 kv.2) else None)
             (map_to_list pairs)).

(** The [Terminated] state of the pod's last container status, when the
    pod, a container status and that state are all present. *)
Definition lastTerminated (pod : option corev1.Pod)
    : option corev1.ContainerStateTerminated :=
  p ← pod;
  containerStatus ← last (corev1.ContainerStatuses p);
  corev1.Terminated containerStatus.

(** [pod.Spec.Containers[0]] when the pod is present and has containers. *)
Definition firstContainer (pod : option corev1.Pod) : option corev1.Container :=
  p ← pod;
  head (corev1.Containers p).

(** [AdaptJobToFlotillaRun].  [now] is the reading of [time.Now()]; the
    returned error is always nil and is not modelled. *)
Definition AdaptJobToFlotillaRun (now : Z) (job : batchv1.Job) (run : Run)
    (pod : option corev1.Pod) : Run :=
  let status := batchv1.Status job in
  let updated := run in
  let updated :=
    if (batchv1.Active status =? 1)
       && bool_decide (batchv1.CompletionTime status = None)
    then set_Status StatusRunning updated
    else if batchv1.Succeeded status =? 1 then
      set_ExitCode (Some 0) (set_Status StatusStopped updated)
    else if batchv1.Failed status =? 1 then
      let updated := set_Status StatusStopped updated in
      match lastTerminated pod with
      | Some terminated =>
          set_ExitCode (Some (corev1.ExitCode terminated))
            (set_ExitReason (Some (corev1.Reason terminated)) updated)
      | None => set_ExitCode (Some 1) updated
      end
    else updated in
  let updated :=
    match firstContainer pod with
    | Some container =>
        if 3 <? Z.of_nat (length (corev1.Command container))
        then set_Command
               (Some (GoStrings.Join (drop 3 (corev1.Command container))
                                     (String "010"%char EmptyString)))
               updated
        else updated
    | None => updated
    end in
  let updated :=
    match batchv1.StartTime status with
    | Some t => set_StartedAt (Some t) updated
    | None => updated
    end in
  if bool_decide (Status updated = StatusStopped) then
    match batchv1.CompletionTime status with
    | Some t => set_FinishedAt (Some t) updated
    | None => set_FinishedAt (Some now) updated
    end
  else updated.

(** [AdaptFlotillaDefinitionAndRunToJob]; [*run.NodeLifecycle] panics on
    nil.  The returned error is always nil. *)
Definition AdaptFlotillaDefinitionAndRunToJob (executable : Executable)
    (run : Run) (sa schedulerName : string) (manager : Manager)
    (araEnabled : bool) : option batchv1.Job :=
  let cmd :=
    match Command run with
    | Some c => if 0 <? Z.of_nat (String.length c) then c else ""
    | None => ""
    end in
  let cmdSlice := constructCmdSlice cmd in
  let cmd := GoStrings.Join (drop 3 cmdSlice) (String "010"%char EmptyString) in
  let run := set_Command (Some cmd) run in
  '(limits, requests, run) ←
    constructResourceRequirements executable run manager araEnabled;
  env ← envOverrides executable run;
  let container :=
    corev1.mkContainer (RunID run) (Image run) cmdSlice limits requests env in
  nodeLifecycle ← NodeLifecycle run;
  let activeDeadlineSeconds :=
    if bool_decide (nodeLifecycle = OndemandLifecycle)
    then OndemandActiveDeadlineSeconds else SpotActiveDeadlineSeconds in
  Some (batchv1.mkJob (RunID run) [container] schedulerName sa
                      activeDeadlineSeconds
                      (batchv1.mkJobStatus 0 0 0 None None)).

(** [int32(port)]: the conversion of a Go [int] (64 bits) keeps the low 32
    bits, read as a signed number. *)
Definition int32 (x : Z) : Z := (x + 2 ^ 31) mod 2 ^ 32 - 2 ^ 31.

(** [constructContainerPorts]: the [ContainerPort] numbers, in order; the
    other fields of [corev1.ContainerPort] stay zero.  A nil and an empty
    port list both give the nil slice. *)
Definition constructContainerPorts (executable : Executable) : list Z :=
  let executableResources := GetExecutableResources executable in
  match ResPorts executableResources with
  | Some ports =>
      if 0 <? Z.of_nat (length ports) then map int32 ports else []
  | None => []
  end.

(** [float64(cpu) / float64(mem) >= 0.5], computed in IEEE 754 binary64. *)
Definition cpuToMemoryAtLeastHalf (cpu mem : Z) : bool :=
  match SFcompare (SFdiv 53 1024 (float64 cpu) (float64 mem))
                  (binary_normalize 53 1024 1 (-1) false) with
  | Some Gt | Some Eq => true
  | _ => false
  end.

Definition gpuNodeTypes : list string :=
  ["p3.2xlarge"; "p3.8xlarge"; "p3.16xlarge"].
Definition cpuNodeTypes : list string :=
  ["c5.2xlarge"; "c5.4xlarge"; "c5.9xlarge"].

(** [constructAffinity]: the [MatchExpressions] of the single node selector
    term of the required node affinity.  [*run.NodeLifecycle] panics on
    nil. *)
Definition constructAffinity (executable : Executable) (run : Run)
    : option (list corev1.NodeSelectorRequirement) :=
  let executableResources := GetExecutableResources executable in
  lifecycle ← NodeLifecycle run;
  let nodeLifecycle :=
    if bool_decide (lifecycle = OndemandLifecycle)
    then ["normal"] else ["spot"] in
  let requiredMatch :=
    if match ResGpu executableResources with
       | Some g => g <=? 0
       | None => true
       end
    then
      corev1.mkNodeSelectorRequirement
        "beta.kubernetes.io/instance-type" corev1.NodeSelectorOpNotIn
        gpuNodeTypes
      :: (if match Memory run, Cpu run with
             | Some mem, Some cpu =>
                 (cpu >? 0) && (mem >? 0) && cpuToMemoryAtLeastHalf cpu mem
             | _, _ => false
             end
          then [corev1.mkNodeSelectorRequirement
                  "beta.kubernetes.io/instance-type" corev1.NodeSelectorOpIn
                  cpuNodeTypes]
          else [])
    else [] in
  Some (app requiredMatch
            [corev1.mkNodeSelectorRequirement
               "kubernetes.io/lifecycle" corev1.NodeSelectorOpIn
               nodeLifecycle]).

(** The affinity [AdaptFlotillaDefinitionAndRunToJob] attaches to the pod
    template: [constructAffinity] reads the run handed back by
    [constructResourceRequirements], after the command has been set. *)
Definition jobAffinity (executable : Executable) (run : Run)
    (manager : Manager) (araEnabled : bool)
    : option (list corev1.NodeSelectorRequirement) :=
  let cmd :=
    match Command run with
    | Some c => if 0 <? Z.of_nat (String.length c) then c else ""
    | None => ""
    end in
  let cmdSlice := constructCmdSlice cmd in
  let cmd := GoStrings.Join (drop 3 cmdSlice) (String "010"%char EmptyString) in
  let run := set_Command (Some cmd) run in
  '(_, _, run) ←
    constructResourceRequirements executable run manager araEnabled;
  _ ← envOverrides executable run;
  constructAffinity executable run.

End EKSAdapter.

End adapter.

(** ** [execution/engine/eks_engine.go] *)

Module engine.

(** The [EKSAdapter] interface the engine holds in its [adapter] field. *)
Record EKSAdapter := mkEKSAdapter {
  AdaptJobToFlotillaRun : Z -> batchv1.Job -> Run -> option corev1.Pod -> Run;
  AdaptFlotillaDefinitionAndRunToJob :
    Executable -> Run -> string -> string -> Manager -> bool ->
    option batchv1.Job
}.

(** [adapter.NewEKSAdapter()], for given constants of package [state] and a
    given rendering of the seven-days-ago instant. *)
Definition NewEKSAdapter (MinCPU MaxCPU MinMem MaxMem : Z)
    (SpotActiveDeadlineSeconds OndemandActiveDeadlineSeconds : Z)
    (queuedAtSince : string) : EKSAdapter :=
  mkEKSAdapter
    adapter.AdaptJobToFlotillaRun
    (adapter.AdaptFlotillaDefinitionAndRunToJob
       MinCPU MaxCPU MinMem MaxMem
       SpotActiveDeadlineSeconds OndemandActiveDeadlineSeconds queuedAtSince).

(** The answers of the cluster ([kClient], [metricsClient]) in the engine's
    namespace.  An [error] is its message; [PodsList] answers with a pair
    (list pointer, error), as the Go call does: either may be nil. *)
Record KubeClient := mkKubeClient {
  JobsCreate : batchv1.Job -> result batchv1.Job;
  JobsGet : string -> result batchv1.Job;
  JobsDelete : string -> option string;
  PodsList : string -> option corev1.PodList * option string;
  PodsDelete : string -> option string;
  EventsList : string -> result (list corev1.Event);
  PodMetricsesGet : string -> result corev1.PodMetrics
}.

(** [EKSExecutionEngine].  [Execute] in the sources at hand passes four
    arguments to an adapter method that takes six; the state manager and the
    adaptive-allocation switch it lacks are fields here. *)
Record EKSExecutionEngine := mkEngine {
  kClient : KubeClient;
  adapter : EKSAdapter;
  manager : Manager;
  araEnabled : bool;
  jobSA : string;
  schedulerName : string
}.

(** Deletions the engine asks the cluster for, in the order issued. *)
Inductive Action :=
| DeleteJob (name : string)
| DeletePod (name : string).

(** [time.Hour], instants being counted in nanoseconds. *)
Definition Hour : Z := 3600 * 1000000000.

(** [getPodList]. *)
Definition getPodList (ee : EKSExecutionEngine) (run : Run)
    : option corev1.PodList * option string :=
  PodsList (kClient ee) ("job-name=" +:+ RunID run).

(** [getInstanceDetails]. *)
Definition getInstanceDetails (pod : corev1.Pod) (run : Run) : Run :=
  if 0 <? Z.of_nat (String.length (corev1.NodeName pod))
  then set_InstanceDNSName (corev1.NodeName pod) run
  else run.

(** [podList.Items] when [podList != nil && podList.Items != nil]. *)
Definition itemsOf (podList : option corev1.PodList) : option (list corev1.Pod) :=
  pl ← podList; corev1.Items pl.

(** [getPodName]. *)
Definition getPodName (ee : EKSExecutionEngine) (run : Run) : Run * option string :=
  let '(podList, err) := getPodList ee run in
  match err with
  | Some e => (run, Some e)
  | None =>
      match itemsOf podList ≫= last with
      | Some pod =>
          let run := set_PodName (Some (corev1.PodName pod)) run in
          let run := set_Namespace (Some (corev1.PodNamespace pod)) run in
          match last (corev1.Containers pod) with
          | Some container =>
              let run := set_ContainerName (Some (corev1.Name container)) run in
              let cpu := corev1.cpu (corev1.Limits container) in
              let run := set_Cpu (Some cpu) run in
              let run := getInstanceDetails pod run in
              let mem := corev1.memory (corev1.Limits container) in
              let run := set_Memory (Some mem) run in
              (run, None)
          | None => (run, None)
          end
      | None => (run, None)
      end
  end.

(** [Execute]: [(run, retryable, err)].  The manifest builder panics on nil
    [Env] or [NodeLifecycle] pointers, hence the [option]. *)
Definition Execute (ee : EKSExecutionEngine) (now : Z) (td : Executable)
    (run : Run) : option (Run * bool * option string) :=
  job ← AdaptFlotillaDefinitionAndRunToJob (adapter ee) td run
          (jobSA ee) (schedulerName ee) (manager ee) (araEnabled ee);
  match JobsCreate (kClient ee) job with
  | Err err =>
      if GoStrings.Contains (GoStrings.ToLower err) "already exists" then
        Some (run, false, None)
      else if GoStrings.Contains (GoStrings.ToLower err) "is invalid" then
        let exitReason := err in
        let run := set_ExitReason (Some exitReason) run in
        Some (run, false, Some err)
      else Some (run, true, Some err)
  | Ok result =>
      let run := (getPodName ee run).1 in
      let adaptedRun := AdaptJobToFlotillaRun (adapter ee) now result run None in
      Some (adaptedRun, false, None)
  end.

(** [Terminate]: the error returned and the deletions issued. *)
Definition Terminate (ee : EKSExecutionEngine) (run : Run)
    : option string * list Action :=
  let err := JobsDelete (kClient ee) (RunID run) in
  let podDeletion :=
    match PodName run with
    | Some podName => let _ := PodsDelete (kClient ee) podName in [DeletePod podName]
    | None => []
    end in
  (err, DeleteJob (RunID run) :: podDeletion).

(** [GetEvents]. *)
Definition GetEvents (ee : EKSExecutionEngine) (run : Run)
    : PodEventList * option string :=
  match PodName run with
  | None => (mkPodEventList 0 [], None)
  | Some podName =>
      match EventsList (kClient ee) ("involvedObject.name==" +:+ podName) with
      | Err err =>
          (mkPodEventList 0 [],
           Some ("error getting kubernetes event for flotilla run " +:+ err))
      | Ok items =>
          let podEvents :=
            map (λ e, mkPodEvent (corev1.EventMessage e)
                                 (Some (corev1.FirstTimestamp e))
                                 (corev1.Type_ e)
                                 (corev1.EventReason e)
                                 (corev1.EventName e)) items in
          (mkPodEventList (Z.of_nat (length podEvents)) podEvents, None)
      end
  end.

(** The guard of both watermark updates:
    [w == nil || *w == 0 || *w < usage]. *)
Definition watermarkBelow (w : option Z) (usage : Z) : bool :=
  match w with
  | None => true
  | Some v => (v =? 0) || (v <? usage)
  end.

(** [FetchPodMetrics]. *)
Definition FetchPodMetrics (ee : EKSExecutionEngine) (run : Run)
    : Run * option string :=
  match PodName run with
  | Some podName =>
      match PodMetricsesGet (kClient ee) podName with
      | Err err => (run, Some err)
      | Ok podMetrics =>
          match head (corev1.MetricsContainers podMetrics) with
          | Some containerMetrics =>
              let mem := corev1.UsageMemory containerMetrics in
              let run :=
                if watermarkBelow (MaxMemoryUsed run) mem
                then set_MaxMemoryUsed (Some mem) run else run in
              let cpu := corev1.UsageCpu containerMetrics in
              let run :=
                if watermarkBelow (MaxCpuUsed run) cpu
                then set_MaxCpuUsed (Some cpu) run else run in
              (run, None)
          | None => (run, None)
          end
      end
  | None => (run, Some "no pod associated with the run.")
  end.

(** *** The pod scan of [FetchUpdateStatus]

    [for _, p := range podList.Items { ... mostRecentPod = &p ... }].
    In the Go versions this repository was written for (before 1.22) the
    range clause declares ONE variable [p] for the whole loop and every
    iteration assigns the next item to it.  [mostRecentPod] is therefore
    either nil or the address of that variable, and reading through it
    yields whatever [p] holds at the time of the read. *)
Inductive podRef := nilPod | addrOfP.

Record scanState := mkScan {
  p : corev1.Pod;
  mostRecentPod : podRef;
  mostRecentPodCreationTimestamp : Z
}.

(** One iteration: [p] receives the item, then the test and the two
    assignments.  [metav1.Time.Before] is strict. *)
Definition scanStep (items : list corev1.Pod) (st : scanState)
    (item : corev1.Pod) : scanState :=
  let st := mkScan item (mostRecentPod st) (mostRecentPodCreationTimestamp st) in
  if (mostRecentPodCreationTimestamp st <? corev1.CreationTimestamp (p st))
     || (Z.of_nat (length items) =? 1)
  then mkScan (p st) addrOfP (corev1.CreationTimestamp (p st))
  else st.

Definition scanPods (items : list corev1.Pod) : scanState :=
  foldl (scanStep items) (mkScan corev1.zeroPod nilPod 0) items.

(** [*mostRecentPod] after the loop. *)
Definition deref (st : scanState) : option corev1.Pod :=
  match mostRecentPod st with
  | nilPod => None
  | addrOfP => Some (p st)
  end.

(** The event merge of [FetchUpdateStatus] when prior events exist: every
    new event is compared with the current [priorEvents] (which already holds
    the events appended in earlier iterations) and appended when unseen. *)
Fixpoint appendUnseen (priorEvents newEvents : list PodEvent) : list PodEvent :=
  match newEvents with
  | [] => priorEvents
  | newEvent :: rest =>
      let unseen :=
        negb (existsb (λ priorEvent, PodEvent_Equal priorEvent newEvent)
                      priorEvents) in
      appendUnseen (if unseen then priorEvents ++ [newEvent] else priorEvents)
                   rest
  end.

Definition mergeEvents (run : Run) (events : PodEventList) : Run :=
  let newEvents := PodEvents_of events in
  match PodEvents run with
  | Some ((_ :: _) as priorEvents) =>
      set_PodEvents (Some (appendUnseen priorEvents newEvents)) run
  | _ => set_PodEvents (Some newEvents) run
  end.

(** The block of [FetchUpdateStatus] run for a non-empty pod list: the scan,
    then the pod name, instance and container refreshes. *)
Definition adoptMostRecentPod (items : list corev1.Pod) (run : Run)
    : Run * option corev1.Pod :=
  let mostRecentPod := deref (scanPods items) in
  match mostRecentPod with
  | Some pod =>
      let run :=
        if bool_decide (PodName run ≠ Some (corev1.PodName pod))
        then getInstanceDetails pod (set_PodName (Some (corev1.PodName pod)) run)
        else run in
      let run :=
        if Z.of_nat (String.length (InstanceDNSName run)) =? 0
        then getInstanceDetails pod run else run in
      let run :=
        match last (corev1.Containers pod) with
        | Some container =>
            let run := set_ContainerName (Some (corev1.Name container)) run in
            let run := set_Cpu (Some (corev1.cpu (corev1.Limits container))) run in
            set_Memory (Some (corev1.memory (corev1.Limits container))) run
        | None => run
        end in
      (run, mostRecentPod)
  | None => (run, None)
  end.

(** The guarded first block of [FetchUpdateStatus]:
    [if err == nil && podList != nil && podList.Items != nil
        && len(podList.Items) > 0 { ... }]. *)
Definition refreshFromPods (podList : option corev1.PodList) (err : option string)
    (run : Run) : Run * option corev1.Pod :=
  match err, itemsOf podList with
  | None, Some ((_ :: _) as items) => adoptMostRecentPod items run
  | _, _ => (run, None)
  end.

(** The test of the dangling-job block.  Go evaluates the conjuncts left to
    right and stops at the first false one; the last, [run.QueuedAt.Before],
    panics on a nil [QueuedAt], hence the [option]. *)
Definition isDangling (err : option string) (podList : option corev1.PodList)
    (run : Run) (hoursBack : Z) : option bool :=
  if bool_decide (err = None)
     && match itemsOf podList with Some [] => true | _ => false end
     && bool_decide (PodName run ≠ None)
  then queuedAt ← QueuedAt run; Some (queuedAt <? hoursBack)
  else Some false.

(** [FetchUpdateStatus]: the run and error returned and the deletions
    issued.  [now] is the clock reading behind [hoursBack], [now'] the later
    one taken by the adapter. *)
Definition FetchUpdateStatus (ee : EKSExecutionEngine) (now now' : Z)
    (run : Run) : option (Run * option string * list Action) :=
  match JobsGet (kClient ee) (RunID run) with
  | Err err => Some (run, Some err, [])
  | Ok job =>
      let '(podList, err) := getPodList ee run in
      let '(run, mostRecentPod) := refreshFromPods podList err run in
      let run := (FetchPodMetrics ee run).1 in
      let hoursBack := now - 24 * Hour in
      let '(events, err) := GetEvents ee run in
      let run :=
        if bool_decide (err = None)
           && (0 <? Z.of_nat (length (PodEvents_of events)))
        then mergeEvents run events else run in
      dangling ← isDangling err podList run hoursBack;
      if dangling : bool then
        let '(err, actions) := Terminate ee run in
        let '(job, mostRecentPod) :=
          match err with
          | None => (batchv1.set_Failed 1 job, None)
          | Some _ => (job, mostRecentPod)
          end in
        Some (AdaptJobToFlotillaRun (adapter ee) now' job run mostRecentPod,
              None, actions)
      else
        Some (AdaptJobToFlotillaRun (adapter ee) now' job run mostRecentPod,
              None, [])
  end.

(** [Get]: the adapter is called with a nil pod; its error is always nil.
    [state.Run{}] is returned beside an error. *)
Definition Get (ee : EKSExecutionEngine) (now : Z) (run : Run)
    : Run * option string :=
  match JobsGet (kClient ee) (RunID run) with
  | Err err => (zeroRun, Some ("error getting kubernetes job " +:+ err))
  | Ok job => (AdaptJobToFlotillaRun (adapter ee) now job run None, None)
  end.

(** [queue.RunReceipt] as far as the engine reads it, and the two calls of
    the [queue.Manager] interface behind [PollRuns] (package [queue] is not
    among the sources). *)
Record RunReceipt := mkRunReceipt { ReceiptRun : option Run }.

Record QueueManager := mkQueueManager {
  QurlFor : string -> bool -> result string;
  ReceiveRun : string -> result RunReceipt
}.

(** [PollRuns]; the engine's [qm] and [jobQueue] fields are arguments.
    [errors.Wrap(err, msg)] reads [msg: err]. *)
Definition PollRuns (qm : QueueManager) (jobQueue : string)
    : list RunReceipt * option string :=
  match QurlFor qm jobQueue false with
  | Err err => ([], Some ("problem listing queues to poll: " +:+ err))
  | Ok qurl =>
      let queues := [qurl] in
      let poll (st : list RunReceipt * option string) (qurl : string) :=
        match st.2 with
        | Some _ => st
        | None =>
            match ReceiveRun qm qurl with
            | Err err =>
                (st.1,
                 Some ("problem receiving run from queue url [" +:+ qurl
                       +:+ "]: " +:+ err))
            | Ok runReceipt =>
                match ReceiptRun runReceipt with
                | None => st
                | Some _ => (app st.1 [runReceipt], None)
                end
            end
        end in
      foldl poll ([], None) queues
  end.

End engine.

(** ** [clients/logs/k8s_s3_logs_client.go] *)

Module logs.

(** [strconv.ParseInt(s, 10, 64)]: an optional sign, then at least one
    decimal digit and nothing else; values outside [int64] are errors. *)
Definition digitValue (c : ascii) : option Z :=
  let n := Z.of_nat (nat_of_ascii c) in
  if (48 <=? n) && (n <=? 57) then Some (n - 48) else None.

Fixpoint parseDigits (s : string) (acc : Z) : option Z :=
  match s with
  | EmptyString => Some acc
  | String c s' =>
      match digitValue c with
      | Some d => parseDigits s' (10 * acc + d)
      | None => None
      end
  end.

Definition ParseInt (s : string) : option Z :=
  let '(negative, digits) :=
    match s with
    | String "+"%char rest => (false, rest)
    | String "-"%char rest => (true, rest)
    | _ => (false, s)
    end in
  match digits with
  | EmptyString => None
  | _ =>
      n ← parseDigits digits 0;
      let v := if negative : bool then - n else n in
      if (- 2 ^ 63 <=? v) && (v <? 2 ^ 63) then Some v else None
  end.

(** [fmt.Sprintf("%d", position)]. *)
Definition Sprintf_d (position : Z) : string :=
  NilZero.string_of_int (Z.to_int position).

(** *** The object body as a [bufio.Reader]

    The body is held in memory, so the only error [ReadBytes] reports is
    [io.EOF].  [ReadBytes('\n')] hands out the bytes up to and including the
    next newline; at the end of the body it hands out the unterminated rest
    together with [io.EOF], and both loops below drop that rest.  A reader
    is therefore the list of newline-terminated lines still ahead. *)
Definition newline : ascii := "010"%char.

Fixpoint linesFrom (body line : string) : list string :=
  match body with
  | EmptyString => []
  | String c rest =>
      if Ascii.eqb c newline
      then (line +:+ String c EmptyString) :: linesFrom rest EmptyString
      else linesFrom rest (line +:+ String c EmptyString)
  end.

Definition NewReader (body : string) : list string := linesFrom body EmptyString.

(** [reader.ReadBytes('\n')]: [None] is [io.EOF]. *)
Definition ReadBytes (reader : list string) : option (string * list string) :=
  match reader with
  | [] => None
  | line :: rest => Some (line, rest)
  end.

(** [s3.S3] as far as the client uses it. *)
Record S3Object := mkS3Object { Key : string; LastModified : Z }.

Record S3 := mkS3 {
  ListObjects : string -> string -> result (list S3Object);
  GetObject : string -> string -> result string
}.

Record K8SS3LogsClient := mkLogsClient {
  s3Client : S3;
  s3Bucket : string;
  s3BucketRootDir : string
}.

(** [toS3DirName]. *)
Definition toS3DirName (lc : K8SS3LogsClient) (run : Run) : string :=
  s3BucketRootDir lc +:+ "/" +:+ RunID run.

(** [getS3Key]. *)
Definition getS3Key (lc : K8SS3LogsClient) (s3Key : string) : result string :=
  GetObject (s3Client lc) (s3Bucket lc) s3Key.

(** [getS3Object]: the body of the latest matching object. *)
Definition getS3Object (lc : K8SS3LogsClient) (run : Run) : result string :=
  match PodName run with
  | None => Err "no pod associated with the run."
  | Some _ =>
      let s3DirName := toS3DirName lc run in
      match ListObjects (s3Client lc) (s3Bucket lc) s3DirName with
      | Err err => Err ("problem getting logs: " +:+ err)
      | Ok [] => Err "no s3 files associated with the run."
      | Ok contents =>
          let pick (st : option string * Z) (content : S3Object) :=
            if GoStrings.Contains (Key content) (RunID run)
               && (st.2 <? LastModified content)
            then (Some (Key content), LastModified content)
            else st in
          match (foldl pick (None, 0) contents).1 with
          | Some key => getS3Key lc key
          | None => Err "no s3 files associated with the run."
          end
      end
  end.

Section Tailer.

(** [state.MaxLogLines]. *)
Variable MaxLogLines : Z.

(** [json.Unmarshal(line, &parsedLine)] followed by [parsedLine.Log]:
    [None] when the line is not valid JSON for [s3Log]. *)
Variable unmarshalLog : string -> option string.

(** [for currentPosition < startingPosition { ... }]: [None] is the return
    taken when the body ends while lines are still being discarded. *)
Fixpoint discardLines (reader : list string) (currentPosition startingPosition : Z)
    : option (list string * Z) :=
  if currentPosition <? startingPosition then
    let currentPosition := currentPosition + 1 in
    match reader with
    | [] => None
    | _ :: reader => discardLines reader currentPosition startingPosition
    end
  else Some (reader, currentPosition).

(** [for currentPosition <= startingPosition+state.MaxLogLines { ... }]. *)
Fixpoint readLines (reader : list string) (acc : string)
    (currentPosition startingPosition : Z) : string * Z :=
  if currentPosition <=? startingPosition + MaxLogLines then
    let currentPosition := currentPosition + 1 in
    match reader with
    | [] => (acc, currentPosition)
    | line :: reader =>
        let acc :=
          match unmarshalLog line with
          | Some log => acc +:+ log
          | None => acc
          end in
        readLines reader acc currentPosition startingPosition
    end
  else (acc, currentPosition).

(** [logsToMessageString]: [(acc, position, err)]. *)
Definition logsToMessageString (result : option string) (startingPosition : Z)
    : string * Z * option string :=
  let acc := "" in
  let currentPosition := 0 in
  let startingPosition :=
    if startingPosition <=? 0 then currentPosition else startingPosition in
  match result with
  | None => (acc, startingPosition, Some "s3 object not present.")
  | Some body =>
      let reader := NewReader body in
      match discardLines reader currentPosition startingPosition with
      | None => (acc, startingPosition, None)
      | Some (reader, currentPosition) =>
          let '(acc, currentPosition) :=
            readLines reader acc currentPosition startingPosition in
          (acc, currentPosition, None)
      end
  end.

(** [Logs]: [(text, newLastSeen, err)]. *)
Definition Logs (lc : K8SS3LogsClient) (executable : Executable) (run : Run)
    (lastSeen : option string) : string * option string * option string :=
  let result := getS3Object lc run in
  let startPosition :=
    match lastSeen ≫= ParseInt with
    | Some parsed => parsed
    | None => 0
    end in
  match result with
  | Ok body =>
      let '(acc, position, err) := logsToMessageString (Some body) startPosition in
      let newLastSeen := Sprintf_d position in
      (acc, Some newLastSeen, err)
  | Err _ => ("", Some "", Some "No logs.")
  end.

End Tailer.

Section Streamer.

(** [json.Unmarshal(line, &parsedLine)] followed by [parsedLine.Log], or
    the error of a line that is not valid JSON for [s3Log]. *)
Variable unmarshal : string -> result string.

(** The [http.ResponseWriter] and [io.WriteString(w, s)] on it: the writer
    after the call and the error. *)
Variable ResponseWriter : Type.
Variable WriteString : ResponseWriter -> string -> ResponseWriter * option string.

(** [logsToMessage]: the writer after the call and the error returned. *)
Fixpoint logsToMessage (reader : list string) (w : ResponseWriter)
    : ResponseWriter * option string :=
  match reader with
  | [] => (w, None)
  | line :: reader =>
      match unmarshal line with
      | Err err => (w, Some err)
      | Ok log =>
          let '(w, err) := WriteString w log in
          match err with
          | Some err => (w, Some err)
          | None => logsToMessage reader w
          end
      end
  end.

(** [LogsText]. *)
Definition LogsText (lc : K8SS3LogsClient) (executable : Executable)
    (run : Run) (w : ResponseWriter) : ResponseWriter * option string :=
  match getS3Object lc run with
  | Ok body => logsToMessage (NewReader body) w
  | Err _ => (w, None)
  end.

End Streamer.

End logs.

(** * Concrete inputs used by the examples below *)

Module Sample.

(** One setting of the constants of package [state]. *)
Definition MinCPU : Z := 256.
Definition MaxCPU : Z := 60000.
Definition MinMem : Z := 512.
Definition MaxMem : Z := 350000.
Definition SpotActiveDeadlineSeconds : Z := 172800.
Definition OndemandActiveDeadlineSeconds : Z := 604800.
Definition queuedAtSince : string := "2020-05-01T00:00:00Z".

(** Definition [A] of the specification's scenarios: 1000 mC, 2048 MiB, no
    GPU, adaptive allocation switched on. *)
Definition definitionA (env : list EnvVar) : Executable :=
  mkExecutable (Some "A")
    (mkExecutableResources "image" (Some 2048) None (Some 1000) (Some env)
                           (Some true) None).

Definition runA : Run :=
  mkRun "run-1" "A" "image" (Some "echo hi") (Some []) None None
        (Some SpotLifecycle) StatusQueued None None None None None
        None None None "" None None None.

(** A stopped prior run of [A] with the given exit reason and shape. *)
Definition priorRun (reason : string) (mem cpu : Z) : Run :=
  mkRun "run-0" "A" "image" (Some "echo hi") (Some []) (Some cpu) (Some mem)
        (Some SpotLifecycle) StatusStopped (Some 137) (Some reason) None None
        None None None None "" None None None.

(** A state manager whose history holds exactly [last]. *)
Definition managerWith (last : Run) : Manager :=
  mkManager (λ _ _ _ _ _ _ _, Ok [last])
            (λ _ _, Err "no estimate").

End Sample.

(** * Definitions used by the statements *)

(** The specification's [ceil(priorMem × 1.75)], as a ceiling of [7m/4]. *)
Definition ceil175 (m : Z) : Z := - ((- (7 * m)) / 4).

(** The planner's clamp, in closed form. *)
Definition clamp (lo hi x : Z) : Z := Z.min hi (Z.max lo x).

(** [s] holds the byte [c]. *)
Fixpoint hasByte (c : ascii) (s : string) : bool :=
  match s with
  | EmptyString => false
  | String d s' => Ascii.eqb d c || hasByte c s'
  end.

(** One step of the two loops of [envOverrides] that fill [pairs]. *)
Definition store (pairs : gmap string string) (ev : EnvVar) : gmap string string :=
  <[adapter.sanitizeEnvVar (Name ev) := Value ev]> pairs.

(** The order in which a usage watermark may move: an unset watermark may
    become anything, a set one may only grow and never becomes unset. *)
Definition watermark_le (before after : option Z) : Prop :=
  match before, after with
  | None, _ => True
  | Some x, Some y => x ≤ y
  | Some _, None => False
  end.

(** Every usage reading the metrics API hands out is non-negative. *)
Definition nonNegativeUsage (k : engine.KubeClient) : Prop :=
  ∀ podName podMetrics containerMetrics,
    engine.PodMetricsesGet k podName = Ok podMetrics →
    containerMetrics ∈ corev1.MetricsContainers podMetrics →
    0 ≤ corev1.UsageCpu containerMetrics
    ∧ 0 ≤ corev1.UsageMemory containerMetrics.

(** The engine holds the adapter of [eks_adapter.go]. *)
Definition holdsEKSAdapter (ee : engine.EKSExecutionEngine) : Prop :=
  engine.AdaptJobToFlotillaRun (engine.adapter ee) = adapter.AdaptJobToFlotillaRun.

(** A reconciliation call, each against the cluster as it answers then. *)
Inductive call :=
| CallFetchPodMetrics (ee : engine.EKSExecutionEngine)
| CallFetchUpdateStatus (ee : engine.EKSExecutionEngine) (now now' : Z).

Definition engineOf (c : call) : engine.EKSExecutionEngine :=
  match c with
  | CallFetchPodMetrics ee => ee
  | CallFetchUpdateStatus ee _ _ => ee
  end.

(** The run a call hands back; a call that panics hands back nothing and
    leaves the caller with the run it had. *)
Definition runCall (run : Run) (c : call) : Run :=
  match c with
  | CallFetchPodMetrics ee => (engine.FetchPodMetrics ee run).1
  | CallFetchUpdateStatus ee now now' =>
      match engine.FetchUpdateStatus ee now now' run with
      | Some (run', _, _) => run'
      | None => run
      end
  end.

Module SampleCluster.

(** A Job with the given status counters and no start or completion time. *)
Definition job (active succeeded failed : Z) : batchv1.Job :=
  batchv1.mkJob "run-1" [] "default-scheduler" "sa" 172800
                (batchv1.mkJobStatus active succeeded failed None None).

Definition pod (name : string) (created : Z) : corev1.Pod :=
  corev1.mkPod name "flotilla" created "ip-10-0-0-1" [] [].

Definition theAdapter : engine.EKSAdapter :=
  engine.NewEKSAdapter Sample.MinCPU Sample.MaxCPU Sample.MinMem Sample.MaxMem
    Sample.SpotActiveDeadlineSeconds Sample.OndemandActiveDeadlineSeconds
    Sample.queuedAtSince.

(** An engine over the given cluster answers. *)
Definition engineOn (k : engine.KubeClient) : engine.EKSExecutionEngine :=
  engine.mkEngine k theAdapter (Sample.managerWith (Sample.priorRun "" 2048 1000))
                  false "sa" "default-scheduler".

(** A cluster holding the Job and the given pods, with the given usage
    reading, events and answer to the Job deletion. *)
Definition cluster (theJob : batchv1.Job) (pods : list corev1.Pod)
    (usage : result corev1.PodMetrics) (events : result (list corev1.Event))
    (jobDeletion : option string) : engine.KubeClient :=
  engine.mkKubeClient
    (λ _, Err "jobs.batch run-1 already exists")
    (λ _, Ok theJob)
    (λ _, jobDeletion)
    (λ _, (Some (corev1.mkPodList (Some pods)), None))
    (λ _, None)
    (λ _, events)
    (λ _, usage).

(** A run that has been running on pod [pod-1] since it was queued at
    instant [queuedAt]. *)
Definition runningRun (queuedAt : Z) : Run :=
  mkRun "run-1" "A" "image" (Some "echo hi") (Some []) (Some 1000) (Some 2048)
        (Some SpotLifecycle) StatusRunning None None None None (Some queuedAt)
        (Some "pod-1") (Some "flotilla") (Some "run-1") "ip-10-0-0-1"
        None None None.

(** A cluster that answers a Job submission as given and holds nothing
    else. *)
Definition submitting (creation : batchv1.Job → result batchv1.Job)
    : engine.KubeClient :=
  engine.mkKubeClient
    creation
    (λ _, Err "jobs.batch not found")
    (λ _, None)
    (λ _, (Some (corev1.mkPodList (Some [])), None))
    (λ _, None)
    (λ _, Ok [])
    (λ _, Err "pod not found").

End SampleCluster.

(** The events API names every event of a namespace differently, and the
    engine lists the events of one namespace: no answer of the event listing
    holds two events of the same name. *)
Definition uniqueEventNames (k : engine.KubeClient) : Prop :=
  ∀ selector items,
    engine.EventsList k selector = Ok items →
    NoDup (corev1.EventName <$> items).



(** The manifest [Execute] submits. *)
Definition manifestOf (ee : engine.EKSExecutionEngine) (td : Executable)
    (run : Run) : option batchv1.Job :=
  engine.AdaptFlotillaDefinitionAndRunToJob (engine.adapter ee) td run
    (engine.jobSA ee) (engine.schedulerName ee) (engine.manager ee)
    (engine.araEnabled ee).

(** The text [readLines] accumulates over the given lines: the [log] field of
    every line that decodes, in order; lines that do not decode add nothing. *)
Definition appendLogs (unmarshalLog : string → option string) (acc : string)
    (lines : list string) : string :=
  foldl (λ acc line, match unmarshalLog line with
                     | Some log => acc +:+ log
                     | None => acc
                     end) acc lines.

(** The parts one after the other. *)
Definition glue (parts : list string) : string := foldr String.append "" parts.

(** A line of text closed by a newline. *)
Definition terminate (text : string) : string :=
  text +:+ String logs.newline EmptyString.

Module SampleLogs.

Definition quote : ascii := ascii_of_nat 34.
Definition quoted (s : string) : string :=
  String quote s +:+ String quote EmptyString.

(** The line the logging sidecar writes for the log text [text]. *)
Definition jsonLine (text : string) : string :=
  "{" +:+ quoted "log" +:+ ":" +:+ quoted text +:+ ","
  +:+ quoted "stream" +:+ ":" +:+ quoted "stdout" +:+ ","
  +:+ quoted "time" +:+ ":" +:+ quoted "2020-05-01T00:00:00Z" +:+ "}"
  +:+ String logs.newline EmptyString.

(** [json.Unmarshal] into [s3Log], restricted to the lines [jsonLine] writes
    for texts without quotes or escapes: the [log] member comes first and its
    value runs up to the next quote.  Any other line is rejected. *)
Fixpoint upToQuote (s : string) : option string :=
  match s with
  | EmptyString => None
  | String c s' =>
      if Ascii.eqb c quote then Some EmptyString
      else String c <$> upToQuote s'
  end.

Definition unmarshalLog (line : string) : option string :=
  let opening := "{" +:+ quoted "log" +:+ ":" +:+ String quote EmptyString in
  if String.prefix opening line
  then upToQuote (String.substring (String.length opening)
                                   (String.length line) line)
  else None.

(** The log text of line [i]: its number and a semicolon. *)
Definition textOf (i : nat) : string :=
  logs.Sprintf_d (Z.of_nat i) +:+ ";".

(** An object of [n] lines, numbered from 1. *)
Definition body (n : nat) : string :=
  glue (map (λ i, jsonLine (textOf i)) (seq 1 n)).

(** The log texts of lines [from] to [to], concatenated. *)
Definition texts (from to : nat) : string :=
  glue (map textOf (seq from (S to - from))).

(** An S3 bucket holding that one object for run [run-1]. *)
Definition client (n : nat) : logs.K8SS3LogsClient :=
  logs.mkLogsClient
    (logs.mkS3 (λ _ _, Ok [logs.mkS3Object "logs/run-1/run-1.log" 100])
               (λ _ _, Ok (body n)))
    "bucket" "logs".

End SampleLogs.

(** The out-of-memory test [adaptiveResources] applies to the last run: its
    exit reason is present and contains [OOMKilled]. *)
Definition oomKilled (lastRun : Run) : bool :=
  match ExitReason lastRun with
  | Some reason => GoStrings.Contains reason "OOMKilled"
  | None => false
  end.


(** The definition asks for at least one GPU. *)
Definition wantsGpu (executable : Executable) : bool :=
  match ResGpu (GetExecutableResources executable) with
  | Some g => 0 <? g
  | None => false
  end.

(** The value of the last variable of [evs] whose sanitized name is [k]. *)
Fixpoint lastValue (k : string) (evs : list EnvVar) : option string :=
  match evs with
  | [] => None
  | ev :: rest =>
      match lastValue k rest with
      | Some v => Some v
      | None =>
          if decide (adapter.sanitizeEnvVar (Name ev) = k)
          then Some (Value ev) else None
      end
  end.

(** The three node selector requirements [constructAffinity] chooses from. *)
Definition excludeGpuNodes : corev1.NodeSelectorRequirement :=
  corev1.mkNodeSelectorRequirement "beta.kubernetes.io/instance-type"
    corev1.NodeSelectorOpNotIn adapter.gpuNodeTypes.
Definition onlyCpuNodes : corev1.NodeSelectorRequirement :=
  corev1.mkNodeSelectorRequirement "beta.kubernetes.io/instance-type"
    corev1.NodeSelectorOpIn adapter.cpuNodeTypes.
Definition onLifecycle (label : string) : corev1.NodeSelectorRequirement :=
  corev1.mkNodeSelectorRequirement "kubernetes.io/lifecycle"
    corev1.NodeSelectorOpIn [label].

(** A definition that asks for two GPUs and exposes two ports, and a run of
    definition [A] that sets two variables of its own. *)
Definition definitionG : Executable :=
  mkExecutable (Some "G")
    (mkExecutableResources "image" (Some 2048) (Some 2) (Some 1000)
                           (Some []) None (Some [8080; 443])).

Definition runWithEnv : Run :=
  mkRun "run-1" "A" "image" (Some "echo hi")
        (Some [mkEnvVar "$A" "9"; mkEnvVar "C C" "3"]) None None
        (Some SpotLifecycle) StatusQueued None None None None None
        None None None "" None None None.

(** The manifest of [Sample.runA] under [Sample.definitionA] without
    adaptive allocation, and a pod that runs its container, whose last
    container status is the given one. *)
Definition manifestA : batchv1.Job :=
  batchv1.mkJob "run-1"
    [corev1.mkContainer "run-1" "image" ["bash"; "-l"; "-cex"; "echo hi"]
       (corev1.mkResourceList 1000 2048 None)
       (corev1.mkResourceList 1000 2048 None) []]
    "default-scheduler" "sa" 172800 (batchv1.mkJobStatus 0 0 0 None None).

Definition podOfManifestA (statuses : list corev1.ContainerStatus) : corev1.Pod :=
  corev1.mkPod "run-1-x7k2p" "flotilla" 100 "ip-10-0-0-1"
               (batchv1.JobContainers manifestA) statuses.


(** A response writer that keeps what is written to it and never fails. *)
Definition bufferWrite (w s : string) : string * option string := (w +:+ s, None).

(** The [log] field of a line, for a decoder that also names its error. *)
Definition decoded (unmarshal : string → result string) (line : string)
    : option string :=
  match unmarshal line with
  | Ok log => Some log
  | Err _ => None
  end.

(** [content] is a candidate of [getS3Object]: its key holds the run's
    identifier. *)
Definition logOf (run : Run) (content : logs.S3Object) : Prop :=
  GoStrings.Contains (logs.Key content) (RunID run) = true.

(** A bucket in which the pod of [run-1] was retried: three objects of the
    run and one of another run; downloading a key hands out the key. *)
Definition retriedListing : list logs.S3Object :=
  [ logs.mkS3Object "logs/run-1/run-1-a.log" 100;
    logs.mkS3Object "logs/run-1/run-1-b.log" 300;
    logs.mkS3Object "logs/run-1/other.log" 400;
    logs.mkS3Object "logs/run-1/run-1-c.log" 200 ].

Definition retriedClient : logs.K8SS3LogsClient :=
  logs.mkLogsClient
    (logs.mkS3 (λ _ _, Ok retriedListing) (λ _ key, Ok key))
    "bucket" "logs".

(** A decoder that names its error, over [SampleLogs.unmarshalLog]. *)
Definition unmarshalOrError (line : string) : result string :=
  match SampleLogs.unmarshalLog line with
  | Some log => Ok log
  | None => Err "invalid character"
  end.

(** One step of the search loop of [getS3Object] over the listing: the key
    and modification time kept so far, and the next object. *)
Definition pick (run : Run) (st : option string * Z) (content : logs.S3Object)
    : option string * Z :=
  if GoStrings.Contains (logs.Key content) (RunID run)
     && (st.2 <? logs.LastModified content)
  then (Some (logs.Key content), logs.LastModified content)
  else st.

(** * Properties *)

(** ** Strings *)

Section StringFacts.

Lemma prefix_app (p s : string) : String.prefix p (p +:+ s) = true.
Proof.
  induction p as [|c p IH]; simpl.
  - by destruct s.
  - destruct (ascii_dec c c); [exact IH | done].
Qed.

Lemma prefix_inv (p s : string) :
  String.prefix p s = true → ∃ t, s = p +:+ t.
Proof.
  revert s. induction p as [|c p IH]; intros s H.
  - by exists s.
  - destruct s as [|d s]; simpl in H; [done|].
    destruct (ascii_dec c d) as [->|]; [|done].
    destruct (IH _ H) as [t ->]. by exists t.
Qed.

(** [Contains] is the existence of an occurrence. *)
Lemma Contains_spec (s sub : string) :
  GoStrings.Contains s sub = true ↔ ∃ a b, s = a +:+ sub +:+ b.
Proof.
  split.
  - induction s as [|c s IH]; intros H.
    + destruct sub; [|done]. by exists "", "".
    + cbn [GoStrings.Contains] in H. apply orb_true_iff in H as [H|H].
      * apply prefix_inv in H as [t Ht]. exists "", t. done.
      * destruct (IH H) as (a & b & ->). by exists (String c a), b.
  - intros (a & b & ->). induction a as [|c a IH].
    + change ("" +:+ sub +:+ b) with (sub +:+ b).
      destruct (sub +:+ b) as [|c r] eqn:E.
      * destruct sub; [done | discriminate].
      * cbn [GoStrings.Contains]. rewrite <- E, prefix_app. done.
    + change (String c a +:+ sub +:+ b) with (String c (a +:+ sub +:+ b)).
      cbn [GoStrings.Contains]. rewrite IH. apply orb_true_r.
Qed.

Lemma ToLower_app (a b : string) :
  GoStrings.ToLower (a +:+ b) = GoStrings.ToLower a +:+ GoStrings.ToLower b.
Proof. induction a as [|c a IH]; simpl; [done | by rewrite IH]. Qed.

(** A needle that [ToLower] leaves alone is still found after lowering. *)
Lemma Contains_ToLower (s sub : string) :
  GoStrings.ToLower sub = sub →
  GoStrings.Contains s sub = true →
  GoStrings.Contains (GoStrings.ToLower s) sub = true.
Proof.
  intros Hsub H. apply Contains_spec in H as (a & b & ->).
  apply Contains_spec. rewrite !ToLower_app, Hsub. eauto.
Qed.

End StringFacts.

(** ** The resource planner *)


Ltac split_comparisons :=
  repeat match goal with
         | |- context [?a <? ?b] => destruct (Z.ltb_spec a b)
         | |- context [?a >? ?b] => rewrite (Z.gtb_ltb a b)
         | |- context [?a <=? ?b] => destruct (Z.leb_spec a b)
         | |- context [?a >=? ?b] => rewrite (Z.geb_leb a b)
         end.

Section PlannerFacts.

Variables MinCPU MaxCPU MinMem MaxMem : Z.
Variable queuedAtSince : string.

Lemma checkResourceBounds_clamp (cpu mem : Z) :
  adapter.checkResourceBounds MinCPU MaxCPU MinMem MaxMem cpu mem
  = (clamp MinCPU MaxCPU cpu, clamp MinMem MaxMem mem).
Proof.
  unfold adapter.checkResourceBounds, clamp.
  f_equal; split_comparisons; lia.
Qed.

Lemma clamp_range (lo hi x : Z) : lo ≤ hi → lo ≤ clamp lo hi x ≤ hi.
Proof. unfold clamp. lia. Qed.

Lemma clamp_mono (lo hi x y : Z) : x ≤ y → clamp lo hi x ≤ clamp lo hi y.
Proof. unfold clamp. lia. Qed.

(** The planner after its adaptive block: raise each limit to the request,
    then clamp the request pair and the limit pair. *)
Lemma adaptiveResources_unfold executable run manager araEnabled :
  adapter.adaptiveResources MinCPU MaxCPU MinMem MaxMem queuedAtSince
                            executable run manager araEnabled
  = let d := adapter.getResourceDefaults MinCPU MinMem run executable in
    match adapter.adaptiveRequests queuedAtSince executable run manager
                                   araEnabled d.1 d.2 with
    | Some (cpuRequest, memRequest) =>
        Some (clamp MinCPU MaxCPU (Z.max cpuRequest d.1),
              clamp MinMem MaxMem (Z.max memRequest d.2),
              clamp MinCPU MaxCPU cpuRequest,
              clamp MinMem MaxMem memRequest)
    | None => None
    end.
Proof.
  unfold adapter.adaptiveResources.
  destruct (adapter.getResourceDefaults _ _ _ _) as [c0 m0]; cbn [fst snd].
  destruct (adapter.adaptiveRequests _ _ _ _ _ _ _) as [[cr mr]|]; [|done].
  cbn -[adapter.checkResourceBounds Z.gtb Z.ltb].
  rewrite !checkResourceBounds_clamp. repeat f_equal.
  all: split_comparisons; f_equal; lia.
Qed.

(** The adaptive block panics only on the adaptive path. *)
Lemma adaptiveRequests_static executable run manager araEnabled c m :
  araEnabled
  && bool_decide (AdaptiveResourceAllocation (GetExecutableResources executable)
                  = Some true) = false →
  adapter.adaptiveRequests queuedAtSince executable run manager araEnabled c m
  = Some (c, m).
Proof. unfold adapter.adaptiveRequests. by intros ->. Qed.

Hypothesis cpuBounds : MinCPU ≤ MaxCPU.
Hypothesis memBounds : MinMem ≤ MaxMem.

(** C3.  Whatever the definition, the run, the history and the switch, the
    planner ends as the claim says.  With [c], [m] the requests that leave
    the adaptive block and [d] the defaults the limits start from, each
    limit is raised to its request ([max c d.1], [max m d.2]); then
    [checkResourceBounds] is applied to the request pair and to the limit
    pair, and [checkResourceBounds] clamps each value into its bounds.
    Hence [MinCPU ≤ cpuRequest ≤ cpuLimit ≤ MaxCPU] and
    [MinMem ≤ memRequest ≤ memLimit ≤ MaxMem].  The planner fails to return
    only by a nil dereference inside its adaptive block, which needs the
    switch and the definition's flag both on. *)
Theorem planner_requests_within_limits_within_bounds
    executable run manager araEnabled :
  let d := adapter.getResourceDefaults MinCPU MinMem run executable in
  (∀ cpu mem,
     adapter.checkResourceBounds MinCPU MaxCPU MinMem MaxMem cpu mem
     = (clamp MinCPU MaxCPU cpu, clamp MinMem MaxMem mem))
  ∧ match adapter.adaptiveResources MinCPU MaxCPU MinMem MaxMem queuedAtSince
                                    executable run manager araEnabled with
    | Some (cpuLimit, memLimit, cpuRequest, memRequest) =>
        (∃ c m,
           adapter.adaptiveRequests queuedAtSince executable run manager
                                    araEnabled d.1 d.2 = Some (c, m)
           ∧ (cpuLimit, memLimit)
             = adapter.checkResourceBounds MinCPU MaxCPU MinMem MaxMem
                                           (Z.max c d.1) (Z.max m d.2)
           ∧ (cpuRequest, memRequest)
             = adapter.checkResourceBounds MinCPU MaxCPU MinMem MaxMem c m)
        ∧ (MinCPU ≤ cpuRequest ∧ cpuRequest ≤ cpuLimit ∧ cpuLimit ≤ MaxCPU)
        ∧ (MinMem ≤ memRequest ∧ memRequest ≤ memLimit ∧ memLimit ≤ MaxMem)
    | None =>
        araEnabled = true
        ∧ AdaptiveResourceAllocation (GetExecutableResources executable)
          = Some true
    end.
Proof.
  cbv zeta. split; [apply checkResourceBounds_clamp|].
  rewrite adaptiveResources_unfold. cbv zeta.
  generalize (adapter.getResourceDefaults MinCPU MinMem run executable).
  intros d.
  destruct (adapter.adaptiveRequests _ _ _ _ _ _ _) as [[cr mr]|] eqn:E.
  - split.
    { exists cr, mr. by rewrite !checkResourceBounds_clamp. }
    pose proof (clamp_range MinCPU MaxCPU cr cpuBounds).
    pose proof (clamp_range MinMem MaxMem mr memBounds).
    pose proof (clamp_range MinCPU MaxCPU (Z.max cr d.1) cpuBounds).
    pose proof (clamp_range MinMem MaxMem (Z.max mr d.2) memBounds).
    pose proof (clamp_mono MinCPU MaxCPU cr (Z.max cr d.1) ltac:(lia)).
    pose proof (clamp_mono MinMem MaxMem mr (Z.max mr d.2) ltac:(lia)).
    lia.
  - destruct (araEnabled
              && bool_decide (AdaptiveResourceAllocation
                                (GetExecutableResources executable) = Some true))
      eqn:G.
    + apply andb_true_iff in G as [-> G]. by apply bool_decide_eq_true in G.
    + by rewrite adaptiveRequests_static in E.
Qed.

End PlannerFacts.

(** C3, at the sample constants: definition [A] after an out-of-memory run
    of 4001 MiB.  The requests leave the adaptive block as (1500, 7001); the
    limits are raised from (1000, 2048) to these, and nothing is clamped. *)
Lemma planner_requests_within_limits_within_bounds_witness :
  let manager := Sample.managerWith (Sample.priorRun "OOMKilled" 4001 1500) in
  let d :=
    adapter.getResourceDefaults Sample.MinCPU Sample.MinMem Sample.runA
                                (Sample.definitionA []) in
  adapter.adaptiveResources Sample.MinCPU Sample.MaxCPU Sample.MinMem
    Sample.MaxMem Sample.queuedAtSince (Sample.definitionA []) Sample.runA
    manager true
  = Some (1500, 7001, 1500, 7001)
  ∧ d = (1000, 2048)
  ∧ (∀ cpu mem,
       adapter.checkResourceBounds Sample.MinCPU Sample.MaxCPU Sample.MinMem
                                   Sample.MaxMem cpu mem
       = (clamp Sample.MinCPU Sample.MaxCPU cpu,
          clamp Sample.MinMem Sample.MaxMem mem))
  ∧ match adapter.adaptiveResources
            Sample.MinCPU Sample.MaxCPU Sample.MinMem Sample.MaxMem
            Sample.queuedAtSince (Sample.definitionA []) Sample.runA
            manager true with
    | Some (cpuLimit, memLimit, cpuRequest, memRequest) =>
        (∃ c m,
           adapter.adaptiveRequests Sample.queuedAtSince (Sample.definitionA [])
                                    Sample.runA manager true d.1 d.2
           = Some (c, m)
           ∧ (cpuLimit, memLimit)
             = adapter.checkResourceBounds Sample.MinCPU Sample.MaxCPU
                 Sample.MinMem Sample.MaxMem (Z.max c d.1) (Z.max m d.2)
           ∧ (cpuRequest, memRequest)
             = adapter.checkResourceBounds Sample.MinCPU Sample.MaxCPU
                 Sample.MinMem Sample.MaxMem c m)
        ∧ (Sample.MinCPU ≤ cpuRequest ∧ cpuRequest ≤ cpuLimit
           ∧ cpuLimit ≤ Sample.MaxCPU)
        ∧ (Sample.MinMem ≤ memRequest ∧ memRequest ≤ memLimit
           ∧ memLimit ≤ Sample.MaxMem)
    | None =>
        true = true
        ∧ AdaptiveResourceAllocation
            (GetExecutableResources (Sample.definitionA [])) = Some true
    end.
Proof.
  cbv zeta. split; [vm_compute; reflexivity|]. split; [reflexivity|].
  apply (planner_requests_within_limits_within_bounds
           Sample.MinCPU Sample.MaxCPU Sample.MinMem Sample.MaxMem
           Sample.queuedAtSince).
  - unfold Sample.MinCPU, Sample.MaxCPU; lia.
  - unfold Sample.MinMem, Sample.MaxMem; lia.
Defined.

(** The specification's first three scenarios at the sample constants: a
    plain run, out-of-memory feedback (4000 MiB, 1500 mC), and the
    large-memory override (40000 MiB, 500 mC). *)
Example planner_scenarios :
  let plan executable manager araEnabled :=
    adapter.adaptiveResources Sample.MinCPU Sample.MaxCPU Sample.MinMem
      Sample.MaxMem Sample.queuedAtSince executable Sample.runA manager
      araEnabled in
  let largeMemory :=
    mkExecutable (Some "B")
      (mkExecutableResources "image" (Some 40000) None (Some 500) (Some [])
                             None None) in
  plan (Sample.definitionA []) (Sample.managerWith (Sample.priorRun "" 0 0)) false
  = Some (1000, 2048, 1000, 2048)
  ∧ plan (Sample.definitionA [])
         (Sample.managerWith (Sample.priorRun "OOMKilled" 4000 1500)) true
    = Some (1500, 7000, 1500, 7000)
  ∧ plan largeMemory (Sample.managerWith (Sample.priorRun "" 0 0)) false
    = Some (5000, 40000, 5000, 40000).
Proof. repeat split. Qed.

(** ** Out-of-memory feedback *)

Section Binary64.

Lemma iter_pos_iter {A} (f : A → A) (k : positive) (x : A) :
  SpecFloat.iter_pos f k x = Pos.iter f x k.
Proof.
  revert x. induction k as [k IH|k IH|]; intros x; cbn [SpecFloat.iter_pos Pos.iter].
  - rewrite !IH. rewrite !Pos.iter_swap. reflexivity.
  - rewrite !IH. reflexivity.
  - reflexivity.
Qed.

Lemma Zpos_iter_xO (q k : positive) :
  Z.pos (Pos.iter xO q k) = Z.pos q * 2 ^ Z.pos k.
Proof.
  induction k as [|k IH] using Pos.peano_ind.
  - cbn [Pos.iter]. lia.
  - rewrite Pos.iter_succ. rewrite Pos2Z.inj_xO, IH.
    rewrite Pos2Z.inj_succ, Z.pow_succ_r by lia. lia.
Qed.

(** Shifting out [k] zero bits leaves no round and no sticky bit. *)
Lemma shr_exact (q k : positive) :
  SpecFloat.iter_pos shr_1 k (Build_shr_record (Z.pos (Pos.iter xO q k)) false false)
  = Build_shr_record (Z.pos q) false false.
Proof.
  rewrite iter_pos_iter. revert q.
  induction k as [|k IH] using Pos.peano_ind; intros q.
  - reflexivity.
  - rewrite Pos.iter_succ_r. rewrite Pos.iter_succ. cbn [shr_1 orb]. apply IH.
Qed.

Lemma digits2_bounds (p : positive) :
  2 ^ (Z.pos (digits2_pos p) - 1) ≤ Z.pos p < 2 ^ Z.pos (digits2_pos p).
Proof.
  induction p as [p IH|p IH|]; cbn [digits2_pos]; [| |cbn; lia].
  - rewrite Pos2Z.inj_succ.
    replace (Z.succ (Z.pos (digits2_pos p)) - 1)
      with (Z.succ (Z.pos (digits2_pos p) - 1)) by lia.
    rewrite !Z.pow_succ_r by lia. lia.
  - rewrite Pos2Z.inj_succ.
    replace (Z.succ (Z.pos (digits2_pos p)) - 1)
      with (Z.succ (Z.pos (digits2_pos p) - 1)) by lia.
    rewrite !Z.pow_succ_r by lia. lia.
Qed.

Lemma digits2_unique (p : positive) (d : Z) :
  2 ^ (d - 1) ≤ Z.pos p < 2 ^ d → 0 < d → Z.pos (digits2_pos p) = d.
Proof.
  intros [Hlo Hhi] Hd. pose proof (digits2_bounds p) as [Hlo' Hhi'].
  destruct (Z.lt_trichotomy (Z.pos (digits2_pos p)) d) as [H|[H|H]];
    [|exact H|].
  - exfalso.
    assert (2 ^ Z.pos (digits2_pos p) ≤ 2 ^ (d - 1))
      by (apply Z.pow_le_mono_r; lia). lia.
  - exfalso.
    assert (2 ^ d ≤ 2 ^ (Z.pos (digits2_pos p) - 1))
      by (apply Z.pow_le_mono_r; lia). lia.
Qed.

(** Rounding is exact on a mantissa that is a 53-bit number times the power
    of two to be shifted out. *)
Lemma binary_round_aux_exact (sx : bool) (M q : positive) (ex n : Z) :
  0 ≤ n →
  Z.pos M = Z.pos q * 2 ^ n →
  Z.pos (digits2_pos q) = 53 →
  ex + n ≤ 1024 - 53 → - 1074 ≤ ex + n →
  binary_round_aux 53 1024 sx (Z.pos M) ex loc_Exact
  = S754_finite sx q (ex + n).
Proof.
  intros Hn HM Hq Hhi Hlo.
  assert (HdM : Z.pos (digits2_pos M) = 53 + n).
  { apply digits2_unique; [|lia]. pose proof (digits2_bounds q) as Hb.
    rewrite Hq in Hb. rewrite HM.
    replace (53 + n - 1) with (52 + n) by lia.
    rewrite !Z.pow_add_r by lia. nia. }
  unfold binary_round_aux, shr_fexp. cbn [Zdigits2 shr_record_of_loc].
  rewrite HdM.
  assert (fexp 53 1024 (53 + n + ex) - ex = n) as ->.
  { unfold fexp, emin. lia. }
  assert (shr (Build_shr_record (Z.pos M) false false) ex n
          = (Build_shr_record (Z.pos q) false false, ex + n)) as ->.
  { unfold shr. destruct n as [|k|k]; [| |lia].
    - f_equal; [|lia]. f_equal. lia.
    - f_equal. assert (M = Pos.iter xO q k) as ->.
      { apply Pos2Z.inj. rewrite Zpos_iter_xO. exact HM. }
      apply shr_exact. }
  cbn [shr_m loc_of_shr_record round_nearest_even Zdigits2 shr_record_of_loc].
  rewrite Hq.
  assert (fexp 53 1024 (53 + (ex + n)) - (ex + n) = 0) as ->.
  { unfold fexp, emin. lia. }
  cbn [shr shr_m].
  destruct (Z.leb_spec (ex + n) (1024 - 53)); [reflexivity|lia].
Qed.

(** An integer below [2^53] in absolute value converts to [float64]
    without rounding. *)
Lemma float64_exact (sx : bool) (p : positive) :
  Z.pos p < 2 ^ 53 →
  ∃ (mx : positive) (a : Z),
    0 ≤ a ≤ 52
    ∧ binary_round 53 1024 sx p 0 = S754_finite sx mx (- a)
    ∧ Z.pos mx = Z.pos p * 2 ^ a
    ∧ Z.pos (digits2_pos mx) = 53.
Proof.
  intros Hp. pose proof (digits2_bounds p) as [Hlo Hhi].
  set (d := Z.pos (digits2_pos p)) in *.
  assert (Hd : 1 ≤ d ≤ 53).
  { split; [subst d; lia|].
    destruct (Z.le_gt_cases d 53) as [H|H]; [exact H|].
    assert (2 ^ 53 ≤ 2 ^ (d - 1)) by (apply Z.pow_le_mono_r; lia). lia. }
  unfold binary_round.
  assert (fexp 53 1024 (Z.pos (digits2_pos p) + 0) = d - 53) as ->.
  { unfold fexp, emin. fold d. lia. }
  unfold shl_align.
  destruct (d - 53 - 0) as [|k|k] eqn:Hk; [| lia |].
  - exists p, 0. split; [lia|]. split.
    + rewrite (binary_round_aux_exact sx p p 0 0);
        [reflexivity|lia|lia|fold d; lia|lia|lia].
    + split; [lia|fold d; lia].
  - set (mz := Pos.iter xO p k).
    assert (Hmz : Z.pos mz = Z.pos p * 2 ^ (53 - d)).
    { subst mz. rewrite Zpos_iter_xO. f_equal. f_equal. lia. }
    assert (Hdz : Z.pos (digits2_pos mz) = 53).
    { apply digits2_unique; [|lia]. rewrite Hmz.
      replace (2 ^ (53 - 1)) with (2 ^ (d - 1) * 2 ^ (53 - d))
        by (rewrite <- Z.pow_add_r by lia; f_equal; lia).
      replace (2 ^ 53) with (2 ^ d * 2 ^ (53 - d))
        by (rewrite <- Z.pow_add_r by lia; f_equal; lia).
      assert (0 < 2 ^ (53 - d)) by (apply Z.pow_pos_nonneg; lia). nia. }
    exists mz, (53 - d). split; [lia|]. split.
    + rewrite (binary_round_aux_exact sx mz mz (d - 53) 0);
        [f_equal; lia|lia|lia|lia|lia|lia].
    + split; [exact Hmz|exact Hdz].
Qed.

Lemma seven_quarters :
  binary_normalize 53 1024 7 (-2) false
  = S754_finite false 7881299347898368 (-52).
Proof. reflexivity. Qed.

Lemma scale_exact (sx : bool) (p : positive) :
  7 * Z.pos p < 2 ^ 53 →
  adapter.int64_of_float64
    (SFmul 53 1024 (binary_round 53 1024 sx p 0)
           (binary_normalize 53 1024 7 (-2) false))
  = if sx then - Z.quot (7 * Z.pos p) 4 else Z.quot (7 * Z.pos p) 4.
Proof.
  intros H7.
  destruct (float64_exact sx p ltac:(lia)) as (mx & a & Ha & -> & Hmx & Hdx).
  rewrite seven_quarters. cbn [SFmul]. rewrite xorb_false_r.
  pose proof (digits2_bounds (7 * p)) as [Hlo Hhi].
  set (d7 := Z.pos (digits2_pos (7 * p))) in *.
  rewrite Pos2Z.inj_mul in Hlo, Hhi.
  assert (Hd7 : 3 ≤ d7 ≤ 53).
  { split.
    - destruct (Z.le_gt_cases 3 d7) as [H|H]; [exact H|].
      assert (2 ^ d7 ≤ 2 ^ 2) by (apply Z.pow_le_mono_r; lia). lia.
    - destruct (Z.le_gt_cases d7 53) as [H|H]; [exact H|].
      assert (2 ^ 53 ≤ 2 ^ (d7 - 1)) by (apply Z.pow_le_mono_r; lia). lia. }
  assert (Hpow : 0 < 2 ^ (53 - d7)) by (apply Z.pow_pos_nonneg; lia).
  set (q := Z.to_pos (7 * Z.pos p * 2 ^ (53 - d7))).
  assert (Hq : Z.pos q = 7 * Z.pos p * 2 ^ (53 - d7)).
  { subst q. rewrite Z2Pos.id; lia. }
  rewrite (binary_round_aux_exact sx (mx * 7881299347898368) q (- a + -52)
             (d7 + a - 3)).
  - replace (- a + -52 + (d7 + a - 3)) with (d7 - 55) by lia.
    unfold adapter.int64_of_float64.
    destruct (Z.leb_spec 0 (d7 - 55)); [lia|].
    rewrite Hq. replace (- (d7 - 55)) with (2 + (53 - d7)) by lia.
    rewrite Z.pow_add_r by lia.
    rewrite Z.quot_mul_cancel_r by lia.
    change (2 ^ 2) with 4.
    assert (0 ≤ Z.quot (7 * Z.pos p) 4 ≤ 7 * Z.pos p).
    { split; [apply Z.quot_pos; lia|].
      rewrite Z.quot_div_nonneg by lia.
      apply Z.div_le_upper_bound; lia. }
    destruct sx.
    + destruct (Z.leb_spec (- 2 ^ 63) (- Z.quot (7 * Z.pos p) 4)); [|lia].
      destruct (Z.ltb_spec (- Z.quot (7 * Z.pos p) 4) (2 ^ 63));
        [reflexivity|lia].
    + destruct (Z.leb_spec (- 2 ^ 63) (Z.quot (7 * Z.pos p) 4)); [|lia].
      destruct (Z.ltb_spec (Z.quot (7 * Z.pos p) 4) (2 ^ 63));
        [reflexivity|lia].
  - lia.
  - rewrite Pos2Z.inj_mul, Hmx, Hq.
    rewrite <- (Z.mul_assoc (7 * Z.pos p)), <- Z.pow_add_r by lia.
    replace (53 - d7 + (d7 + a - 3)) with (a + 50) by lia.
    rewrite Z.pow_add_r by lia. change (2 ^ 50) with 1125899906842624. ring.
  - apply digits2_unique; [|lia]. rewrite Hq.
    replace (2 ^ (53 - 1)) with (2 ^ (d7 - 1) * 2 ^ (53 - d7))
      by (rewrite <- Z.pow_add_r by lia; f_equal; lia).
    replace (2 ^ 53) with (2 ^ d7 * 2 ^ (53 - d7))
      by (rewrite <- Z.pow_add_r by lia; f_equal; lia).
    nia.
  - lia.
  - lia.
Qed.

(** As long as [7·m] fits the 53-bit significand, both conversions and the
    product are exact and [int64(float64(m) * 1.75)] is [7·m/4] truncated
    toward zero. *)
Lemma scaleOOMMemory_exact (m : Z) :
  - 2 ^ 53 < 7 * m < 2 ^ 53 → adapter.scaleOOMMemory m = Z.quot (7 * m) 4.
Proof.
  intros Hm. unfold adapter.scaleOOMMemory, adapter.float64.
  destruct m as [|p|p].
  - reflexivity.
  - change (binary_normalize 53 1024 (Z.pos p) 0 false)
      with (binary_round 53 1024 false p 0).
    apply (scale_exact false p). lia.
  - change (binary_normalize 53 1024 (Z.neg p) 0 false)
      with (binary_round 53 1024 true p 0).
    rewrite (scale_exact true p) by lia.
    change (Z.neg p) with (- Z.pos p).
    rewrite Z.mul_opp_r, Z.quot_opp_l by lia. reflexivity.
Qed.

(** Beyond that bound the product is rounded and the closed form no longer
    holds: at [2^51 + 1] the code gives one more than the truncated
    quotient; beyond [int64] the conversion back does not give the
    product at all. *)
Example scaleOOMMemory_rounds_beyond_the_bound :
  adapter.scaleOOMMemory (2 ^ 51 + 1) = Z.quot (7 * (2 ^ 51 + 1)) 4 + 1
  ∧ adapter.scaleOOMMemory (2 ^ 63 - 1) = - 2 ^ 63.
Proof. split; vm_compute; reflexivity. Qed.

End Binary64.

Section OOMFeedback.

Variable queuedAtSince : string.

Lemma truncation_floor (m : Z) : 0 ≤ m → Z.quot (7 * m) 4 = 7 * m / 4.
Proof. intros. apply Z.quot_div_nonneg; lia. Qed.

Lemma truncation_vs_ceil (m : Z) :
  0 ≤ m →
  Z.quot (7 * m) 4 ≤ ceil175 m
  ∧ (Z.quot (7 * m) 4 = ceil175 m ↔ m mod 4 = 0).
Proof.
  intros. rewrite truncation_floor by done. unfold ceil175.
  pose proof (Z.div_mod (7 * m) 4 ltac:(lia)).
  pose proof (Z.mod_pos_bound (7 * m) 4 ltac:(lia)).
  pose proof (Z.div_mod (- (7 * m)) 4 ltac:(lia)).
  pose proof (Z.mod_pos_bound (- (7 * m)) 4 ltac:(lia)).
  pose proof (Z.div_mod m 4 ltac:(lia)).
  pose proof (Z.mod_pos_bound m 4 ltac:(lia)).
  lia.
Qed.

(** C1, as the code has it.  On the adaptive path, when the most recent
    prior run was killed for lack of memory and records its memory and CPU,
    the requests handed to the limit-raise and clamping steps are
    [cpuRequest = priorCpu] and [memRequest = int64(float64(priorMem) * 1.75)].
    For every prior memory with [|7·priorMem| < 2^53] (the range in which
    binary64 holds the product exactly) that is [priorMem × 1.75] truncated
    toward zero: for [priorMem ≥ 0] the floor of [7·priorMem/4], which never
    exceeds the ceiling and meets it exactly when [priorMem] is a multiple
    of 4. *)
Theorem oom_feedback_truncates
    executable run manager lastRun reason priorMem priorCpu
    cpuRequest memRequest :
  AdaptiveResourceAllocation (GetExecutableResources executable) = Some true →
  adapter.getLastRun queuedAtSince manager run = Some lastRun →
  ExitReason lastRun = Some reason →
  GoStrings.Contains reason "OOMKilled" = true →
  Memory lastRun = Some priorMem →
  Cpu lastRun = Some priorCpu →
  - 2 ^ 53 < 7 * priorMem < 2 ^ 53 →
  adapter.adaptiveRequests queuedAtSince executable run manager true
                           cpuRequest memRequest
  = Some (priorCpu, Z.quot (7 * priorMem) 4)
  ∧ (0 ≤ priorMem →
     Z.quot (7 * priorMem) 4 = 7 * priorMem / 4
     ∧ Z.quot (7 * priorMem) 4 ≤ ceil175 priorMem
     ∧ (Z.quot (7 * priorMem) 4 = ceil175 priorMem ↔ priorMem mod 4 = 0)).
Proof.
  intros Hflag Hlast Hreason Hoom Hmem Hcpu Hrange. split.
  - unfold adapter.adaptiveRequests.
    rewrite Hflag, Hlast. rewrite bool_decide_true by done.
    cbn -[adapter.scaleOOMMemory]. rewrite Hreason, Hoom, Hmem, Hcpu.
    cbn -[adapter.scaleOOMMemory]. by rewrite scaleOOMMemory_exact.
  - intros Hm. pose proof (truncation_floor priorMem Hm).
    pose proof (truncation_vs_ceil priorMem Hm). tauto.
Qed.

End OOMFeedback.

(** C1 at the specification's second scenario: prior memory 4000 and CPU 1500
    give the requests (1500, 7000). *)
Lemma oom_feedback_truncates_witness :
  adapter.adaptiveRequests Sample.queuedAtSince (Sample.definitionA [])
    Sample.runA (Sample.managerWith (Sample.priorRun "OOMKilled" 4000 1500))
    true 1000 2048
  = Some (1500, Z.quot (7 * 4000) 4)
  ∧ (0 ≤ 4000 →
     Z.quot (7 * 4000) 4 = 7 * 4000 / 4
     ∧ Z.quot (7 * 4000) 4 ≤ ceil175 4000
     ∧ (Z.quot (7 * 4000) 4 = ceil175 4000 ↔ 4000 mod 4 = 0)).
Proof.
  apply (oom_feedback_truncates Sample.queuedAtSince (Sample.definitionA [])
           Sample.runA (Sample.managerWith (Sample.priorRun "OOMKilled" 4000 1500))
           (Sample.priorRun "OOMKilled" 4000 1500) "OOMKilled" 4000 1500);
    (reflexivity || lia).
Defined.

(** C1 as stated fails: after an out-of-memory run of 4001 MiB the memory
    request is 7001, not [ceil(4001 × 1.75) = 7002]. *)
Lemma oom_feedback_is_not_the_ceiling :
  let requests :=
    adapter.adaptiveRequests Sample.queuedAtSince (Sample.definitionA [])
      Sample.runA (Sample.managerWith (Sample.priorRun "OOMKilled" 4001 1500))
      true 1000 2048 in
  requests = Some (1500, 7001)
  ∧ requests ≠ Some (1500, ceil175 4001)
  ∧ ceil175 4001 = 7002
  ∧ adapter.scaleOOMMemory 4001 = 7001.
Proof. cbv zeta. repeat split; vm_compute; (reflexivity || discriminate). Qed.

(** ** Environment sanitization *)

Section EnvFacts.


Lemma Replace_all_removes (c : ascii) (s : string) (n : Z) :
  n < 0 → hasByte c (GoStrings.Replace s c "" n) = false.
Proof.
  revert n. induction s as [|d s IH]; intros n Hn; [done|].
  cbn [GoStrings.Replace].
  destruct (Z.eqb_spec n 0); [lia|].
  destruct (Ascii.eqb d c) eqn:E.
  - apply IH. lia.
  - cbn [hasByte]. rewrite E. by apply IH.
Qed.

(** What [sanitizeEnvVar] does achieve: no space survives. *)
Lemma sanitizeEnvVar_no_space (key : string) :
  hasByte " "%char (adapter.sanitizeEnvVar key) = false.
Proof. unfold adapter.sanitizeEnvVar. by apply Replace_all_removes. Qed.


Lemma store_keys (evs : list EnvVar) (pairs : gmap string string) (k : string) :
  is_Some (foldl store pairs evs !! k) →
  is_Some (pairs !! k) ∨ ∃ ev, ev ∈ evs ∧ k = adapter.sanitizeEnvVar (Name ev).
Proof.
  revert pairs. induction evs as [|ev evs IH]; intros pairs H; [by left|].
  cbn [foldl] in H. destruct (IH _ H) as [Hk|(ev' & Hin & ->)].
  - unfold store in Hk.
    destruct (decide (adapter.sanitizeEnvVar (Name ev) = k)) as [<-|Hne].
    + right. exists ev. split; [left | done].
    + rewrite lookup_insert_ne in Hk by done. by left.
  - right. exists ev'. split; [by right | done].
Qed.

(** Every name [envOverrides] emits is the sanitized form of a name of the
    definition or of the run, is not empty and holds no space. *)
Lemma envOverrides_names executable run res ev :
  adapter.envOverrides executable run = Some res →
  ev ∈ res →
  (∃ src, (src ∈ default [] (ResEnv (GetExecutableResources executable))
           ∨ src ∈ default [] (Env run))
          ∧ Name ev = adapter.sanitizeEnvVar (Name src))
  ∧ Name ev ≠ ""
  ∧ hasByte " "%char (Name ev) = false.
Proof.
  unfold adapter.envOverrides.
  destruct (ResEnv _) as [denv|]; [|done].
  destruct (Env run) as [renv|]; [|done]. cbn.
  intros [= <-] Hin.
  apply list_elem_of_omap in Hin as ([k v] & Hkv & Hf).
  cbn in Hf. destruct (0 <? _) eqn:Hlen; [|done].
  injection Hf as <-. cbn.
  apply elem_of_map_to_list in Hkv.
  assert (∃ src, (src ∈ denv ∨ src ∈ renv)
                 ∧ k = adapter.sanitizeEnvVar (Name src)) as (src & Hsrc & ->).
  { destruct (store_keys renv _ k (mk_is_Some _ _ Hkv)) as [Hk|(src & ? & ?)];
      [|by eauto].
    destruct (store_keys denv _ k Hk) as [Hk'|(src & ? & ?)]; [|by eauto].
    rewrite lookup_empty in Hk'. by destruct Hk'. }
  split; [by eauto|]. split.
  - intros E. rewrite E in Hlen. done.
  - apply sanitizeEnvVar_no_space.
Qed.

End EnvFacts.

(** C8 at a failing input.  A definition-level variable named [$$PATH] (and
    likewise [ $HOME], with a leading space) reaches the built container as
    [$PATH] (resp. [$HOME]): only one leading [$] is stripped, and it is
    stripped before the spaces are removed. *)
Theorem env_name_still_begins_with_dollar :
  adapter.sanitizeEnvVar "$$PATH" = "$PATH"
  ∧ adapter.sanitizeEnvVar " $HOME" = "$HOME"
  ∧ (corev1.Env <$>
       (adapter.AdaptFlotillaDefinitionAndRunToJob
          Sample.MinCPU Sample.MaxCPU Sample.MinMem Sample.MaxMem
          Sample.SpotActiveDeadlineSeconds Sample.OndemandActiveDeadlineSeconds
          Sample.queuedAtSince
          (Sample.definitionA [mkEnvVar "$$PATH" "/bin"]) Sample.runA
          "sa" "default-scheduler"
          (Sample.managerWith (Sample.priorRun "" 2048 1000)) false
        ≫= λ job, head (batchv1.JobContainers job)))
    = Some [mkEnvVar "$PATH" "/bin"]
  ∧ GoStrings.HasPrefix "$PATH" "$" = true.
Proof. repeat split. Qed.

(** ** Usage watermarks *)

Section Watermarks.

Lemma watermark_le_refl (w : option Z) : watermark_le w w.
Proof. destruct w; simpl; [lia | done]. Qed.

Lemma watermark_le_trans (a b c : option Z) :
  watermark_le a b → watermark_le b c → watermark_le a c.
Proof. destruct a, b, c; simpl; try done; lia. Qed.

Lemma watermark_le_update (w : option Z) (usage : Z) :
  0 ≤ usage →
  watermark_le w (if engine.watermarkBelow w usage then Some usage else w).
Proof.
  intros. destruct w as [v|]; simpl; [|done].
  destruct (Z.eqb_spec v 0); simpl; [lia|].
  destruct (Z.ltb_spec v usage); simpl; lia.
Qed.

(** One [FetchPodMetrics]: both watermarks move up or stay. *)
Lemma FetchPodMetrics_monotone ee run :
  nonNegativeUsage (engine.kClient ee) →
  watermark_le (MaxCpuUsed run) (MaxCpuUsed (engine.FetchPodMetrics ee run).1)
  ∧ watermark_le (MaxMemoryUsed run)
                 (MaxMemoryUsed (engine.FetchPodMetrics ee run).1).
Proof.
  intros Hk. unfold engine.FetchPodMetrics.
  destruct (PodName run) as [podName|]; cbn; [|auto using watermark_le_refl].
  destruct (engine.PodMetricsesGet _ _) as [pm|] eqn:E;
    cbn; [|auto using watermark_le_refl].
  destruct (corev1.MetricsContainers pm) as [|cm rest] eqn:Ec;
    cbn; [auto using watermark_le_refl|].
  destruct (Hk podName pm cm E) as [Hcpu Hmem]; [rewrite Ec; left|].
  pose proof (watermark_le_update (MaxCpuUsed run) _ Hcpu).
  pose proof (watermark_le_update (MaxMemoryUsed run) _ Hmem).
  destruct (engine.watermarkBelow (MaxMemoryUsed run) _); cbn in *;
    destruct (engine.watermarkBelow (MaxCpuUsed run) _); cbn in *;
    auto using watermark_le_refl.
Qed.

(** One [FetchPodMetrics]: a watermark changes only by taking the usage just
    read, and only when it was unset, zero or strictly below that usage. *)
Lemma FetchPodMetrics_replaces_only_when_below ee run :
  let run' := (engine.FetchPodMetrics ee run).1 in
  (MaxCpuUsed run' = MaxCpuUsed run
   ∨ ∃ usage, MaxCpuUsed run' = Some usage
              ∧ (MaxCpuUsed run = None ∨ MaxCpuUsed run = Some 0
                 ∨ ∃ v, MaxCpuUsed run = Some v ∧ v < usage))
  ∧ (MaxMemoryUsed run' = MaxMemoryUsed run
     ∨ ∃ usage, MaxMemoryUsed run' = Some usage
                ∧ (MaxMemoryUsed run = None ∨ MaxMemoryUsed run = Some 0
                   ∨ ∃ v, MaxMemoryUsed run = Some v ∧ v < usage)).
Proof.
  assert (Hbelow : ∀ w usage, engine.watermarkBelow w usage = true →
            w = None ∨ w = Some 0 ∨ ∃ v, w = Some v ∧ v < usage).
  { intros [v|] usage H; [|by left]. cbn in H.
    apply orb_true_iff in H as [H|H]; [right; left | right; right].
    - f_equal. lia.
    - exists v. split; [done | lia]. }
  cbv zeta. unfold engine.FetchPodMetrics.
  destruct (PodName run) as [podName|]; cbn; [|auto].
  destruct (engine.PodMetricsesGet _ _) as [pm|]; cbn; [|auto].
  destruct (corev1.MetricsContainers pm) as [|cm rest]; cbn; [auto|].
  destruct (engine.watermarkBelow (MaxMemoryUsed run) _) eqn:Em;
    cbn; destruct (engine.watermarkBelow (MaxCpuUsed _) _) eqn:Ec; cbn in *;
    split; eauto.
Qed.

Lemma getInstanceDetails_watermarks pod run :
  MaxCpuUsed (engine.getInstanceDetails pod run) = MaxCpuUsed run
  ∧ MaxMemoryUsed (engine.getInstanceDetails pod run) = MaxMemoryUsed run.
Proof. unfold engine.getInstanceDetails. by case_match. Qed.

Lemma adoptMostRecentPod_watermarks items run :
  MaxCpuUsed (engine.adoptMostRecentPod items run).1 = MaxCpuUsed run
  ∧ MaxMemoryUsed (engine.adoptMostRecentPod items run).1 = MaxMemoryUsed run.
Proof.
  unfold engine.adoptMostRecentPod, engine.getInstanceDetails.
  repeat case_match; done.
Qed.

Lemma mergeEvents_watermarks run events :
  MaxCpuUsed (engine.mergeEvents run events) = MaxCpuUsed run
  ∧ MaxMemoryUsed (engine.mergeEvents run events) = MaxMemoryUsed run.
Proof. unfold engine.mergeEvents. repeat case_match; done. Qed.

Lemma AdaptJobToFlotillaRun_watermarks now job run pod :
  MaxCpuUsed (adapter.AdaptJobToFlotillaRun now job run pod) = MaxCpuUsed run
  ∧ MaxMemoryUsed (adapter.AdaptJobToFlotillaRun now job run pod)
    = MaxMemoryUsed run.
Proof. unfold adapter.AdaptJobToFlotillaRun. repeat case_match; done. Qed.

Lemma refreshFromPods_watermarks podList err run :
  MaxCpuUsed (engine.refreshFromPods podList err run).1 = MaxCpuUsed run
  ∧ MaxMemoryUsed (engine.refreshFromPods podList err run).1 = MaxMemoryUsed run.
Proof.
  unfold engine.refreshFromPods. destruct err; [done|].
  destruct (engine.itemsOf podList) as [[|? ?]|]; try done.
  apply adoptMostRecentPod_watermarks.
Qed.

(** One [FetchUpdateStatus]: the watermarks of the run handed back are those
    [FetchPodMetrics] leaves on the run as refreshed from the pod list. *)
Lemma FetchUpdateStatus_monotone ee now now' run run' err actions :
  holdsEKSAdapter ee →
  nonNegativeUsage (engine.kClient ee) →
  engine.FetchUpdateStatus ee now now' run = Some (run', err, actions) →
  watermark_le (MaxCpuUsed run) (MaxCpuUsed run')
  ∧ watermark_le (MaxMemoryUsed run) (MaxMemoryUsed run').
Proof.
  intros Had Hk. unfold engine.FetchUpdateStatus. rewrite Had.
  destruct (engine.JobsGet _ _) as [job|e].
  2:{ intros [= <- _ _]. auto using watermark_le_refl. }
  destruct (engine.getPodList ee run) as [podList err0].
  destruct (refreshFromPods_watermarks podList err0 run) as [Hc Hm].
  destruct (engine.refreshFromPods podList err0 run) as [run1 mostRecentPod].
  cbn [fst] in Hc, Hm.
  destruct (FetchPodMetrics_monotone ee run1 Hk) as [Hc2 Hm2].
  rewrite Hc in Hc2. rewrite Hm in Hm2.
  set (run2 := (engine.FetchPodMetrics ee run1).1) in *.
  destruct (engine.GetEvents ee run2) as [events err1].
  set (run3 := if bool_decide (err1 = None)
                  && (0 <? Z.of_nat (length (PodEvents_of events)))
               then engine.mergeEvents run2 events else run2).
  assert (H3 : MaxCpuUsed run3 = MaxCpuUsed run2
               ∧ MaxMemoryUsed run3 = MaxMemoryUsed run2).
  { subst run3. case_match; [apply mergeEvents_watermarks | done]. }
  clearbody run3. destruct H3 as [H3c H3m].
  intros H.
  assert (∃ job' pod', run' = adapter.AdaptJobToFlotillaRun now' job' run3 pod')
    as (job' & pod' & ->).
  { destruct (engine.isDangling _ _ _ _) as [[|]|]; cbn in H; [| |done].
    - destruct (engine.JobsDelete _ _); injection H as <- _ _; eauto.
    - injection H as <- _ _; eauto. }
  destruct (AdaptJobToFlotillaRun_watermarks now' job' run3 pod') as [-> ->].
  by rewrite H3c, H3m.
Qed.

End Watermarks.

(** C9.  Over any sequence of [FetchPodMetrics] and [FetchUpdateStatus]
    calls, each answered by a cluster whose usage readings are non-negative,
    [MaxCpuUsed] and [MaxMemoryUsed] never decrease (and never become unset);
    and in a [FetchPodMetrics] call a watermark is replaced only by the usage
    just read and only when it was unset, zero or strictly below it. *)
Theorem watermarks_never_decrease (calls : list call) (run : Run) :
  Forall (λ c, holdsEKSAdapter (engineOf c)
               ∧ nonNegativeUsage (engine.kClient (engineOf c))) calls →
  (watermark_le (MaxCpuUsed run) (MaxCpuUsed (foldl runCall run calls))
   ∧ watermark_le (MaxMemoryUsed run) (MaxMemoryUsed (foldl runCall run calls)))
  ∧ (∀ ee,
       let run' := (engine.FetchPodMetrics ee run).1 in
       (MaxCpuUsed run' = MaxCpuUsed run
        ∨ ∃ usage, MaxCpuUsed run' = Some usage
                   ∧ (MaxCpuUsed run = None ∨ MaxCpuUsed run = Some 0
                      ∨ ∃ v, MaxCpuUsed run = Some v ∧ v < usage))
       ∧ (MaxMemoryUsed run' = MaxMemoryUsed run
          ∨ ∃ usage, MaxMemoryUsed run' = Some usage
                     ∧ (MaxMemoryUsed run = None ∨ MaxMemoryUsed run = Some 0
                        ∨ ∃ v, MaxMemoryUsed run = Some v ∧ v < usage))).
Proof.
  intros Hcalls. split.
  - revert run. induction Hcalls as [|c calls [Had Hk] _ IH]; intros run.
    + cbn. auto using watermark_le_refl.
    + cbn [foldl]. destruct (IH (runCall run c)) as [IHc IHm].
      assert (watermark_le (MaxCpuUsed run) (MaxCpuUsed (runCall run c))
              ∧ watermark_le (MaxMemoryUsed run) (MaxMemoryUsed (runCall run c)))
        as [Hc Hm].
      { destruct c as [ee|ee now now']; cbn in *.
        - by apply FetchPodMetrics_monotone.
        - destruct (engine.FetchUpdateStatus ee now now' run)
            as [[[run' err] actions]|] eqn:E.
          + by eapply FetchUpdateStatus_monotone.
          + auto using watermark_le_refl. }
      split; eapply watermark_le_trans; eauto.
  - intros ee. apply FetchPodMetrics_replaces_only_when_below.
Qed.

Lemma cluster_nonNegativeUsage theJob pods cpu mem events jobDeletion :
  0 ≤ cpu → 0 ≤ mem →
  nonNegativeUsage
    (SampleCluster.cluster theJob pods
       (Ok (corev1.mkPodMetrics [corev1.mkContainerMetrics cpu mem]))
       events jobDeletion).
Proof.
  intros ?? podName pm cm [= <-] Hin. cbn in Hin.
  apply list_elem_of_singleton in Hin as ->. done.
Qed.

(** C9 on a run polled three times while its usage reads 300 mC / 900 MB,
    then 120 / 400, then 500 / 700: the watermarks end at 500 / 900. *)
Lemma watermarks_never_decrease_witness :
  let reading cpu mem :=
    SampleCluster.engineOn
      (SampleCluster.cluster (SampleCluster.job 1 0 0)
         [SampleCluster.pod "pod-1" 100]
         (Ok (corev1.mkPodMetrics [corev1.mkContainerMetrics cpu mem]))
         (Ok []) None) in
  let calls :=
    [ CallFetchPodMetrics (reading 300 900);
      CallFetchUpdateStatus (reading 120 400) 1000 1001;
      CallFetchPodMetrics (reading 500 700) ] in
  let run := SampleCluster.runningRun 500 in
  (MaxCpuUsed (foldl runCall run calls) = Some 500
   ∧ MaxMemoryUsed (foldl runCall run calls) = Some 900)
  ∧ watermark_le (MaxCpuUsed run) (MaxCpuUsed (foldl runCall run calls))
  ∧ watermark_le (MaxMemoryUsed run) (MaxMemoryUsed (foldl runCall run calls)).
Proof.
  cbv zeta. split; [split; reflexivity|].
  refine (proj1 (watermarks_never_decrease _ (SampleCluster.runningRun 500) _)).
  repeat (constructor;
          [split; [reflexivity | apply cluster_nonNegativeUsage; lia] |]).
  constructor.
Defined.

(** ** Runs without a pod *)

(** C10.  For a run whose [PodName] is unset, [GetEvents] returns the empty
    [PodEventList] and a nil error, while [FetchPodMetrics] returns the run
    unchanged together with an error. *)
Theorem no_pod_events_empty_metrics_error ee run :
  PodName run = None →
  engine.GetEvents ee run = (mkPodEventList 0 [], None)
  ∧ engine.FetchPodMetrics ee run
    = (run, Some "no pod associated with the run.").
Proof.
  intros H. unfold engine.GetEvents, engine.FetchPodMetrics. by rewrite H.
Qed.

Lemma no_pod_events_empty_metrics_error_witness :
  let ee :=
    SampleCluster.engineOn
      (SampleCluster.cluster (SampleCluster.job 0 0 0) []
         (Err "pods.metrics.k8s.io not found") (Err "unavailable") None) in
  PodName Sample.runA = None
  ∧ engine.GetEvents ee Sample.runA = (mkPodEventList 0 [], None)
  ∧ engine.FetchPodMetrics ee Sample.runA
    = (Sample.runA, Some "no pod associated with the run.").
Proof.
  cbv zeta. split; [reflexivity|].
  apply (no_pod_events_empty_metrics_error _ Sample.runA). reflexivity.
Defined.

(** ** The most recent pod *)

Section PodScan.

Lemma scanStep_p items st item : engine.p (engine.scanStep items st item) = item.
Proof. unfold engine.scanStep. by case_match. Qed.

(** After the loop the loop variable holds the last item listed. *)
Lemma scan_p n st items :
  engine.p (foldl (engine.scanStep n) st items)
  = default (engine.p st) (last items).
Proof.
  revert st. induction items as [|item items IH]; intros st; [done|].
  cbn [foldl]. rewrite IH, scanStep_p, last_cons. by destruct (last items).
Qed.

Lemma scan_stays_selected n st items :
  engine.mostRecentPod st = engine.addrOfP →
  engine.mostRecentPod (foldl (engine.scanStep n) st items) = engine.addrOfP.
Proof.
  revert st. induction items as [|item items IH]; intros st H; [done|].
  cbn [foldl]. apply IH. unfold engine.scanStep. by case_match.
Qed.

Lemma scan_selects n st items item :
  item ∈ items →
  engine.mostRecentPod st = engine.nilPod
  ∧ engine.mostRecentPodCreationTimestamp st = 0
  ∨ engine.mostRecentPod st = engine.addrOfP →
  0 < corev1.CreationTimestamp item →
  engine.mostRecentPod (foldl (engine.scanStep n) st items) = engine.addrOfP.
Proof.
  revert st. induction items as [|x items IH]; intros st Hin Hst Hpos.
  - by apply elem_of_nil in Hin.
  - cbn [foldl]. destruct Hst as [[Hnil Hts]|Hsel].
    2:{ apply scan_stays_selected. unfold engine.scanStep. by case_match. }
    apply elem_of_cons in Hin as [<-|Hin].
    + apply scan_stays_selected. unfold engine.scanStep. cbn.
      rewrite Hts. destruct (Z.ltb_spec 0 (corev1.CreationTimestamp item)); [done|lia].
    + apply IH; [done| |done]. unfold engine.scanStep. cbn.
      case_match; [by right | left; cbn; auto].
Qed.

(** What the scan hands on: as soon as one listed pod carries a creation
    timestamp, [*mostRecentPod] read after the loop is the pod listed LAST,
    whichever pod is the newest. *)
Lemma scanPods_hands_on_the_last_pod items item :
  item ∈ items →
  0 < corev1.CreationTimestamp item →
  engine.deref (engine.scanPods items) = last items.
Proof.
  intros Hin Hpos. unfold engine.deref, engine.scanPods.
  rewrite (scan_selects _ _ _ item Hin); [|left; done|done].
  rewrite scan_p. destruct (last items) eqn:E; [done|].
  apply last_None in E. subst. by apply elem_of_nil in Hin.
Qed.

(** The pod name does follow the pod handed on. *)
Lemma adoptMostRecentPod_PodName items run pod :
  engine.deref (engine.scanPods items) = Some pod →
  PodName (engine.adoptMostRecentPod items run).1 = Some (corev1.PodName pod)
  ∧ (engine.adoptMostRecentPod items run).2 = Some pod.
Proof.
  intros H. unfold engine.adoptMostRecentPod, engine.getInstanceDetails.
  rewrite H. repeat case_match; cbn; try done.
  all: match goal with
       | Hd : bool_decide _ = false |- _ =>
           apply bool_decide_eq_false in Hd; by apply dec_stable in Hd
       end.
Qed.

End PodScan.

(** C7 at a failing input.  The pod list holds the newer pod first
    ([pod-new], created at 200) and the older one second ([pod-old], created
    at 100).  The scan records 200 as the latest creation timestamp, yet the
    pod read through [mostRecentPod] after the loop is [pod-old], and that is
    the name [FetchUpdateStatus] stores in the run. *)
Theorem most_recent_pod_is_the_last_listed :
  let items := [SampleCluster.pod "pod-new" 200; SampleCluster.pod "pod-old" 100] in
  let ee :=
    SampleCluster.engineOn
      (SampleCluster.cluster (SampleCluster.job 1 0 0) items
         (Err "metrics not ready") (Ok []) None) in
  engine.mostRecentPodCreationTimestamp (engine.scanPods items) = 200
  ∧ corev1.PodName <$> engine.deref (engine.scanPods items) = Some "pod-old"
  ∧ (λ r, PodName r.1.1) <$> engine.FetchUpdateStatus ee 1000 1001 Sample.runA
    = Some (Some "pod-old").
Proof. repeat split. Qed.

(** ** Pod events *)

Section PodEventsFacts.

Lemma seen_spec (priorEvents : list PodEvent) (newEvent : PodEvent) :
  existsb (λ priorEvent, PodEvent_Equal priorEvent newEvent) priorEvents = true
  ↔ newEvent ∈ priorEvents.
Proof.
  rewrite existsb_exists. unfold PodEvent_Equal. split.
  - intros (x & Hin & Heq). apply bool_decide_eq_true in Heq as ->.
    by apply list_elem_of_In.
  - intros Hin. exists newEvent. split; [by apply list_elem_of_In|].
    by apply bool_decide_eq_true.
Qed.

(** The merge only appends: the prior events stay in front, in order. *)
Lemma appendUnseen_prefix (newEvents priorEvents : list PodEvent) :
  priorEvents `prefix_of` engine.appendUnseen priorEvents newEvents.
Proof.
  revert priorEvents. induction newEvents as [|e newEvents IH]; intros prior.
  - done.
  - cbn [engine.appendUnseen]. destruct (negb _); [|apply IH].
    etrans; [|apply IH]. by apply prefix_app_r.
Qed.

(** The merge holds exactly the prior and the new events. *)
Lemma appendUnseen_elem (newEvents priorEvents : list PodEvent) (x : PodEvent) :
  x ∈ engine.appendUnseen priorEvents newEvents
  ↔ x ∈ priorEvents ∨ x ∈ newEvents.
Proof.
  revert priorEvents. induction newEvents as [|e newEvents IH]; intros prior.
  - cbn. split; [by left|]. intros [H|H]; [done|]. by apply elem_of_nil in H.
  - cbn [engine.appendUnseen]. rewrite IH, elem_of_cons.
    destruct (existsb _ prior) eqn:E; cbn [negb].
    + apply seen_spec in E. split; [tauto|].
      intros [H|[->|H]]; auto.
    + rewrite elem_of_app, list_elem_of_singleton. tauto.
Qed.

(** The merge keeps a duplicate-free list duplicate-free, whatever is
    fetched. *)
Lemma appendUnseen_NoDup (newEvents priorEvents : list PodEvent) :
  NoDup priorEvents → NoDup (engine.appendUnseen priorEvents newEvents).
Proof.
  revert priorEvents. induction newEvents as [|e newEvents IH]; intros prior H.
  - done.
  - cbn [engine.appendUnseen]. apply IH.
    destruct (existsb _ prior) eqn:E; cbn [negb]; [done|].
    apply NoDup_app. split; [done|]. split; [|apply NoDup_singleton].
    intros x Hx Hx'. apply list_elem_of_singleton in Hx' as ->.
    apply seen_spec in Hx. congruence.
Qed.

(** With prior events the run's list stays duplicate-free and only grows at
    its end. *)
Lemma mergeEvents_with_prior run events e priorEvents :
  PodEvents run = Some (e :: priorEvents) →
  NoDup (e :: priorEvents) →
  ∃ merged, PodEvents (engine.mergeEvents run events) = Some merged
            ∧ NoDup merged
            ∧ (e :: priorEvents) `prefix_of` merged.
Proof.
  intros Hp Hnd. unfold engine.mergeEvents. rewrite Hp. cbn.
  eexists. split; [done|]. split.
  - by apply appendUnseen_NoDup.
  - apply appendUnseen_prefix.
Qed.

(** Without prior events the fetched list is taken over as it is. *)
Lemma mergeEvents_without_prior run events :
  PodEvents run = None ∨ PodEvents run = Some [] →
  PodEvents (engine.mergeEvents run events) = Some (PodEvents_of events).
Proof. unfold engine.mergeEvents. by intros [->| ->]. Qed.

End PodEventsFacts.

(** The first fetch is adopted as listed.  Were an event list to hold the
    same event twice (the events API does not answer so: it names every
    event of a namespace differently), a run without recorded events would
    come back with both copies, while the same fetch merged into a run that
    already records another event is deduplicated. *)
Example first_fetch_is_adopted_as_listed :
  let event := corev1.mkEvent "Pulling image" 100 "Normal" "Pulling" "pod-1.16f3" in
  let podEvent := mkPodEvent "Pulling image" (Some 100) "Normal" "Pulling" "pod-1.16f3" in
  let earlier := mkPodEvent "Scheduled" (Some 90) "Normal" "Scheduled" "pod-1.16f2" in
  let ee :=
    SampleCluster.engineOn
      (SampleCluster.cluster (SampleCluster.job 1 0 0)
         [SampleCluster.pod "pod-1" 100]
         (Err "metrics not ready") (Ok [event; event]) None) in
  let run := SampleCluster.runningRun 500 in
  PodEvents run = None
  ∧ (λ r, PodEvents r.1.1) <$> engine.FetchUpdateStatus ee 1000 1001 run
    = Some (Some [podEvent; podEvent])
  ∧ ¬ NoDup [podEvent; podEvent]
  ∧ (λ r, PodEvents r.1.1)
      <$> engine.FetchUpdateStatus ee 1000 1001 (set_PodEvents (Some [earlier]) run)
    = Some (Some [earlier; podEvent]).
Proof.
  cbv zeta. repeat split.
  intros H. apply NoDup_cons in H as [H _]. apply H. left.
Qed.

(** ** Dangling jobs *)

Section DanglingJob.

Lemma FetchPodMetrics_identity ee run :
  RunID (engine.FetchPodMetrics ee run).1 = RunID run
  ∧ PodName (engine.FetchPodMetrics ee run).1 = PodName run
  ∧ QueuedAt (engine.FetchPodMetrics ee run).1 = QueuedAt run.
Proof. unfold engine.FetchPodMetrics. repeat case_match; done. Qed.

Lemma mergeEvents_identity run events :
  RunID (engine.mergeEvents run events) = RunID run
  ∧ PodName (engine.mergeEvents run events) = PodName run
  ∧ QueuedAt (engine.mergeEvents run events) = QueuedAt run.
Proof. unfold engine.mergeEvents. repeat case_match; done. Qed.

(** The reverse adapter on a Job reported failed, without a pod: the run is
    stopped with exit code 1, unless the Job also counts an active pod
    without a completion time, or a succeeded one: those are tested first. *)
Lemma AdaptJobToFlotillaRun_failed_without_pod now job run :
  ¬ (batchv1.Active (batchv1.Status job) = 1
     ∧ batchv1.CompletionTime (batchv1.Status job) = None) →
  batchv1.Succeeded (batchv1.Status job) ≠ 1 →
  batchv1.Failed (batchv1.Status job) = 1 →
  Status (adapter.AdaptJobToFlotillaRun now job run None) = StatusStopped
  ∧ ExitCode (adapter.AdaptJobToFlotillaRun now job run None) = Some 1.
Proof.
  intros Hactive Hsucc Hfailed. unfold adapter.AdaptJobToFlotillaRun.
  cbn [adapter.lastTerminated adapter.firstContainer mbind option_bind].
  destruct ((batchv1.Active _ =? 1) && bool_decide _) eqn:E1.
  { apply andb_true_iff in E1 as [E1 E2]. apply bool_decide_eq_true in E2.
    destruct Hactive. split; [lia | done]. }
  destruct (Z.eqb_spec (batchv1.Succeeded (batchv1.Status job)) 1); [done|].
  rewrite Hfailed. cbn.
  destruct (batchv1.StartTime _); cbn;
    destruct (batchv1.CompletionTime _); cbn; done.
Qed.



End DanglingJob.



(** ** Submission errors *)

Section SubmissionErrors.

(** A lower-case marker that occurs in the message itself is found in the
    lowered message as well. *)
Lemma Execute_literal_already_exists ee now td run job err :
  manifestOf ee td run = Some job →
  engine.JobsCreate (engine.kClient ee) job = Err err →
  GoStrings.Contains err "already exists" = true →
  engine.Execute ee now td run = Some (run, false, None).
Proof.
  unfold manifestOf, engine.Execute. intros -> Hc H. cbn. rewrite Hc.
  by rewrite (Contains_ToLower err "already exists" eq_refl H).
Qed.

(** C4, as the code has it.  [Execute] classifies a submission error by its
    LOWER-CASED message, testing ["already exists"] before ["is invalid"]:
    the first gives [(run, false, nil)] with the run untouched, the second
    [(run with ExitReason = the error text, false, err)], anything else
    [(run, true, err)].  Consequently, when the cluster accepts the first
    submission and answers the second with an error whose lowered message
    contains ["already exists"], both calls return a nil error and
    [retryable = false]. *)
Theorem execute_classifies_the_lowered_message
    ee ee' now now' td run job err :
  manifestOf ee td run = Some job →
  manifestOf ee' td run = Some job →
  engine.JobsCreate (engine.kClient ee') job = Err err →
  engine.Execute ee' now' td run
  = Some (if GoStrings.Contains (GoStrings.ToLower err) "already exists"
          then (run, false, None)
          else if GoStrings.Contains (GoStrings.ToLower err) "is invalid"
          then (set_ExitReason (Some err) run, false, Some err)
          else (run, true, Some err))
  ∧ (∀ result,
       engine.JobsCreate (engine.kClient ee) job = Ok result →
       GoStrings.Contains (GoStrings.ToLower err) "already exists" = true →
       (∃ adaptedRun, engine.Execute ee now td run = Some (adaptedRun, false, None))
       ∧ engine.Execute ee' now' td run = Some (run, false, None)).
Proof.
  intros Hjob Hjob' Hcreate'.
  assert (Hsecond : engine.Execute ee' now' td run
          = Some (if GoStrings.Contains (GoStrings.ToLower err) "already exists"
                  then (run, false, None)
                  else if GoStrings.Contains (GoStrings.ToLower err) "is invalid"
                  then (set_ExitReason (Some err) run, false, Some err)
                  else (run, true, Some err))).
  { unfold manifestOf in Hjob'. unfold engine.Execute.
    rewrite Hjob'. cbn. rewrite Hcreate'. by repeat case_match. }
  split; [exact Hsecond|].
  intros result Hcreate Hexists. split.
  - unfold manifestOf in Hjob. unfold engine.Execute.
    rewrite Hjob. cbn. rewrite Hcreate. eauto.
  - by rewrite Hsecond, Hexists.
Qed.

End SubmissionErrors.

(** C4 on a run submitted twice: the cluster accepts the first submission
    and refuses the second as a duplicate. *)
Lemma execute_classifies_the_lowered_message_witness :
  let accepting := SampleCluster.engineOn (SampleCluster.submitting Ok) in
  let refusing :=
    SampleCluster.engineOn
      (SampleCluster.submitting (λ _, Err "jobs.batch run-1 already exists")) in
  (∃ adaptedRun,
     engine.Execute accepting 1000 (Sample.definitionA []) Sample.runA
     = Some (adaptedRun, false, None))
  ∧ engine.Execute refusing 1001 (Sample.definitionA []) Sample.runA
    = Some (Sample.runA, false, None).
Proof.
  cbv zeta.
  edestruct (execute_classifies_the_lowered_message
               (SampleCluster.engineOn (SampleCluster.submitting Ok))
               (SampleCluster.engineOn
                  (SampleCluster.submitting
                     (λ _, Err "jobs.batch run-1 already exists")))
               1000 1001 (Sample.definitionA []) Sample.runA)
    as [_ H]; [reflexivity | reflexivity | reflexivity |].
  apply (H _ eq_refl eq_refl).
Defined.

(** C4 as stated fails.  The message below contains neither
    ["already exists"] nor ["is invalid"], so read literally it is an error
    of the third kind and must come back retryable with the error; the code
    lowers it first, finds ["already exists"], and reports success. *)
Lemma capitalised_duplicate_is_success :
  let err := "AlreadyExists: Job run-1 Already Exists" in
  let ee := SampleCluster.engineOn (SampleCluster.submitting (λ _, Err err)) in
  GoStrings.Contains err "already exists" = false
  ∧ GoStrings.Contains err "is invalid" = false
  ∧ engine.Execute ee 1000 (Sample.definitionA []) Sample.runA
    = Some (Sample.runA, false, None)
  ∧ engine.Execute ee 1000 (Sample.definitionA []) Sample.runA
    ≠ Some (Sample.runA, true, Some err).
Proof. cbv zeta. repeat split. discriminate. Qed.

(** ** Paginated log reads *)

Section Pagination.

Variable MaxLogLines : Z.
Variable unmarshalLog : string → option string.

Lemma append_assoc (a b c : string) : (a +:+ b) +:+ c = a +:+ (b +:+ c).
Proof.
  induction a as [|x a IH]; [done|].
  change (String x ((a +:+ b) +:+ c) = String x (a +:+ b +:+ c)). by f_equal.
Qed.

Lemma linesFrom_line (text rest line : string) :
  hasByte logs.newline text = false →
  logs.linesFrom (terminate text +:+ rest) line
  = (line +:+ terminate text) :: logs.linesFrom rest "".
Proof.
  revert line. induction text as [|c text IH]; intros line H.
  - done.
  - cbn in H. apply orb_false_iff in H as [Hc Htext].
    change (terminate (String c text) +:+ rest)
      with (String c (terminate text +:+ rest)).
    cbn [logs.linesFrom]. rewrite Hc, IH by done.
    rewrite append_assoc. done.
Qed.

(** The reader over a body of newline-terminated lines holds those lines. *)
Lemma NewReader_glue (texts : list string) :
  Forall (λ text, hasByte logs.newline text = false) texts →
  logs.NewReader (glue (map terminate texts)) = map terminate texts.
Proof.
  unfold logs.NewReader. induction 1 as [|text texts Htext _ IH]; [done|].
  cbn [map glue foldr]. fold (glue (map terminate texts)).
  by rewrite linesFrom_line, IH.
Qed.


(** The read loop started [n] positions before its bound
    [startingPosition + MaxLogLines + 1]: it takes [n] lines, or all that are
    left and then one more step on which the body ends. *)
Lemma readLines_spec (reader : list string) (acc : string)
    (currentPosition startingPosition : Z) :
  currentPosition ≤ startingPosition + MaxLogLines + 1 →
  let n := startingPosition + MaxLogLines + 1 - currentPosition in
  logs.readLines MaxLogLines unmarshalLog reader acc currentPosition startingPosition
  = (appendLogs unmarshalLog acc (take (Z.to_nat n) reader),
     currentPosition + Z.min n (Z.of_nat (length reader) + 1)).
Proof.
  cbv zeta. revert acc currentPosition.
  induction reader as [|line reader IH]; intros acc cur Hle;
    cbn [logs.readLines].
  - destruct (Z.leb_spec cur (startingPosition + MaxLogLines)); cbn [length].
    + rewrite take_nil. cbn. f_equal. lia.
    + rewrite take_nil. cbn. f_equal. lia.
  - destruct (Z.leb_spec cur (startingPosition + MaxLogLines)).
    + rewrite IH by lia. cbn [length].
      replace (Z.to_nat (startingPosition + MaxLogLines + 1 - cur))
        with (S (Z.to_nat (startingPosition + MaxLogLines + 1 - (cur + 1))))
        by lia.
      cbn [take appendLogs foldl]. f_equal. lia.
    + replace (startingPosition + MaxLogLines + 1 - cur) with 0 by lia.
      cbn. f_equal. lia.
Qed.


(** The cursor [Logs] starts from: a missing cursor and one that does not
    parse both mean position 0. *)
Lemma Logs_missing_cursor_is_zero lc executable run lastSeen :
  lastSeen = None ∨ (∃ s, lastSeen = Some s ∧ logs.ParseInt s = None) →
  logs.Logs MaxLogLines unmarshalLog lc executable run lastSeen
  = logs.Logs MaxLogLines unmarshalLog lc executable run (Some "0").
Proof. unfold logs.Logs. by intros [->|(s & -> & H)]; cbn; [|rewrite H]. Qed.

End Pagination.

(** C2 at a failing input.  An object of 120 JSON lines is read with
    [MaxLogLines = 50], following the cursors handed back.  The first call,
    with no cursor, returns the log fields of lines 1 to 51 (51 of them, one
    more than [MaxLogLines]) and the cursor ["51"]; the second returns lines
    52 to 102 and ["102"]; the third the 18 lines left and ["121"]. *)
Theorem log_page_holds_one_line_more :
  let Logs :=
    logs.Logs 50 SampleLogs.unmarshalLog (SampleLogs.client 120)
              (Sample.definitionA []) (SampleCluster.runningRun 5) in
  length (logs.NewReader (SampleLogs.body 120)) = 120%nat
  ∧ Logs None = (SampleLogs.texts 1 51, Some "51", None)
  ∧ Logs (Some "51") = (SampleLogs.texts 52 102, Some "102", None)
  ∧ Logs (Some "102") = (SampleLogs.texts 103 120, Some "121", None)
  ∧ SampleLogs.texts 1 51 ≠ SampleLogs.texts 1 50.
Proof. cbv zeta. repeat split; vm_compute; (reflexivity || discriminate). Qed.

(** * Further properties of the three files *)

(** ** Resource defaults and the plan *)

Section PlanShape.

Variables MinCPU MaxCPU MinMem MaxMem : Z.
Variable queuedAtSince : string.


Lemma adaptiveResources_static executable run manager araEnabled :
  araEnabled
  && bool_decide (AdaptiveResourceAllocation (GetExecutableResources executable)
                  = Some true) = false →
  adapter.adaptiveResources MinCPU MaxCPU MinMem MaxMem queuedAtSince
                            executable run manager araEnabled
  = let d := adapter.getResourceDefaults MinCPU MinMem run executable in
    Some (clamp MinCPU MaxCPU d.1, clamp MinMem MaxMem d.2,
          clamp MinCPU MaxCPU d.1, clamp MinMem MaxMem d.2).
Proof.
  intros Hoff. rewrite adaptiveResources_unfold. cbv zeta.
  rewrite adaptiveRequests_static by done. cbv beta iota.
  by rewrite !Z.max_id.
Qed.

(** X2.  Without adaptive allocation (the engine switch off, or the
    definition's flag not set to true) the state manager is not consulted:
    request and limit are both the clamped defaults. *)
Theorem static_plan_requests_equal_limits executable run manager araEnabled :
  araEnabled
  && bool_decide (AdaptiveResourceAllocation (GetExecutableResources executable)
                  = Some true) = false →
  adapter.adaptiveResources MinCPU MaxCPU MinMem MaxMem queuedAtSince
                            executable run manager araEnabled
  = let d := adapter.getResourceDefaults MinCPU MinMem run executable in
    Some (clamp MinCPU MaxCPU d.1, clamp MinMem MaxMem d.2,
          clamp MinCPU MaxCPU d.1, clamp MinMem MaxMem d.2).
Proof. apply adaptiveResources_static. Qed.

(** X3.  With adaptive allocation on and a last run that was not killed for
    memory, the requests are the state manager's estimate, clamped; the
    limits are the larger of estimate and default, clamped.  When the
    estimate fails, the failure is dropped and the plan is the static one. *)
Theorem estimate_is_adopted_or_defaults_kept
    executable run manager lastRun executableID :
  AdaptiveResourceAllocation (GetExecutableResources executable) = Some true →
  adapter.getLastRun queuedAtSince manager run = Some lastRun →
  oomKilled lastRun = false →
  GetExecutableID executable = Some executableID →
  adapter.adaptiveResources MinCPU MaxCPU MinMem MaxMem queuedAtSince
                            executable run manager true
  = let d := adapter.getResourceDefaults MinCPU MinMem run executable in
    match EstimateRunResources manager executableID (RunID run) with
    | Ok estimate =>
        Some (clamp MinCPU MaxCPU (Z.max (EstCpu estimate) d.1),
              clamp MinMem MaxMem (Z.max (EstMemory estimate) d.2),
              clamp MinCPU MaxCPU (EstCpu estimate),
              clamp MinMem MaxMem (EstMemory estimate))
    | Err _ =>
        Some (clamp MinCPU MaxCPU d.1, clamp MinMem MaxMem d.2,
              clamp MinCPU MaxCPU d.1, clamp MinMem MaxMem d.2)
    end.
Proof.
  intros Hflag Hlast Hoom Hid. rewrite adaptiveResources_unfold. cbv zeta.
  generalize (adapter.getResourceDefaults MinCPU MinMem run executable).
  intros d. unfold adapter.adaptiveRequests. rewrite Hflag, Hlast.
  rewrite bool_decide_true by done. cbn.
  unfold oomKilled in Hoom. rewrite Hoom, Hid. cbn.
  destruct (EstimateRunResources manager executableID (RunID run)); cbn;
    [done|]. by rewrite !Z.max_id.
Qed.

(** X4.  Switching adaptive allocation on never lowers a limit: whatever the
    state manager answers, each limit of the adaptive plan is at least the
    limit of the static plan for the same run and definition. *)
Theorem adaptive_plan_never_lowers_a_limit
    executable run manager cpuLimit memLimit cpuRequest memRequest :
  adapter.adaptiveResources MinCPU MaxCPU MinMem MaxMem queuedAtSince
                            executable run manager true
  = Some (cpuLimit, memLimit, cpuRequest, memRequest) →
  ∃ cpuStatic memStatic,
    adapter.adaptiveResources MinCPU MaxCPU MinMem MaxMem queuedAtSince
                              executable run manager false
    = Some (cpuStatic, memStatic, cpuStatic, memStatic)
    ∧ cpuStatic ≤ cpuLimit ∧ memStatic ≤ memLimit.
Proof.
  intros Hplan. rewrite adaptiveResources_static by done.
  rewrite adaptiveResources_unfold in Hplan. cbv zeta in *.
  revert Hplan.
  generalize (adapter.getResourceDefaults MinCPU MinMem run executable).
  intros d Hplan.
  destruct (adapter.adaptiveRequests _ _ _ _ _ _ _) as [[c m]|]; [|done].
  injection Hplan as <- <- <- <-.
  eexists _, _. split; [done|]. split; apply clamp_mono; lia.
Qed.

(** X5.  [constructResourceRequirements] hands the granted shape back: the
    run's [Cpu] and [Memory] become the requests written to the container,
    and these lie within the bounds and below the limits.  The GPU count is
    the same in limits and requests. *)
Theorem granted_shape_is_fed_back
    executable run manager araEnabled limits requests run' :
  MinCPU ≤ MaxCPU → MinMem ≤ MaxMem →
  adapter.constructResourceRequirements MinCPU MaxCPU MinMem MaxMem
    queuedAtSince executable run manager araEnabled
  = Some (limits, requests, run') →
  Cpu run' = Some (corev1.cpu requests)
  ∧ Memory run' = Some (corev1.memory requests)
  ∧ MinCPU ≤ corev1.cpu requests ≤ corev1.cpu limits
  ∧ corev1.cpu limits ≤ MaxCPU
  ∧ MinMem ≤ corev1.memory requests ≤ corev1.memory limits
  ∧ corev1.memory limits ≤ MaxMem
  ∧ corev1.gpu limits = corev1.gpu requests.
Proof.
  intros Hcpu Hmem. unfold adapter.constructResourceRequirements.
  rewrite adaptiveResources_unfold. cbv zeta.
  generalize (adapter.getResourceDefaults MinCPU MinMem run executable).
  intros d.
  destruct (adapter.adaptiveRequests _ _ _ _ _ _ _) as [[c m]|]; [|done].
  cbn. intros [= <- <- <-]. cbn.
  pose proof (clamp_range MinCPU MaxCPU c Hcpu).
  pose proof (clamp_range MinMem MaxMem m Hmem).
  pose proof (clamp_range MinCPU MaxCPU (Z.max c d.1) Hcpu).
  pose proof (clamp_range MinMem MaxMem (Z.max m d.2) Hmem).
  pose proof (clamp_mono MinCPU MaxCPU c (Z.max c d.1) ltac:(lia)).
  pose proof (clamp_mono MinMem MaxMem m (Z.max m d.2) ltac:(lia)).
  repeat split; (done || lia).
Qed.

Lemma constructResourceRequirements_gpu
    executable run manager araEnabled limits requests run' :
  adapter.constructResourceRequirements MinCPU MaxCPU MinMem MaxMem
    queuedAtSince executable run manager araEnabled
  = Some (limits, requests, run') →
  if wantsGpu executable
  then corev1.gpu limits = ResGpu (GetExecutableResources executable)
       ∧ corev1.gpu requests = ResGpu (GetExecutableResources executable)
       ∧ NodeLifecycle run' = Some OndemandLifecycle
  else corev1.gpu limits = None ∧ corev1.gpu requests = None
       ∧ NodeLifecycle run' = NodeLifecycle run.
Proof.
  unfold adapter.constructResourceRequirements, wantsGpu.
  destruct (adapter.adaptiveResources _ _ _ _ _ _ _ _ _) as [[[[cl ml] cr] mr]|];
    [|done].
  cbn. intros [= <- <- <-].
  destruct (ResGpu (GetExecutableResources executable)) as [g|]; [|done].
  rewrite Z.gtb_ltb. by destruct (0 <? g).
Qed.

(** X6.  A definition that asks for at least one GPU gets that count in
    both limits and requests and its run is forced onto the on-demand
    lifecycle; any other definition (no GPU field, zero, or negative) gets no
    GPU entry and keeps the lifecycle the run came with. *)
Theorem gpu_forces_ondemand
    executable run manager araEnabled limits requests run' :
  adapter.constructResourceRequirements MinCPU MaxCPU MinMem MaxMem
    queuedAtSince executable run manager araEnabled
  = Some (limits, requests, run') →
  if wantsGpu executable
  then corev1.gpu limits = ResGpu (GetExecutableResources executable)
       ∧ corev1.gpu requests = ResGpu (GetExecutableResources executable)
       ∧ NodeLifecycle run' = Some OndemandLifecycle
  else corev1.gpu limits = None ∧ corev1.gpu requests = None
       ∧ NodeLifecycle run' = NodeLifecycle run.
Proof. apply constructResourceRequirements_gpu. Qed.

End PlanShape.

Lemma static_plan_requests_equal_limits_witness :
  adapter.adaptiveResources Sample.MinCPU Sample.MaxCPU Sample.MinMem
    Sample.MaxMem Sample.queuedAtSince (Sample.definitionA []) Sample.runA
    (Sample.managerWith (Sample.priorRun "OOMKilled" 4000 1500)) false
  = Some (1000, 2048, 1000, 2048).
Proof.
  apply (static_plan_requests_equal_limits Sample.MinCPU Sample.MaxCPU
           Sample.MinMem Sample.MaxMem Sample.queuedAtSince
           (Sample.definitionA []) Sample.runA
           (Sample.managerWith (Sample.priorRun "OOMKilled" 4000 1500)) false).
  reflexivity.
Defined.

Lemma estimate_is_adopted_or_defaults_kept_witness :
  let estimating :=
    mkManager (λ _ _ _ _ _ _ _, Ok []) (λ _ _, Ok (mkTaskResources 300 9000)) in
  adapter.adaptiveResources Sample.MinCPU Sample.MaxCPU Sample.MinMem
    Sample.MaxMem Sample.queuedAtSince (Sample.definitionA []) Sample.runA
    estimating true
  = Some (1000, 9000, 300, 9000).
Proof.
  cbv zeta.
  apply (estimate_is_adopted_or_defaults_kept Sample.MinCPU Sample.MaxCPU
           Sample.MinMem Sample.MaxMem Sample.queuedAtSince
           (Sample.definitionA []) Sample.runA
           (mkManager (λ _ _ _ _ _ _ _, Ok [])
                      (λ _ _, Ok (mkTaskResources 300 9000)))
           zeroRun "A");
    reflexivity.
Defined.

Lemma adaptive_plan_never_lowers_a_limit_witness :
  ∃ cpuStatic memStatic,
    adapter.adaptiveResources Sample.MinCPU Sample.MaxCPU Sample.MinMem
      Sample.MaxMem Sample.queuedAtSince (Sample.definitionA []) Sample.runA
      (Sample.managerWith (Sample.priorRun "OOMKilled" 4000 1500)) false
    = Some (cpuStatic, memStatic, cpuStatic, memStatic)
    ∧ cpuStatic ≤ 1500 ∧ memStatic ≤ 7000.
Proof.
  apply (adaptive_plan_never_lowers_a_limit Sample.MinCPU Sample.MaxCPU
           Sample.MinMem Sample.MaxMem Sample.queuedAtSince
           (Sample.definitionA []) Sample.runA
           (Sample.managerWith (Sample.priorRun "OOMKilled" 4000 1500))
           1500 7000 1500 7000).
  reflexivity.
Defined.

Lemma granted_shape_is_fed_back_witness :
  let run' := set_Cpu (Some 1500) (set_Memory (Some 7000) Sample.runA) in
  Cpu run' = Some 1500
  ∧ Memory run' = Some 7000
  ∧ Sample.MinCPU ≤ 1500 ≤ 1500
  ∧ 1500 ≤ Sample.MaxCPU
  ∧ Sample.MinMem ≤ 7000 ≤ 7000
  ∧ 7000 ≤ Sample.MaxMem
  ∧ @None Z = None.
Proof.
  cbv zeta.
  apply (granted_shape_is_fed_back Sample.MinCPU Sample.MaxCPU
           Sample.MinMem Sample.MaxMem Sample.queuedAtSince
           (Sample.definitionA []) Sample.runA
           (Sample.managerWith (Sample.priorRun "OOMKilled" 4000 1500)) true
           (corev1.mkResourceList 1500 7000 None)
           (corev1.mkResourceList 1500 7000 None)
           (set_Cpu (Some 1500) (set_Memory (Some 7000) Sample.runA)));
    [unfold Sample.MinCPU, Sample.MaxCPU; lia
    |unfold Sample.MinMem, Sample.MaxMem; lia
    |reflexivity].
Defined.

Lemma gpu_forces_ondemand_witness :
  let gpuDefinition :=
    mkExecutable (Some "G")
      (mkExecutableResources "image" (Some 2048) (Some 2) (Some 1000)
                             (Some []) None None) in
  let run' :=
    set_Cpu (Some 1000)
      (set_Memory (Some 2048)
         (set_NodeLifecycle (Some OndemandLifecycle) Sample.runA)) in
  NodeLifecycle Sample.runA = Some SpotLifecycle
  ∧ Some 2 = ResGpu (GetExecutableResources gpuDefinition)
  ∧ Some 2 = ResGpu (GetExecutableResources gpuDefinition)
  ∧ NodeLifecycle run' = Some OndemandLifecycle.
Proof.
  cbv zeta. split; [reflexivity|].
  apply (gpu_forces_ondemand Sample.MinCPU Sample.MaxCPU
           Sample.MinMem Sample.MaxMem Sample.queuedAtSince
           (mkExecutable (Some "G")
              (mkExecutableResources "image" (Some 2048) (Some 2) (Some 1000)
                                     (Some []) None None))
           Sample.runA
           (Sample.managerWith (Sample.priorRun "" 2048 1000)) false
           (corev1.mkResourceList 1000 2048 (Some 2))
           (corev1.mkResourceList 1000 2048 (Some 2))
           (set_Cpu (Some 1000)
              (set_Memory (Some 2048)
                 (set_NodeLifecycle (Some OndemandLifecycle) Sample.runA)))).
  reflexivity.
Defined.

(** ** The two translations *)

Section Translations.

Variables MinCPU MaxCPU MinMem MaxMem : Z.
Variables SpotActiveDeadlineSeconds OndemandActiveDeadlineSeconds : Z.
Variable queuedAtSince : string.

Lemma AdaptFlotillaDefinitionAndRunToJob_inv
    executable run sa schedulerName manager araEnabled job :
  adapter.AdaptFlotillaDefinitionAndRunToJob MinCPU MaxCPU MinMem MaxMem
    SpotActiveDeadlineSeconds OndemandActiveDeadlineSeconds queuedAtSince
    executable run sa schedulerName manager araEnabled = Some job →
  batchv1.JobName job = RunID run
  ∧ (∃ container,
       batchv1.JobContainers job = [container]
       ∧ corev1.Name container = RunID run
       ∧ corev1.Image container = Image run
       ∧ corev1.Command container
         = ["bash"; "-l"; "-cex"; default "" (Command run)])
  ∧ batchv1.ActiveDeadlineSeconds job
    = if wantsGpu executable
         || bool_decide (NodeLifecycle run = Some OndemandLifecycle)
      then OndemandActiveDeadlineSeconds else SpotActiveDeadlineSeconds.
Proof.
  unfold adapter.AdaptFlotillaDefinitionAndRunToJob,
    adapter.constructResourceRequirements, wantsGpu.
  assert (match Command run with
          | Some c => if 0 <? Z.of_nat (String.length c) then c else ""
          | None => ""
          end = default "" (Command run)) as ->.
  { destruct (Command run) as [[|c s]|]; done. }
  destruct (adapter.adaptiveResources _ _ _ _ _ _ _ _ _)
    as [[[[cl ml] cr] mr]|]; [|done].
  cbn -[adapter.envOverrides].
  destruct (adapter.envOverrides _ _) as [env|]; [|done].
  cbn. destruct (ResGpu (GetExecutableResources executable)) as [g|]; cbn.
  - rewrite Z.gtb_ltb. destruct (0 <? g); cbn.
    + intros [= <-]. cbn. eauto 10.
    + destruct (NodeLifecycle run) as [l|]; [|done]. cbn.
      intros [= <-]. cbn. split; [done|]. split; [eauto 10|].
      repeat case_bool_decide; (done || congruence).
  - destruct (NodeLifecycle run) as [l|]; [|done]. cbn.
    intros [= <-]. cbn. split; [done|]. split; [eauto 10|].
    repeat case_bool_decide; (done || congruence).
Qed.

(** X7.  The manifest of a run: the Job and its single container are named
    after the run, the container runs the run's image and the run's command
    (the empty command when the run has none) behind [bash -l -cex], and
    the deadline is the on-demand one exactly when the definition asks for a
    GPU or the run came with the on-demand lifecycle. *)
Theorem manifest_shape executable run sa schedulerName manager araEnabled job :
  adapter.AdaptFlotillaDefinitionAndRunToJob MinCPU MaxCPU MinMem MaxMem
    SpotActiveDeadlineSeconds OndemandActiveDeadlineSeconds queuedAtSince
    executable run sa schedulerName manager araEnabled = Some job →
  batchv1.JobName job = RunID run
  ∧ (∃ container,
       batchv1.JobContainers job = [container]
       ∧ corev1.Name container = RunID run
       ∧ corev1.Image container = Image run
       ∧ corev1.Command container
         = ["bash"; "-l"; "-cex"; default "" (Command run)])
  ∧ batchv1.ActiveDeadlineSeconds job
    = if wantsGpu executable
         || bool_decide (NodeLifecycle run = Some OndemandLifecycle)
      then OndemandActiveDeadlineSeconds else SpotActiveDeadlineSeconds.
Proof. apply AdaptFlotillaDefinitionAndRunToJob_inv. Qed.

(** X8.  The two translations agree on the command: a pod that runs the
    containers of the manifest built for a run is read back, by
    [AdaptJobToFlotillaRun], as that run's command (the empty command when
    the run had none), whatever command the record held before. *)
Theorem command_round_trip
    executable run sa schedulerName manager araEnabled job
    now job' run' pod :
  adapter.AdaptFlotillaDefinitionAndRunToJob MinCPU MaxCPU MinMem MaxMem
    SpotActiveDeadlineSeconds OndemandActiveDeadlineSeconds queuedAtSince
    executable run sa schedulerName manager araEnabled = Some job →
  corev1.Containers pod = batchv1.JobContainers job →
  Command (adapter.AdaptJobToFlotillaRun now job' run' (Some pod))
  = Some (default "" (Command run)).
Proof.
  intros Hjob Hpod.
  destruct (AdaptFlotillaDefinitionAndRunToJob_inv _ _ _ _ _ _ _ Hjob)
    as (_ & (container & Hcs & _ & _ & Hcmd) & _).
  unfold adapter.AdaptJobToFlotillaRun, adapter.firstContainer.
  cbn [mbind option_bind]. rewrite Hpod, Hcs. cbn [head]. rewrite Hcmd.
  change (3 <? Z.of_nat (length ["bash"; "-l"; "-cex";
                                 default "" (Command run)])) with true.
  cbn [drop GoStrings.Join]. destruct run'.
  repeat match goal with
         | |- context [if ?b then _ else _] => destruct b
         | |- context [match ?x with Some _ => _ | None => _ end] => destruct x
         end; reflexivity.
Qed.

(** X9.  [AdaptJobToFlotillaRun] writes at most six fields of the run it is
    given: [Status], [ExitCode], [ExitReason], [Command], [StartedAt] and
    [FinishedAt].  Every other field (identity, image, resources, pod and
    instance names, watermarks, events) is handed back as it came. *)
Theorem reverse_translation_writes_six_fields now job run pod :
  set_Status (Status run)
    (set_ExitCode (ExitCode run)
       (set_ExitReason (ExitReason run)
          (set_Command (Command run)
             (set_StartedAt (StartedAt run)
                (set_FinishedAt (FinishedAt run)
                   (adapter.AdaptJobToFlotillaRun now job run pod))))))
  = run.
Proof.
  destruct run. unfold adapter.AdaptJobToFlotillaRun.
  repeat match goal with
         | |- context [if ?b then _ else _] => destruct b
         | |- context [match ?x with Some _ => _ | None => _ end] => destruct x
         end; reflexivity.
Qed.

(** X10.  A run handed back as stopped has a finish time: the Job's
    completion time when it has one, the clock reading otherwise.  A run
    handed back with any other status keeps the finish time it came with.
    A run that was not stopped before and is stopped now has an exit
    code. *)
Theorem stopped_run_has_a_finish_time now job run pod :
  let updated := adapter.AdaptJobToFlotillaRun now job run pod in
  (Status updated = StatusStopped →
   FinishedAt updated
   = Some (default now (batchv1.CompletionTime (batchv1.Status job))))
  ∧ (Status updated ≠ StatusStopped → FinishedAt updated = FinishedAt run)
  ∧ (Status updated = StatusStopped → Status run ≠ StatusStopped →
     is_Some (ExitCode updated)).
Proof.
  destruct run. cbv zeta. unfold adapter.AdaptJobToFlotillaRun.
  repeat match goal with
         | |- context [if ?b then _ else _] => destruct b eqn:?
         | |- context [match ?x with Some _ => _ | None => _ end] =>
             destruct x eqn:?
         end;
    cbn in *; repeat split; intros;
    repeat match goal with
           | H : bool_decide _ = true |- _ => apply bool_decide_eq_true in H
           | H : bool_decide _ = false |- _ => apply bool_decide_eq_false in H
           end;
    cbn in *; try done; try congruence; eauto.
Qed.

(** X11.  A failed Job with a pod whose last container status is a
    termination is reported with that container's exit code and reason. *)
Theorem failed_job_reports_the_last_container
    now job run pod containerStatus terminated :
  ¬ (batchv1.Active (batchv1.Status job) = 1
     ∧ batchv1.CompletionTime (batchv1.Status job) = None) →
  batchv1.Succeeded (batchv1.Status job) ≠ 1 →
  batchv1.Failed (batchv1.Status job) = 1 →
  last (corev1.ContainerStatuses pod) = Some containerStatus →
  corev1.Terminated containerStatus = Some terminated →
  let updated := adapter.AdaptJobToFlotillaRun now job run (Some pod) in
  Status updated = StatusStopped
  ∧ ExitCode updated = Some (corev1.ExitCode terminated)
  ∧ ExitReason updated = Some (corev1.Reason terminated).
Proof.
  intros Hactive Hsucceeded Hfailed Hlast Hterminated. cbv zeta.
  unfold adapter.AdaptJobToFlotillaRun, adapter.lastTerminated.
  cbn [mbind option_bind]. rewrite Hlast. cbn [mbind option_bind].
  rewrite Hterminated, Hfailed.
  assert ((batchv1.Active (batchv1.Status job) =? 1)
          && bool_decide (batchv1.CompletionTime (batchv1.Status job) = None)
          = false) as ->.
  { apply andb_false_iff.
    destruct (Z.eqb_spec (batchv1.Active (batchv1.Status job)) 1); [|by left].
    right. apply bool_decide_eq_false. tauto. }
  destruct (Z.eqb_spec (batchv1.Succeeded (batchv1.Status job)) 1); [done|].
  destruct run. cbn.
  repeat match goal with
         | |- context [if ?b then _ else _] => destruct b
         | |- context [match ?x with Some _ => _ | None => _ end] => destruct x
         end; done.
Qed.

End Translations.

Lemma manifest_shape_witness :
  batchv1.JobName manifestA = RunID Sample.runA
  ∧ (∃ container,
       batchv1.JobContainers manifestA = [container]
       ∧ corev1.Name container = RunID Sample.runA
       ∧ corev1.Image container = Image Sample.runA
       ∧ corev1.Command container
         = ["bash"; "-l"; "-cex"; default "" (Command Sample.runA)])
  ∧ batchv1.ActiveDeadlineSeconds manifestA
    = if wantsGpu (Sample.definitionA [])
         || bool_decide (NodeLifecycle Sample.runA = Some OndemandLifecycle)
      then Sample.OndemandActiveDeadlineSeconds
      else Sample.SpotActiveDeadlineSeconds.
Proof.
  apply (manifest_shape Sample.MinCPU Sample.MaxCPU Sample.MinMem Sample.MaxMem
           Sample.SpotActiveDeadlineSeconds Sample.OndemandActiveDeadlineSeconds
           Sample.queuedAtSince (Sample.definitionA []) Sample.runA
           "sa" "default-scheduler"
           (Sample.managerWith (Sample.priorRun "" 2048 1000)) false manifestA).
  reflexivity.
Defined.

Lemma command_round_trip_witness :
  Command (adapter.AdaptJobToFlotillaRun 1000 (SampleCluster.job 1 0 0)
             (set_Command (Some "stale") (SampleCluster.runningRun 5))
             (Some (podOfManifestA [])))
  = Some (default "" (Command Sample.runA)).
Proof.
  apply (command_round_trip Sample.MinCPU Sample.MaxCPU Sample.MinMem
           Sample.MaxMem Sample.SpotActiveDeadlineSeconds
           Sample.OndemandActiveDeadlineSeconds Sample.queuedAtSince
           (Sample.definitionA []) Sample.runA "sa" "default-scheduler"
           (Sample.managerWith (Sample.priorRun "" 2048 1000)) false manifestA);
    reflexivity.
Defined.

Lemma failed_job_reports_the_last_container_witness :
  let killed := corev1.mkTerminated "OOMKilled" 137 in
  let pod :=
    podOfManifestA [corev1.mkContainerStatus None;
                    corev1.mkContainerStatus (Some killed)] in
  let updated :=
    adapter.AdaptJobToFlotillaRun 1000 (SampleCluster.job 0 0 1)
      (SampleCluster.runningRun 5) (Some pod) in
  Status updated = StatusStopped
  ∧ ExitCode updated = Some 137
  ∧ ExitReason updated = Some "OOMKilled".
Proof.
  cbv zeta.
  apply (failed_job_reports_the_last_container 1000 (SampleCluster.job 0 0 1)
           (SampleCluster.runningRun 5)
           (podOfManifestA [corev1.mkContainerStatus None;
                            corev1.mkContainerStatus
                              (Some (corev1.mkTerminated "OOMKilled" 137))])
           (corev1.mkContainerStatus (Some (corev1.mkTerminated "OOMKilled" 137)))
           (corev1.mkTerminated "OOMKilled" 137));
    try reflexivity.
  - intros [H _]. discriminate H.
  - discriminate.
Defined.

(** ** Node affinity, ports and environment of the manifest *)

Section ManifestParts.

Variables MinCPU MaxCPU MinMem MaxMem : Z.
Variable queuedAtSince : string.

(** X12.  The node selector of the manifest.  A definition that asks for a
    GPU gets one requirement only, the lifecycle label [normal], whatever
    lifecycle the run asked for, and no instance-type rule.  Any other
    definition gets the exclusion of the GPU instance types first and the
    lifecycle label last: [normal] for an on-demand run, [spot] for every
    other lifecycle value; the only rule that may stand between the two is
    the restriction to the CPU instance types. *)
Theorem job_affinity_shape executable run manager araEnabled requirements :
  adapter.jobAffinity MinCPU MaxCPU MinMem MaxMem queuedAtSince
                      executable run manager araEnabled
  = Some requirements →
  if wantsGpu executable
  then requirements = [onLifecycle "normal"]
  else
    let label :=
      if bool_decide (NodeLifecycle run = Some OndemandLifecycle)
      then "normal" else "spot" in
    requirements = [excludeGpuNodes; onLifecycle label]
    ∨ requirements = [excludeGpuNodes; onlyCpuNodes; onLifecycle label].
Proof.
  unfold adapter.jobAffinity.
  destruct (adapter.constructResourceRequirements _ _ _ _ _ _ _ _ _)
    as [[[limits requests] run']|] eqn:Hreq; [|done].
  apply constructResourceRequirements_gpu in Hreq.
  cbn -[adapter.envOverrides adapter.constructAffinity].
  destruct (adapter.envOverrides _ _); [|done].
  cbn -[adapter.constructAffinity].
  unfold adapter.constructAffinity, wantsGpu in *.
  destruct (ResGpu (GetExecutableResources executable)) as [g|].
  - destruct (Z.ltb_spec 0 g), (Z.leb_spec g 0); try lia.
    + destruct Hreq as (_ & _ & ->). cbn. by intros [= <-].
    + destruct Hreq as (_ & _ & ->). cbn [NodeLifecycle set_Command].
      destruct (NodeLifecycle run) as [lifecycle|]; [|done]. cbn -[bool_decide].
      intros [= <-]. cbv zeta.
      assert (bool_decide (Some lifecycle = Some OndemandLifecycle)
              = bool_decide (lifecycle = OndemandLifecycle)) as ->.
      { apply bool_decide_ext. naive_solver. }
      destruct (bool_decide (lifecycle = OndemandLifecycle));
        repeat match goal with
               | |- context [if ?b then _ else _] => destruct b
               | |- context [match ?x with Some _ => _ | None => _ end] =>
                   destruct x
               end; auto.
  - destruct Hreq as (_ & _ & ->). cbn [NodeLifecycle set_Command].
    destruct (NodeLifecycle run) as [lifecycle|]; [|done]. cbn -[bool_decide].
    intros [= <-]. cbv zeta.
    assert (bool_decide (Some lifecycle = Some OndemandLifecycle)
            = bool_decide (lifecycle = OndemandLifecycle)) as ->.
    { apply bool_decide_ext. naive_solver. }
    destruct (bool_decide (lifecycle = OndemandLifecycle));
      repeat match goal with
             | |- context [if ?b then _ else _] => destruct b
             | |- context [match ?x with Some _ => _ | None => _ end] =>
                 destruct x
             end; auto.
Qed.

Lemma int32_in_range (x : Z) : - 2 ^ 31 ≤ x < 2 ^ 31 → adapter.int32 x = x.
Proof. intros H. unfold adapter.int32. rewrite Z.mod_small; lia. Qed.

(** X13.  The container ports of the manifest are the definition's ports,
    in order, as long as each fits 32 bits; a definition without a port list
    exposes none. *)
Theorem container_ports_are_the_definition_ports executable :
  Forall (λ port, - 2 ^ 31 ≤ port < 2 ^ 31)
         (default [] (ResPorts (GetExecutableResources executable))) →
  adapter.constructContainerPorts executable
  = default [] (ResPorts (GetExecutableResources executable)).
Proof.
  unfold adapter.constructContainerPorts.
  destruct (ResPorts _) as [ports|]; [|done]. cbn [default from_option id].
  intros Hports.
  assert (map adapter.int32 ports = ports) as ->.
  { induction Hports as [|port rest Hport _ IH]; [done|].
    cbn [map]. by rewrite int32_in_range, IH. }
  destruct ports as [|port rest]; [done|].
  destruct (Z.ltb_spec 0 (Z.of_nat (length (port :: rest)))); [done|].
  cbn [length] in *. lia.
Qed.

Lemma store_lookup (evs : list EnvVar) (pairs : gmap string string) (k : string) :
  foldl store pairs evs !! k
  = match lastValue k evs with
    | Some v => Some v
    | None => pairs !! k
    end.
Proof.
  revert pairs. induction evs as [|ev evs IH]; intros pairs; [done|].
  cbn [foldl lastValue]. rewrite IH.
  destruct (lastValue k evs); [done|]. unfold store.
  destruct (decide (adapter.sanitizeEnvVar (Name ev) = k)) as [<-|Hne].
  - by rewrite lookup_insert_eq.
  - by rewrite lookup_insert_ne.
Qed.

Lemma envOverrides_elem executable run res ev :
  adapter.envOverrides executable run = Some res →
  ev ∈ res
  ↔ Name ev ≠ ""
    ∧ match lastValue (Name ev) (default [] (Env run)) with
      | Some v => Some v
      | None =>
          lastValue (Name ev)
                    (default [] (ResEnv (GetExecutableResources executable)))
      end = Some (Value ev).
Proof.
  unfold adapter.envOverrides.
  destruct (ResEnv _) as [denv|]; [|done].
  destruct (Env run) as [renv|]; [|done]. cbn.
  intros [= <-]. fold store.
  rewrite list_elem_of_omap. split.
  - intros ([k v] & Hkv & Hf). cbn in Hf.
    destruct (0 <? _) eqn:Hlen; [|done]. injection Hf as <-. cbn.
    apply elem_of_map_to_list in Hkv. rewrite !store_lookup in Hkv.
    rewrite lookup_empty in Hkv. split.
    + intros E. by rewrite E in Hlen.
    + by destruct (lastValue k renv), (lastValue k denv).
  - intros [Hname Hlookup]. exists (Name ev, Value ev). split.
    + apply elem_of_map_to_list. rewrite !store_lookup, lookup_empty.
      by destruct (lastValue (Name ev) renv), (lastValue (Name ev) denv).
    + cbn. destruct ev as [[|c name] value]; done.
Qed.

(** X14.  When the run and the definition set the same variable (after
    sanitization of the names), the run's value wins; within either list the
    last setting wins.  The manifest holds a variable exactly when its name
    is not empty and its value is the one so chosen. *)
Theorem run_level_environment_wins executable run res ev :
  adapter.envOverrides executable run = Some res →
  ev ∈ res
  ↔ Name ev ≠ ""
    ∧ match lastValue (Name ev) (default [] (Env run)) with
      | Some v => Some v
      | None =>
          lastValue (Name ev)
                    (default [] (ResEnv (GetExecutableResources executable)))
      end = Some (Value ev).
Proof. apply envOverrides_elem. Qed.

(** X15.  No two variables of the manifest share a name. *)
Theorem environment_names_are_unique executable run res :
  adapter.envOverrides executable run = Some res →
  NoDup (Name <$> res).
Proof.
  unfold adapter.envOverrides.
  destruct (ResEnv _) as [denv|]; [|done].
  destruct (Env run) as [renv|]; [|done]. cbn.
  intros [= <-].
  generalize (foldl (λ (pairs : gmap string string) ev,
                       <[adapter.sanitizeEnvVar (Name ev) := Value ev]> pairs)
                (foldl (λ (pairs : gmap string string) ev,
                          <[adapter.sanitizeEnvVar (Name ev) := Value ev]> pairs)
                       ∅ denv) renv).
  intros pairs. pose proof (NoDup_fst_map_to_list pairs) as Hnd.
  induction (map_to_list pairs) as [|[k v] kvs IH]; [constructor|].
  cbn in *. apply NoDup_cons in Hnd as [Hk Hkvs].
  destruct (0 <? _); [|by apply IH]. cbn. apply NoDup_cons. split; [|by apply IH].
  intros Hin. apply Hk. apply list_elem_of_fmap in Hin as (ev & -> & Hin).
  apply list_elem_of_omap in Hin as ([k' v'] & Hin & Hf). cbn in Hf.
  destruct (0 <? _); [|done]. injection Hf as <-. cbn.
  apply list_elem_of_fmap. by exists (k', v').
Qed.

End ManifestParts.

Lemma job_affinity_shape_witness :
  wantsGpu definitionG = true
  ∧ NodeLifecycle Sample.runA = Some SpotLifecycle
  ∧ if wantsGpu definitionG
    then [onLifecycle "normal"] = [onLifecycle "normal"]
    else
      let label :=
        if bool_decide (NodeLifecycle Sample.runA = Some OndemandLifecycle)
        then "normal" else "spot" in
      [onLifecycle "normal"] = [excludeGpuNodes; onLifecycle label]
      ∨ [onLifecycle "normal"]
        = [excludeGpuNodes; onlyCpuNodes; onLifecycle label].
Proof.
  split; [reflexivity|]. split; [reflexivity|].
  apply (job_affinity_shape Sample.MinCPU Sample.MaxCPU Sample.MinMem
           Sample.MaxMem Sample.queuedAtSince definitionG Sample.runA
           (Sample.managerWith (Sample.priorRun "" 2048 1000)) false
           [onLifecycle "normal"]).
  reflexivity.
Defined.

Lemma container_ports_are_the_definition_ports_witness :
  adapter.constructContainerPorts definitionG = [8080; 443].
Proof.
  apply (container_ports_are_the_definition_ports definitionG).
  repeat constructor; cbn; lia.
Defined.

Lemma run_level_environment_wins_witness :
  let definition :=
    Sample.definitionA [mkEnvVar "A" "1"; mkEnvVar "B" "2"; mkEnvVar "B" "4";
                        mkEnvVar "$" "x"] in
  let res := [mkEnvVar "CC" "3"; mkEnvVar "A" "9"; mkEnvVar "B" "4"] in
  adapter.envOverrides definition runWithEnv = Some res
  ∧ (mkEnvVar "A" "9" ∈ res
     ↔ Name (mkEnvVar "A" "9") ≠ ""
       ∧ match lastValue "A" (default [] (Env runWithEnv)) with
         | Some v => Some v
         | None =>
             lastValue "A"
               (default [] (ResEnv (GetExecutableResources definition)))
         end = Some "9").
Proof.
  cbv zeta. split; [reflexivity|].
  apply (run_level_environment_wins
           (Sample.definitionA [mkEnvVar "A" "1"; mkEnvVar "B" "2";
                                mkEnvVar "B" "4"; mkEnvVar "$" "x"])
           runWithEnv
           [mkEnvVar "CC" "3"; mkEnvVar "A" "9"; mkEnvVar "B" "4"]
           (mkEnvVar "A" "9")).
  reflexivity.
Defined.

Lemma environment_names_are_unique_witness :
  NoDup (Name <$> [mkEnvVar "CC" "3"; mkEnvVar "A" "9"; mkEnvVar "B" "4"]).
Proof.
  apply (environment_names_are_unique
           (Sample.definitionA [mkEnvVar "A" "1"; mkEnvVar "B" "2";
                                mkEnvVar "B" "4"; mkEnvVar "$" "x"])
           runWithEnv).
  reflexivity.
Defined.

(** ** The engine's reads of the cluster *)

Section EngineReads.

(** X16.  The event list [GetEvents] hands out is consistent: [Total] is
    the number of events in it, every event carries a timestamp, and an
    error comes with the empty list. *)
Theorem events_total_matches_the_list ee run :
  let events := (engine.GetEvents ee run).1 in
  Total events = Z.of_nat (length (PodEvents_of events))
  ∧ Forall (λ podEvent, is_Some (Timestamp podEvent)) (PodEvents_of events)
  ∧ ((engine.GetEvents ee run).2 ≠ None → PodEvents_of events = []).
Proof.
  cbv zeta. unfold engine.GetEvents.
  destruct (PodName run) as [podName|]; [|by repeat split].
  destruct (engine.EventsList _ _) as [items|err]; [|by repeat split].
  cbn. split; [done|]. split; [|done].
  induction items as [|item items IH]; constructor; [by eexists | done].
Qed.

(** X17.  The pod the status refresh adopts is the last one the cluster
    listed, as soon as any listed pod has a creation time after the zero
    time.  From that pod the run takes its pod name; its instance name,
    when the pod has a node name and the run had another pod name or no
    instance name (otherwise the instance name stays); and, when the pod has
    containers, the name and the CPU and memory limits of its last
    container (otherwise these stay). *)
Theorem adopted_pod_is_the_last_listed items run item :
  item ∈ items →
  0 < corev1.CreationTimestamp item →
  ∃ pod,
    last items = Some pod
    ∧ (engine.adoptMostRecentPod items run).2 = Some pod
    ∧ let adopted := (engine.adoptMostRecentPod items run).1 in
      PodName adopted = Some (corev1.PodName pod)
      ∧ (corev1.NodeName pod ≠ "" →
         PodName run ≠ Some (corev1.PodName pod) ∨ InstanceDNSName run = "" →
         InstanceDNSName adopted = corev1.NodeName pod)
      ∧ (corev1.NodeName pod = ""
         ∨ (PodName run = Some (corev1.PodName pod) ∧ InstanceDNSName run ≠ "") →
         InstanceDNSName adopted = InstanceDNSName run)
      ∧ match last (corev1.Containers pod) with
        | Some container =>
            ContainerName adopted = Some (corev1.Name container)
            ∧ Cpu adopted = Some (corev1.cpu (corev1.Limits container))
            ∧ Memory adopted = Some (corev1.memory (corev1.Limits container))
        | None =>
            ContainerName adopted = ContainerName run
            ∧ Cpu adopted = Cpu run ∧ Memory adopted = Memory run
        end.
Proof.
  intros Hin Hpos.
  pose proof (scanPods_hands_on_the_last_pod items item Hin Hpos) as Hscan.
  destruct (last items) as [pod|] eqn:Hlast.
  2:{ apply last_None in Hlast. subst. by apply elem_of_nil in Hin. }
  exists pod. split; [done|].
  unfold engine.adoptMostRecentPod. rewrite Hscan. cbn [fst snd].
  split; [done|]. cbv zeta. unfold engine.getInstanceDetails.
  destruct run as [runID definitionID image command env cpu memory lifecycle
                   status exitCode exitReason startedAt finishedAt queuedAt
                   podName namespace containerName instance maxCpu maxMemory
                   podEvents].
  cbn [PodName InstanceDNSName ContainerName Cpu Memory set_PodName].
  destruct (corev1.NodeName pod) as [|c node] eqn:Hnode;
    destruct instance as [|c' instance'];
    destruct (last (corev1.Containers pod)) as [container|];
    case_bool_decide as Hname; cbn;
    repeat split; try done; try (intros; done);
    try (intros _ [?|?]; done); try (intros [?|[? ?]]; done);
    try (intros [?|[? ?]]; congruence).
Qed.

Lemma GetEvents_reads_the_pod_name ee run run' :
  PodName run = PodName run' → engine.GetEvents ee run = engine.GetEvents ee run'.
Proof. unfold engine.GetEvents. by intros ->. Qed.

(** X18.  [FetchUpdateStatus] asks the cluster for deletions only for a
    dangling Job: the pod list was answered and is empty, the run names a
    pod, it was queued more than 24 hours before the clock reading, and the
    events of that pod could be fetched.  The deletions are then the Job and
    that pod, in this order. *)
Theorem deletions_only_for_dangling_jobs ee now now' run run' err actions :
  engine.FetchUpdateStatus ee now now' run = Some (run', err, actions) →
  actions ≠ [] →
  ∃ podName queuedAt events,
    engine.itemsOf (engine.getPodList ee run).1 = Some []
    ∧ PodName run = Some podName
    ∧ QueuedAt run = Some queuedAt
    ∧ queuedAt < now - 24 * engine.Hour
    ∧ engine.EventsList (engine.kClient ee) ("involvedObject.name==" +:+ podName)
      = Ok events
    ∧ actions = [engine.DeleteJob (RunID run); engine.DeletePod podName].
Proof.
  unfold engine.FetchUpdateStatus.
  destruct (engine.JobsGet _ _) as [job|e]; [|by intros [= _ _ <-]].
  destruct (engine.getPodList ee run) as [podList err0]. cbn [fst].
  unfold engine.isDangling.
  destruct (engine.itemsOf podList) as [[|first rest]|] eqn:Hitems.
  - assert (engine.refreshFromPods podList err0 run = (run, None)) as ->.
    { unfold engine.refreshFromPods. rewrite Hitems. by destruct err0. }
    destruct (FetchPodMetrics_identity ee run) as (Hid & Hpod & Hqueued).
    set (run2 := (engine.FetchPodMetrics ee run).1) in *.
    rewrite (GetEvents_reads_the_pod_name ee run2 run Hpod).
    destruct (engine.GetEvents ee run) as [events err1] eqn:Hevents.
    set (run3 := if bool_decide (err1 = None)
                    && (0 <? Z.of_nat (length (PodEvents_of events)))
                 then engine.mergeEvents run2 events else run2).
    assert (RunID run3 = RunID run ∧ PodName run3 = PodName run
            ∧ QueuedAt run3 = QueuedAt run) as (Hid3 & Hpod3 & Hqueued3).
    { subst run3. case_match; [|done].
      destruct (mergeEvents_identity run2 events) as (-> & -> & ->). done. }
    clearbody run3.
    destruct err1 as [e|].
    { cbn. by intros [= _ _ <-]. }
    rewrite bool_decide_true by done. cbn [andb].
    destruct (PodName run) as [podName|] eqn:Hname.
    2:{ rewrite Hpod3. cbn. by intros [= _ _ <-]. }
    rewrite bool_decide_true by (by rewrite Hpod3).
    rewrite Hqueued3. destruct (QueuedAt run) as [queuedAt|]; [|done].
    cbn [mbind option_bind].
    destruct (Z.ltb_spec queuedAt (now - 24 * engine.Hour)) as [Hold|].
    2:{ by intros [= _ _ <-]. }
    unfold engine.Terminate. rewrite Hpod3, Hid3.
    intros H _.
    assert (actions = [engine.DeleteJob (RunID run); engine.DeletePod podName])
      as ->.
    { by destruct (engine.JobsDelete _ _); injection H as _ _ <-. }
    unfold engine.GetEvents in Hevents. rewrite Hname in Hevents.
    destruct (engine.EventsList _ _) as [items|] eqn:Hlist; [|done].
    exists podName, queuedAt, items. done.
  - destruct (engine.refreshFromPods _ _ _) as [run1 mostRecentPod].
    destruct (engine.GetEvents _ _) as [events err1].
    rewrite andb_false_r. cbn. by intros [= _ _ <-].
  - destruct (engine.refreshFromPods _ _ _) as [run1 mostRecentPod].
    destruct (engine.GetEvents _ _) as [events err1].
    rewrite andb_false_r. cbn. by intros [= _ _ <-].
Qed.

End EngineReads.

(** ** What a status refresh keeps *)

Section Refresh.

Lemma getInstanceDetails_PodEvents pod run :
  PodEvents (engine.getInstanceDetails pod run) = PodEvents run.
Proof. unfold engine.getInstanceDetails. by destruct (0 <? _). Qed.

Lemma refreshFromPods_PodEvents podList err run :
  PodEvents (engine.refreshFromPods podList err run).1 = PodEvents run.
Proof.
  unfold engine.refreshFromPods.
  destruct err; [done|]. destruct (engine.itemsOf podList) as [[|first rest]|];
    [done| |done].
  unfold engine.adoptMostRecentPod.
  destruct (engine.deref _) as [pod|]; [|done]. cbn [fst].
  repeat match goal with
         | |- context [if ?b then _ else _] => destruct b
         | |- context [match ?x with Some _ => _ | None => _ end] => destruct x
         end; cbn; rewrite ?getInstanceDetails_PodEvents; cbn;
    rewrite ?getInstanceDetails_PodEvents; done.
Qed.

Lemma FetchPodMetrics_PodEvents ee run :
  PodEvents (engine.FetchPodMetrics ee run).1 = PodEvents run.
Proof.
  unfold engine.FetchPodMetrics.
  repeat match goal with
         | |- context [if ?b then _ else _] => destruct b
         | |- context [match ?x with Some _ => _ | None => _ end] => destruct x
         | |- context [match ?x with Ok _ => _ | Err _ => _ end] => destruct x
         end; done.
Qed.

Lemma AdaptJobToFlotillaRun_PodEvents now job run pod :
  PodEvents (adapter.AdaptJobToFlotillaRun now job run pod) = PodEvents run.
Proof.
  destruct run. unfold adapter.AdaptJobToFlotillaRun.
  repeat match goal with
         | |- context [if ?b then _ else _] => destruct b
         | |- context [match ?x with Some _ => _ | None => _ end] => destruct x
         end; reflexivity.
Qed.

Lemma mergeEvents_keeps_prior run events :
  default [] (PodEvents run)
  `prefix_of` default [] (PodEvents (engine.mergeEvents run events)).
Proof.
  unfold engine.mergeEvents.
  destruct (PodEvents run) as [[|e priorEvents]|]; cbn.
  - apply prefix_nil.
  - apply appendUnseen_prefix.
  - apply prefix_nil.
Qed.

(** X19.  A status refresh never drops or reorders the pod events a run
    already holds: the events before the call are a prefix of the events
    after it. *)
Theorem refresh_keeps_the_events_it_had ee now now' run run' err actions :
  holdsEKSAdapter ee →
  engine.FetchUpdateStatus ee now now' run = Some (run', err, actions) →
  default [] (PodEvents run) `prefix_of` default [] (PodEvents run').
Proof.
  intros Had. unfold engine.FetchUpdateStatus. rewrite Had.
  destruct (engine.JobsGet _ _) as [job|e]; [|by intros [= <- _ _]].
  destruct (engine.getPodList ee run) as [podList err0].
  pose proof (refreshFromPods_PodEvents podList err0 run) as H1.
  destruct (engine.refreshFromPods podList err0 run) as [run1 mostRecentPod].
  cbn [fst] in H1.
  pose proof (FetchPodMetrics_PodEvents ee run1) as H2. rewrite H1 in H2.
  set (run2 := (engine.FetchPodMetrics ee run1).1) in *.
  destruct (engine.GetEvents ee run2) as [events err1].
  set (run3 := if bool_decide (err1 = None)
                  && (0 <? Z.of_nat (length (PodEvents_of events)))
               then engine.mergeEvents run2 events else run2).
  assert (default [] (PodEvents run) `prefix_of` default [] (PodEvents run3))
    as H3.
  { subst run3. rewrite <- H2. case_match; [|done].
    apply mergeEvents_keeps_prior. }
  clearbody run3. intros H.
  assert (∃ job' pod', run' = adapter.AdaptJobToFlotillaRun now' job' run3 pod')
    as (job' & pod' & ->).
  { destruct (engine.isDangling _ _ _ _) as [[|]|]; cbn in H; [| |done].
    - destruct (engine.JobsDelete _ _); injection H as <- _ _; eauto.
    - injection H as <- _ _; eauto. }
  by rewrite AdaptJobToFlotillaRun_PodEvents.
Qed.

(** X20.  [Get] reads the Job only.  When the cluster has the Job, the run
    comes back with at most [Status], [ExitCode], [StartedAt] and
    [FinishedAt] changed: no pod is consulted, so the command and the exit
    reason are never touched.  When the cluster does not answer, the caller
    gets the empty run, not the one it passed. *)
Theorem get_reads_the_job_only ee now run :
  holdsEKSAdapter ee →
  match engine.JobsGet (engine.kClient ee) (RunID run) with
  | Ok job =>
      ∃ updated,
        engine.Get ee now run = (updated, None)
        ∧ set_Status (Status run)
            (set_ExitCode (ExitCode run)
               (set_StartedAt (StartedAt run)
                  (set_FinishedAt (FinishedAt run) updated)))
          = run
  | Err err =>
      engine.Get ee now run
      = (zeroRun, Some ("error getting kubernetes job " +:+ err))
  end.
Proof.
  intros Had. unfold engine.Get. rewrite Had.
  destruct (engine.JobsGet _ _) as [job|err]; [|done].
  eexists. split; [done|].
  destruct run. unfold adapter.AdaptJobToFlotillaRun.
  cbn [adapter.lastTerminated adapter.firstContainer mbind option_bind].
  repeat match goal with
         | |- context [if ?b then _ else _] => destruct b
         | |- context [match ?x with Some _ => _ | None => _ end] => destruct x
         end; reflexivity.
Qed.

(** X21.  [PollRuns] hands out at most one receipt per call and never a
    receipt without a run; an error comes with no receipt, and there is no
    error exactly when the queue manager answered both calls. *)
Theorem poll_runs_hands_out_at_most_one_run qm jobQueue :
  let runs := (engine.PollRuns qm jobQueue).1 in
  let err := (engine.PollRuns qm jobQueue).2 in
  (length runs ≤ 1)%nat
  ∧ Forall (λ receipt, is_Some (engine.ReceiptRun receipt)) runs
  ∧ (err ≠ None → runs = [])
  ∧ (err = None
     ↔ ∃ qurl receipt,
         engine.QurlFor qm jobQueue false = Ok qurl
         ∧ engine.ReceiveRun qm qurl = Ok receipt).
Proof.
  cbv zeta. unfold engine.PollRuns.
  destruct (engine.QurlFor qm jobQueue false) as [qurl|e]; cbn.
  - destruct (engine.ReceiveRun qm qurl) as [receipt|e] eqn:Hreceive; cbn.
    + destruct (engine.ReceiptRun receipt) eqn:Hrun; cbn.
      * repeat split; [lia| |done|by eauto].
        by repeat constructor; rewrite ?Hrun.
      * repeat split; [lia|done|by eauto].
    + repeat split; [lia|done|done|].
      intros (q & r & [= <-] & Hr). congruence.
  - repeat split; [lia|done|done|]. by intros (q & r & ? & _).
Qed.

End Refresh.

(** ** The event history of a run *)

Section EventHistory.

Lemma GetEvents_NoDup ee run :
  uniqueEventNames (engine.kClient ee) →
  NoDup (PodEvents_of (engine.GetEvents ee run).1).
Proof.
  intros Hunique. unfold engine.GetEvents.
  destruct (PodName run) as [podName|]; [|constructor].
  destruct (engine.EventsList _ _) as [items|err] eqn:Hlist; [|constructor].
  cbn [fst PodEvents_of]. apply (NoDup_fmap_1 SourceObject).
  rewrite <- list_fmap_compose.
  exact (Hunique _ _ Hlist).
Qed.

Lemma mergeEvents_NoDup run events :
  NoDup (default [] (PodEvents run)) →
  NoDup (PodEvents_of events) →
  NoDup (default [] (PodEvents (engine.mergeEvents run events))).
Proof.
  intros Hprior Hnew. unfold engine.mergeEvents.
  destruct (PodEvents run) as [[|e priorEvents]|]; cbn in *; [done| |done].
  by apply appendUnseen_NoDup.
Qed.

(** One pass: the events recorded stay free of duplicates and the events
    recorded before are a prefix of those recorded after. *)
Lemma FetchUpdateStatus_events ee now now' run run' err actions :
  holdsEKSAdapter ee →
  uniqueEventNames (engine.kClient ee) →
  engine.FetchUpdateStatus ee now now' run = Some (run', err, actions) →
  NoDup (default [] (PodEvents run)) →
  NoDup (default [] (PodEvents run'))
  ∧ default [] (PodEvents run) `prefix_of` default [] (PodEvents run').
Proof.
  intros Had Hunique. unfold engine.FetchUpdateStatus. rewrite Had.
  destruct (engine.JobsGet _ _) as [job|e]; [|by intros [= <- _ _]].
  destruct (engine.getPodList ee run) as [podList err0].
  pose proof (refreshFromPods_PodEvents podList err0 run) as H1.
  destruct (engine.refreshFromPods podList err0 run) as [run1 mostRecentPod].
  cbn [fst] in H1.
  pose proof (FetchPodMetrics_PodEvents ee run1) as H2. rewrite H1 in H2.
  set (run2 := (engine.FetchPodMetrics ee run1).1) in *.
  pose proof (GetEvents_NoDup ee run2 Hunique) as Hfetched.
  destruct (engine.GetEvents ee run2) as [events err1]. cbn [fst] in Hfetched.
  set (run3 := if bool_decide (err1 = None)
                  && (0 <? Z.of_nat (length (PodEvents_of events)))
               then engine.mergeEvents run2 events else run2).
  intros H Hprior.
  assert (NoDup (default [] (PodEvents run3))
          ∧ default [] (PodEvents run) `prefix_of` default [] (PodEvents run3))
    as H3.
  { subst run3.
    destruct (bool_decide (err1 = None)
              && (0 <? Z.of_nat (length (PodEvents_of events)))).
    - split.
      + apply mergeEvents_NoDup; [by rewrite H2|done].
      + rewrite <- H2. apply mergeEvents_keeps_prior.
    - by rewrite H2. }
  clearbody run3.
  assert (∃ job' pod', run' = adapter.AdaptJobToFlotillaRun now' job' run3 pod')
    as (job' & pod' & ->).
  { destruct (engine.isDangling _ _ _ _) as [[|]|]; cbn in H; [| |done].
    - destruct (engine.JobsDelete _ _); injection H as <- _ _; eauto.
    - injection H as <- _ _; eauto. }
  by rewrite AdaptJobToFlotillaRun_PodEvents.
Qed.

(** C6.  Over any sequence of reconciliation calls, each against a cluster
    whose event listing names its events differently, a run that starts
    without duplicates among its pod events never gets one, and its event
    list only grows at the end: the list before the calls is the list
    after them with some events cut off the end, so that every event keeps
    the place it got when it was first recorded. *)
Theorem pod_events_stay_free_of_duplicates (calls : list call) (run : Run) :
  Forall (λ c, holdsEKSAdapter (engineOf c)
               ∧ uniqueEventNames (engine.kClient (engineOf c))) calls →
  NoDup (default [] (PodEvents run)) →
  NoDup (default [] (PodEvents (foldl runCall run calls)))
  ∧ ∃ appended,
      default [] (PodEvents (foldl runCall run calls))
      = app (default [] (PodEvents run)) appended.
Proof.
  intros Hcalls. revert run.
  induction Hcalls as [|c calls [Had Hunique] _ IH]; intros run Hprior.
  { split; [done|]. exists []. by rewrite app_nil_r. }
  cbn [foldl].
  assert (NoDup (default [] (PodEvents (runCall run c)))
          ∧ default [] (PodEvents run)
            `prefix_of` default [] (PodEvents (runCall run c)))
    as [Hstep [added Hadded]].
  { destruct c as [ee|ee now now']; cbn [runCall engineOf] in *.
    - by rewrite FetchPodMetrics_PodEvents.
    - destruct (engine.FetchUpdateStatus ee now now' run)
        as [[[run' err] actions]|] eqn:Hpass; [|done].
      by eapply FetchUpdateStatus_events. }
  destruct (IH _ Hstep) as [Hfinal [appended Happended]].
  split; [done|]. exists (app added appended).
  by rewrite Happended, Hadded, app_assoc.
Qed.

End EventHistory.

Lemma sample_cluster_uniqueEventNames theJob pods usage events jobDeletion :
  NoDup (corev1.EventName <$> events) →
  uniqueEventNames
    (SampleCluster.cluster theJob pods usage (Ok events) jobDeletion).
Proof. intros Hevents selector items [= <-]. exact Hevents. Qed.

(** C6 on two passes over a running pod: the first finds two events, the
    second the later of them again and a third one. *)
Lemma pod_events_stay_free_of_duplicates_witness :
  let scheduled := corev1.mkEvent "Scheduled" 90 "Normal" "Scheduled" "pod-1.16f2" in
  let pulling := corev1.mkEvent "Pulling image" 100 "Normal" "Pulling" "pod-1.16f3" in
  let started := corev1.mkEvent "Started" 110 "Normal" "Started" "pod-1.16f4" in
  let listing events :=
    SampleCluster.engineOn
      (SampleCluster.cluster (SampleCluster.job 1 0 0)
         [SampleCluster.pod "pod-1" 100] (Err "metrics not ready")
         (Ok events) None) in
  let calls :=
    [ CallFetchUpdateStatus (listing [scheduled; pulling]) 1000 1001;
      CallFetchUpdateStatus (listing [pulling; started]) 2000 2001 ] in
  let run := SampleCluster.runningRun 500 in
  PodEvents (foldl runCall run calls)
  = Some [ mkPodEvent "Scheduled" (Some 90) "Normal" "Scheduled" "pod-1.16f2";
           mkPodEvent "Pulling image" (Some 100) "Normal" "Pulling" "pod-1.16f3";
           mkPodEvent "Started" (Some 110) "Normal" "Started" "pod-1.16f4" ]
  ∧ NoDup (default [] (PodEvents (foldl runCall run calls)))
  ∧ ∃ appended,
      default [] (PodEvents (foldl runCall run calls))
      = app (default [] (PodEvents run)) appended.
Proof.
  cbv zeta. split; [reflexivity|].
  refine (pod_events_stay_free_of_duplicates _ _ _ _).
  - repeat (constructor;
            [split; [reflexivity
                    |apply sample_cluster_uniqueEventNames;
                     apply (bool_decide_unpack _); vm_compute; exact I]|]).
    constructor.
  - constructor.
Defined.

Lemma adopted_pod_is_the_last_listed_witness :
  let items := [SampleCluster.pod "pod-new" 200; SampleCluster.pod "pod-old" 100] in
  ∃ pod,
    last items = Some pod
    ∧ (engine.adoptMostRecentPod items Sample.runA).2 = Some pod
    ∧ let adopted := (engine.adoptMostRecentPod items Sample.runA).1 in
      PodName adopted = Some (corev1.PodName pod)
      ∧ (corev1.NodeName pod ≠ "" →
         PodName Sample.runA ≠ Some (corev1.PodName pod)
         ∨ InstanceDNSName Sample.runA = "" →
         InstanceDNSName adopted = corev1.NodeName pod)
      ∧ (corev1.NodeName pod = ""
         ∨ (PodName Sample.runA = Some (corev1.PodName pod)
            ∧ InstanceDNSName Sample.runA ≠ "") →
         InstanceDNSName adopted = InstanceDNSName Sample.runA)
      ∧ match last (corev1.Containers pod) with
        | Some container =>
            ContainerName adopted = Some (corev1.Name container)
            ∧ Cpu adopted = Some (corev1.cpu (corev1.Limits container))
            ∧ Memory adopted = Some (corev1.memory (corev1.Limits container))
        | None =>
            ContainerName adopted = ContainerName Sample.runA
            ∧ Cpu adopted = Cpu Sample.runA
            ∧ Memory adopted = Memory Sample.runA
        end.
Proof.
  cbv zeta.
  apply (adopted_pod_is_the_last_listed
           [SampleCluster.pod "pod-new" 200; SampleCluster.pod "pod-old" 100]
           Sample.runA (SampleCluster.pod "pod-new" 200)).
  - apply list_elem_of_here.
  - reflexivity.
Defined.

Lemma deletions_only_for_dangling_jobs_witness :
  let now := 200 * engine.Hour in
  let run := SampleCluster.runningRun (now - 48 * engine.Hour) in
  let ee :=
    SampleCluster.engineOn
      (SampleCluster.cluster (SampleCluster.job 0 0 0) []
         (Err "pod not found") (Ok []) None) in
  ∃ podName queuedAt events,
    engine.itemsOf (engine.getPodList ee run).1 = Some []
    ∧ PodName run = Some podName
    ∧ QueuedAt run = Some queuedAt
    ∧ queuedAt < now - 24 * engine.Hour
    ∧ engine.EventsList (engine.kClient ee) ("involvedObject.name==" +:+ podName)
      = Ok events
    ∧ [engine.DeleteJob "run-1"; engine.DeletePod "pod-1"]
      = [engine.DeleteJob (RunID run); engine.DeletePod podName].
Proof.
  cbv zeta.
  eapply (deletions_only_for_dangling_jobs
            (SampleCluster.engineOn
               (SampleCluster.cluster (SampleCluster.job 0 0 0) []
                  (Err "pod not found") (Ok []) None))
            (200 * engine.Hour) (200 * engine.Hour + 1)
            (SampleCluster.runningRun (200 * engine.Hour - 48 * engine.Hour))
            _ None [engine.DeleteJob "run-1"; engine.DeletePod "pod-1"]).
  - reflexivity.
  - discriminate.
Defined.

Lemma refresh_keeps_the_events_it_had_witness :
  let event := corev1.mkEvent "Pulling image" 100 "Normal" "Pulling" "pod-1.16f3" in
  let podEvent := mkPodEvent "Pulling image" (Some 100) "Normal" "Pulling" "pod-1.16f3" in
  let earlier := mkPodEvent "Scheduled" (Some 90) "Normal" "Scheduled" "pod-1.16f2" in
  [earlier] `prefix_of` [earlier; podEvent].
Proof.
  cbv zeta.
  eapply (refresh_keeps_the_events_it_had
            (SampleCluster.engineOn
               (SampleCluster.cluster (SampleCluster.job 1 0 0)
                  [SampleCluster.pod "pod-1" 100]
                  (Err "metrics not ready")
                  (Ok [corev1.mkEvent "Pulling image" 100 "Normal" "Pulling"
                                      "pod-1.16f3"]) None))
            1000 1001
            (set_PodEvents
               (Some [mkPodEvent "Scheduled" (Some 90) "Normal" "Scheduled"
                                 "pod-1.16f2"])
               (SampleCluster.runningRun 500))
            (set_PodEvents
               (Some [mkPodEvent "Scheduled" (Some 90) "Normal" "Scheduled"
                                 "pod-1.16f2";
                      mkPodEvent "Pulling image" (Some 100) "Normal" "Pulling"
                                 "pod-1.16f3"])
               (SampleCluster.runningRun 500))
            None []).
  - reflexivity.
  - reflexivity.
Defined.

Lemma get_reads_the_job_only_witness :
  let ee :=
    SampleCluster.engineOn
      (SampleCluster.cluster (SampleCluster.job 0 1 0) []
         (Err "pod not found") (Ok []) None) in
  ∃ updated,
    engine.Get ee 1000 (SampleCluster.runningRun 5) = (updated, None)
    ∧ set_Status (Status (SampleCluster.runningRun 5))
        (set_ExitCode (ExitCode (SampleCluster.runningRun 5))
           (set_StartedAt (StartedAt (SampleCluster.runningRun 5))
              (set_FinishedAt (FinishedAt (SampleCluster.runningRun 5)) updated)))
      = SampleCluster.runningRun 5.
Proof.
  cbv zeta.
  apply (get_reads_the_job_only
           (SampleCluster.engineOn
              (SampleCluster.cluster (SampleCluster.job 0 1 0) []
                 (Err "pod not found") (Ok []) None))
           1000 (SampleCluster.runningRun 5)).
  reflexivity.
Defined.

(** ** The log cursor *)

Section Cursor.

Lemma parseDigits_acc (d : Decimal.uint) (acc : positive) :
  logs.parseDigits (NilEmpty.string_of_uint d) (Z.pos acc)
  = Some (Z.pos (Pos.of_uint_acc d acc)).
Proof.
  revert acc.
  induction d; intros acc;
    cbn [NilEmpty.string_of_uint logs.parseDigits Pos.of_uint_acc];
    [done|..];
    match goal with
    | |- context [logs.digitValue ?c] =>
        let v := eval vm_compute in (logs.digitValue c) in
        change (logs.digitValue c) with v
    end; cbv iota; rewrite <- IHd; f_equal; lia.
Qed.

Lemma parseDigits_uint (d : Decimal.uint) :
  logs.parseDigits (NilEmpty.string_of_uint d) 0 = Some (Z.of_N (Pos.of_uint d)).
Proof.
  induction d; cbn [NilEmpty.string_of_uint logs.parseDigits Pos.of_uint];
    [done|..];
    match goal with
    | |- context [logs.digitValue ?c] =>
        let v := eval vm_compute in (logs.digitValue c) in
        change (logs.digitValue c) with v
    end; cbv iota; [exact IHd|..];
    match goal with
    | |- logs.parseDigits _ ?a = _ =>
        let v := eval vm_compute in a in change a with v
    end; by rewrite parseDigits_acc.
Qed.

Lemma ParseInt_unsigned (s : string) (n : Z) :
  s ≠ "" →
  logs.parseDigits s 0 = Some n →
  n < 2 ^ 63 → 0 ≤ n →
  logs.ParseInt s = Some n.
Proof.
  intros Hs Hn Hhi Hlo. destruct s as [|c s]; [done|].
  cbn [logs.parseDigits] in Hn.
  destruct (logs.digitValue c) as [v|] eqn:Hv; [|done].
  unfold logs.ParseInt.
  destruct c as [[] [] [] [] [] [] [] []]; try (cbv in Hv; discriminate Hv);
    cbv iota; cbn [logs.parseDigits]; rewrite Hv, Hn; cbn [mbind option_bind];
    (destruct (Z.leb_spec (- 2 ^ 63) n); [|lia]);
    (destruct (Z.ltb_spec n (2 ^ 63)); [|lia]); done.
Qed.

Lemma ParseInt_negative (s : string) (n : Z) :
  s ≠ "" →
  logs.parseDigits s 0 = Some n →
  n ≤ 2 ^ 63 → 0 ≤ n →
  logs.ParseInt (String "-" s) = Some (- n).
Proof.
  intros Hs Hn Hhi Hlo. unfold logs.ParseInt. cbv iota.
  destruct s as [|c s]; [done|]. rewrite Hn. cbn [mbind option_bind].
  (destruct (Z.leb_spec (- 2 ^ 63) (- n)); [|lia]);
  (destruct (Z.ltb_spec (- n) (2 ^ 63)); [|lia]); done.
Qed.

Lemma string_of_uint_nonempty (d : Decimal.uint) :
  d ≠ Decimal.Nil →
  NilEmpty.string_of_uint d ≠ ""
  ∧ NilZero.string_of_uint d = NilEmpty.string_of_uint d.
Proof. by destruct d. Qed.

Lemma ParseInt_Sprintf_d (position : Z) :
  - 2 ^ 63 ≤ position < 2 ^ 63 →
  logs.ParseInt (logs.Sprintf_d position) = Some position.
Proof.
  intros Hrange. unfold logs.Sprintf_d.
  destruct position as [|p|p]; [done|..];
    cbn [Z.to_int NilZero.string_of_int];
    destruct (string_of_uint_nonempty (Pos.to_uint p)
                (DecimalPos.Unsigned.to_uint_nonnil p)) as [Hne ->];
    pose proof (parseDigits_uint (Pos.to_uint p)) as Hp;
    rewrite DecimalPos.Unsigned.of_to in Hp.
  - apply ParseInt_unsigned; (done || lia).
  - change (Z.neg p) with (- Z.pos p).
    apply ParseInt_negative; (done || lia).
Qed.

(** X22.  The cursor survives the round trip: what [Logs] prints with
    [Sprintf("%d")] is read back by [ParseInt] as the same position, for
    every 64-bit position. *)
Theorem cursor_round_trip (position : Z) :
  - 2 ^ 63 ≤ position < 2 ^ 63 →
  logs.ParseInt (logs.Sprintf_d position) = Some position.
Proof. apply ParseInt_Sprintf_d. Qed.

End Cursor.

Lemma cursor_round_trip_witness :
  logs.ParseInt (logs.Sprintf_d (- 9223372036854775808))
  = Some (- 9223372036854775808).
Proof. apply (cursor_round_trip (- 9223372036854775808)). lia. Defined.

(** ** Following the cursor *)

Section Paging.

Variable MaxLogLines : Z.
Variable unmarshalLog : string → option string.









(** X25.  A cursor that is missing, that does not parse as a 64-bit
    decimal number, or that names a position at or before zero reads from
    the first line. *)
Theorem unusable_cursor_reads_from_the_first_line
    lc executable run lastSeen :
  lastSeen = None
  ∨ (∃ s, lastSeen = Some s
          ∧ (logs.ParseInt s = None
             ∨ ∃ position, logs.ParseInt s = Some position ∧ position ≤ 0)) →
  logs.Logs MaxLogLines unmarshalLog lc executable run lastSeen
  = logs.Logs MaxLogLines unmarshalLog lc executable run (Some "0").
Proof.
  intros [->|(s & -> & [Hnone|(position & Hsome & Hle)])].
  - by apply Logs_missing_cursor_is_zero; left.
  - apply Logs_missing_cursor_is_zero; right. by eauto.
  - unfold logs.Logs. cbn [mbind option_bind]. rewrite Hsome.
    destruct (logs.getS3Object lc run) as [body|]; [|done].
    unfold logs.logsToMessageString.
    destruct (Z.leb_spec position 0); [done|lia].
Qed.

End Paging.



Lemma unusable_cursor_reads_from_the_first_line_witness :
  logs.Logs 50 SampleLogs.unmarshalLog (SampleLogs.client 120)
            (Sample.definitionA []) (SampleCluster.runningRun 5) (Some "-5")
  = logs.Logs 50 SampleLogs.unmarshalLog (SampleLogs.client 120)
              (Sample.definitionA []) (SampleCluster.runningRun 5) (Some "0").
Proof.
  apply (unusable_cursor_reads_from_the_first_line 50 SampleLogs.unmarshalLog
           (SampleLogs.client 120) (Sample.definitionA [])
           (SampleCluster.runningRun 5) (Some "-5")).
  right. exists "-5". split; [reflexivity|].
  right. exists (-5). split; [reflexivity|lia].
Defined.

(** ** The log object and the streaming read *)

Section LogObject.

Lemma pick_fold run contents st :
  let st' := foldl (pick run) st contents in
  st.2 ≤ st'.2
  ∧ (∀ other, other ∈ contents → logOf run other →
              logs.LastModified other ≤ st'.2)
  ∧ (st' = st
     ∨ ∃ content, content ∈ contents ∧ logOf run content
                  ∧ st' = (Some (logs.Key content), logs.LastModified content)
                  ∧ st.2 < logs.LastModified content).
Proof.
  cbv zeta. revert st.
  induction contents as [|c contents IH]; intros st; cbn [foldl].
  - split; [lia|]. split; [|by left]. intros other Hin. by apply elem_of_nil in Hin.
  - destruct (IH (pick run st c)) as (Hle & Hmax & Hwho).
    assert (st.2 ≤ (pick run st c).2
            ∧ (logOf run c → logs.LastModified c ≤ (pick run st c).2)
            ∧ (pick run st c = st
               ∨ logOf run c
                 ∧ pick run st c = (Some (logs.Key c), logs.LastModified c)
                 ∧ st.2 < logs.LastModified c)) as (Hstep & Hc & Hpick).
    { unfold pick, logOf.
      destruct (GoStrings.Contains _ _); cbn [andb];
        [|by repeat split; (lia || done || auto)].
      destruct (Z.ltb_spec st.2 (logs.LastModified c)); cbn [fst snd];
        repeat split; (lia || done || auto). }
    split; [lia|]. split.
    + intros other Hin Hother. apply elem_of_cons in Hin as [->|Hin].
      * specialize (Hc Hother). lia.
      * by apply Hmax.
    + destruct Hwho as [->|(content & Hin & Hlog & -> & Hlt)].
      * destruct Hpick as [->|(Hlog & -> & Hlt)]; [by left|].
        right. exists c. split; [by left|done].
      * right. exists content. split; [by right|]. split; [done|].
        split; [done|lia].
Qed.

(** X26.  Which object [getS3Object] reads.  Among the objects listed under
    the run's directory whose key holds the run's identifier, it downloads
    one with the latest modification time; when no such object has a
    modification time after the zero time it reports that no file is
    associated with the run. *)
Theorem latest_log_object_is_read lc run podName contents :
  PodName run = Some podName →
  logs.ListObjects (logs.s3Client lc) (logs.s3Bucket lc) (logs.toS3DirName lc run)
  = Ok contents →
  (logs.getS3Object lc run = Err "no s3 files associated with the run."
   ∧ ∀ content, content ∈ contents → logOf run content →
                logs.LastModified content ≤ 0)
  ∨ ∃ content,
      content ∈ contents ∧ logOf run content
      ∧ 0 < logs.LastModified content
      ∧ (∀ other, other ∈ contents → logOf run other →
                  logs.LastModified other ≤ logs.LastModified content)
      ∧ logs.getS3Object lc run = logs.getS3Key lc (logs.Key content).
Proof.
  intros Hpod Hlist. unfold logs.getS3Object. rewrite Hpod, Hlist.
  destruct contents as [|c contents].
  { left. split; [done|]. intros content Hin. by apply elem_of_nil in Hin. }
  cbv zeta. fold (pick run).
  destruct (pick_fold run (c :: contents) (None, 0)) as (_ & Hmax & Hwho).
  destruct Hwho as [Hsame|(content & Hin & Hlog & Hfound & Hlt)].
  - rewrite Hsame in *. left. split; [done|]. intros content Hin Hlog.
    exact (Hmax content Hin Hlog).
  - rewrite Hfound in *. cbn [fst snd] in *.
    right. exists content. by repeat split.
Qed.

Variable unmarshal : string → result string.


(** X27.  The streaming read gives up at the first line that does not
    decode: the text of the lines before it has been written, the decoder's
    error is returned, and nothing after that line is read.  (The paginated
    read skips such a line and goes on.) *)
Theorem streaming_stops_at_the_first_malformed_line
    (good : list string) (bad : string) (rest : list string) (err w : string) :
  Forall (λ line, is_Some (decoded unmarshal line)) good →
  unmarshal bad = Err err →
  logs.logsToMessage unmarshal string bufferWrite (good ++ bad :: rest) w
  = (appendLogs (decoded unmarshal) w good, Some err)
  ∧ ∀ MaxLogLines position,
      (Z.of_nat (length (good ++ bad :: rest)) ≤ MaxLogLines + 1 →
       (logs.readLines MaxLogLines (decoded unmarshal) (good ++ bad :: rest) w
                       position position).1
       = appendLogs (decoded unmarshal) w (good ++ rest)).
Proof.
  intros Hgood Hbad. split.
  - revert w.
    induction Hgood as [|line lines [log Hline] _ IH]; intros w.
    + cbn. by rewrite Hbad.
    + change (appendLogs (decoded unmarshal) w (line :: lines))
        with (appendLogs (decoded unmarshal)
                (match decoded unmarshal line with
                 | Some log => w +:+ log
                 | None => w
                 end) lines).
      rewrite Hline. unfold decoded in Hline.
      cbn [app logs.logsToMessage].
      destruct (unmarshal line) as [log'|]; [|done]. injection Hline as ->.
      cbn. apply IH.
  - intros MaxLogLines position Hlen.
    rewrite readLines_spec by lia. cbv zeta. cbn [fst].
    rewrite take_ge by lia.
    unfold appendLogs. rewrite !foldl_app. cbn [foldl].
    unfold decoded at 2. by rewrite Hbad.
Qed.

Variable MaxLogLines : Z.


Variable ResponseWriter : Type.
Variable WriteString : ResponseWriter → string → ResponseWriter * option string.

(** X29.  A run whose log object cannot be fetched (no pod yet, the
    listing failed, no object for the run, the download failed): [Logs]
    reports [No logs.] with the empty text and the empty cursor, whatever
    cursor it was given; [LogsText] writes nothing and reports no error. *)
Theorem missing_log_object_is_no_logs
    unmarshalLog lc executable run lastSeen (w : ResponseWriter) err :
  logs.getS3Object lc run = Err err →
  logs.Logs MaxLogLines unmarshalLog lc executable run lastSeen
  = ("", Some "", Some "No logs.")
  ∧ logs.LogsText unmarshal ResponseWriter WriteString lc executable run w
    = (w, None).
Proof. intros H. unfold logs.Logs, logs.LogsText. by rewrite H. Qed.

End LogObject.

Lemma latest_log_object_is_read_witness :
  let run := SampleCluster.runningRun 5 in
  let latest := logs.mkS3Object "logs/run-1/run-1-b.log" 300 in
  (logs.getS3Object retriedClient run
   = Err "no s3 files associated with the run."
   ∧ ∀ content, content ∈ retriedListing → logOf run content →
                logs.LastModified content ≤ 0)
  ∨ ∃ content,
      content ∈ retriedListing ∧ logOf run content
      ∧ 0 < logs.LastModified content
      ∧ (∀ other, other ∈ retriedListing → logOf run other →
                  logs.LastModified other ≤ logs.LastModified content)
      ∧ logs.getS3Object retriedClient run
        = logs.getS3Key retriedClient (logs.Key content).
Proof.
  cbv zeta.
  apply (latest_log_object_is_read retriedClient (SampleCluster.runningRun 5)
           "pod-1" retriedListing); reflexivity.
Defined.

Lemma streaming_stops_at_the_first_malformed_line_witness :
  let good := [SampleLogs.jsonLine "a;"; SampleLogs.jsonLine "b;"] in
  let rest := [SampleLogs.jsonLine "c;"] in
  logs.logsToMessage unmarshalOrError string bufferWrite
                     (good ++ "not json" :: rest) ""
  = (appendLogs (decoded unmarshalOrError) "" good, Some "invalid character")
  ∧ ∀ MaxLogLines position,
      (Z.of_nat (length (good ++ "not json" :: rest)) ≤ MaxLogLines + 1 →
       (logs.readLines MaxLogLines (decoded unmarshalOrError)
                       (good ++ "not json" :: rest) "" position position).1
       = appendLogs (decoded unmarshalOrError) "" (good ++ rest)).
Proof.
  cbv zeta.
  apply (streaming_stops_at_the_first_malformed_line unmarshalOrError
           [SampleLogs.jsonLine "a;"; SampleLogs.jsonLine "b;"] "not json"
           [SampleLogs.jsonLine "c;"] "invalid character" "").
  - repeat constructor; vm_compute; eexists; reflexivity.
  - reflexivity.
Defined.


Lemma missing_log_object_is_no_logs_witness :
  logs.Logs 50 SampleLogs.unmarshalLog (SampleLogs.client 7)
            (Sample.definitionA []) Sample.runA (Some "51")
  = ("", Some "", Some "No logs.")
  ∧ logs.LogsText unmarshalOrError string bufferWrite (SampleLogs.client 7)
                  (Sample.definitionA []) Sample.runA "written before"
    = ("written before", None).
Proof.
  apply (missing_log_object_is_no_logs unmarshalOrError 50 string bufferWrite
           SampleLogs.unmarshalLog (SampleLogs.client 7) (Sample.definitionA [])
           Sample.runA (Some "51") "written before"
           "no pod associated with the run.").
  reflexivity.
Defined.

(** ** Merging the same events again *)

Section MergeTwice.

Lemma appendUnseen_all_seen (newEvents priorEvents : list PodEvent) :
  (∀ x, x ∈ newEvents → x ∈ priorEvents) →
  engine.appendUnseen priorEvents newEvents = priorEvents.
Proof.
  induction newEvents as [|newEvent rest IH]; intros Hseen; [done|].
  cbn [engine.appendUnseen].
  assert (existsb (λ priorEvent, PodEvent_Equal priorEvent newEvent) priorEvents
          = true) as ->.
  { apply seen_spec. apply Hseen. by left. }
  cbn. apply IH. intros x Hx. apply Hseen. by right.
Qed.

(** X30.  Merging is idempotent: a second status refresh that finds the same
    events on the cluster leaves the run's event list as the first one
    made it. *)
Theorem merging_the_same_events_twice_changes_nothing run events :
  engine.mergeEvents (engine.mergeEvents run events) events
  = engine.mergeEvents run events.
Proof.
  unfold engine.mergeEvents at 2 3.
  destruct (PodEvents run) as [[|e priorEvents]|] eqn:Hprior.
  - unfold engine.mergeEvents. destruct run; cbn in *.
    destruct (PodEvents_of events) as [|x xs] eqn:Hnew; [done|].
    rewrite appendUnseen_all_seen by done. done.
  - unfold engine.mergeEvents. destruct run; cbn [PodEvents set_PodEvents] in *.
    destruct (engine.appendUnseen (e :: priorEvents) (PodEvents_of events))
      as [|y ys] eqn:Hmerged.
    { pose proof (appendUnseen_prefix (PodEvents_of events) (e :: priorEvents))
        as [k Hk]. rewrite Hmerged in Hk. done. }
    rewrite <- Hmerged. rewrite appendUnseen_all_seen; [done|].
    intros x Hx. apply appendUnseen_elem. by right.
  - unfold engine.mergeEvents. destruct run; cbn in *.
    destruct (PodEvents_of events) as [|x xs] eqn:Hnew; [done|].
    rewrite appendUnseen_all_seen by done. done.
Qed.

End MergeTwice.

(** The ratio test of [constructAffinity] at the boundary, and the selector
    of a run whose granted CPU is at least half its granted memory. *)
Example cpu_heavy_runs_are_pinned :
  adapter.cpuToMemoryAtLeastHalf 1000 2000 = true
  ∧ adapter.cpuToMemoryAtLeastHalf 999 2000 = false
  ∧ adapter.jobAffinity Sample.MinCPU Sample.MaxCPU Sample.MinMem Sample.MaxMem
      Sample.queuedAtSince
      (mkExecutable (Some "C")
         (mkExecutableResources "image" (Some 2000) None (Some 1000) (Some [])
                                None None))
      Sample.runA (Sample.managerWith (Sample.priorRun "" 2048 1000)) false
    = Some [excludeGpuNodes; onlyCpuNodes; onLifecycle "spot"].
Proof. repeat split; vm_compute; reflexivity. Qed.
